(** * siren: status checkers, status transitions and the error-rate monitor

    A shallow embedding of the status-monitoring core of the bot:
    - package [lib]: the BongaCams and CAM4 roster checkers
      ([checkEndpoint]), the Stripchat roster loop
      ([StartStripchatAPIChecker]) and [Cam4CanonicalModelID];
    - [cmd/bot/main.go]: [updateStatus], [notFound], [removeNotFound],
      [processStatusUpdate], [unknownsNumber] and [processPeriodic].

    Conventions.  Go [int] and [time.Duration] are 64-bit: they are [Z]
    with the wrap-around written out ([wrap64]).  A Go [map] is a [gmap];
    a [nil] map reads as the empty map.  A SQLite table with a primary key
    on one column is a [gmap] from that key to the row, the [signals] table
    (read in [chat_id] order) is a list of rows.  Database statements are
    taken to succeed ([checkErr] would stop the process otherwise).  A
    run-time panic is [None].  The endpoints that the rows of [signals]
    and the configuration name are taken to be configured: the code reads
    [w.tr[endpoint]] and [w.bots[endpoint]], which are [nil] for any other
    endpoint, and panics there; the model has no such panic, so what it
    says of a run that ends holds of the code, and what it says of a run
    not panicking holds of the code for configured endpoints.
    [strings.ToLower] is the function [ToLower] on ASCII text and a
    parameter [strings_ToLower] where the text is not known to be ASCII.
    Logging ([Lerr], [Linf], [Ldbg]) has no effect on any result and is
    left out. *)

From Stdlib Require Import ZArith List Bool Ascii String Lia.
From stdpp Require Import base option list gmap strings sorting fin_maps.

Open Scope string_scope.
Open Scope list_scope.
Open Scope Z_scope.

(* ===================================================================== *)
(** ** Machine integers *)
(* ===================================================================== *)

(** Two's-complement reduction of a mathematical integer to a Go [int]. *)
Definition wrap64 (z : Z) : Z := (z + 2 ^ 63) mod 2 ^ 64 - 2 ^ 63.

Definition int_add (a b : Z) : Z := wrap64 (a + b).
Definition int_sub (a b : Z) : Z := wrap64 (a - b).
Definition int_mul (a b : Z) : Z := wrap64 (a * b).

(** The values of a Go [int]. *)
Definition is_int (z : Z) : Prop := - 2 ^ 63 <= z < 2 ^ 63.

#[global] Instance is_int_dec z : Decision (is_int z).
Proof. unfold is_int. apply _. Defined.

(* ===================================================================== *)
(** ** package lib: shared declarations *)
(* ===================================================================== *)

Module Lib.

(** Modelled from the spec: the declaration of [StatusKind] is not among
    the sources; the constructors are the constants the sources use
    ([StatusUnknown], [StatusOffline], [StatusOnline], [StatusNotFound],
    [StatusDenied], [StatusExists]), the first five being the spec's
    Status values. *)
Inductive StatusKind : Set :=
| StatusUnknown
| StatusOffline
| StatusOnline
| StatusNotFound
| StatusDenied
| StatusExists.

#[global] Instance StatusKind_eq_dec : EqDecision StatusKind.
Proof. solve_decision. Defined.

(** Modelled from the spec: [StatusUpdate] is declared outside the sources;
    the fields are the two the sources of [lib] and [main] fill in. *)
Record StatusUpdate : Set := mkStatusUpdate {
  ModelID : string;
  Status : StatusKind
}.

(** A configured egress identity; only its address is ever read. *)
Record Client : Set := mkClient { Addr : string }.

(** [strings.ToLower] on ASCII text: the letters [A]..[Z] are mapped to
    [a]..[z], every other byte is kept.  (Model identifiers are ASCII:
    [Cam4ModelIDRegexp] is [^[a-z0-9_]+$].)  On text with other letters
    [strings.ToLower] follows the Unicode tables (it maps the Kelvin sign
    to [k], for one); where the code lower-cases text it has not
    validated, the names of a roster, the function is a parameter
    [strings_ToLower] of the model, of which nothing is assumed. *)
Definition lower_ascii (c : ascii) : ascii :=
  let n := N_of_ascii c in
  if ((65 <=? n) && (n <=? 90))%N then ascii_of_N (n + 32) else c.

Fixpoint ToLower (s : string) : string :=
  match s with
  | EmptyString => EmptyString
  | String c s' => String (lower_ascii c) (ToLower s')
  end.

(** What [onlineQuery] hands back: an error, or the response (of which the
    checkers read the status code only) and the body. *)
Record Response : Set := mkResponse { StatusCode : Z }.

Inductive queryResult : Set :=
| QueryError (err : string)
| QueryDone (resp : Response) (buf : string).

(** The errors the roster checkers build with [fmt.Errorf] and
    [errors.New]. *)
Inductive error : Set :=
| CannotSendQuery (cause : string)      (* "cannot send a query, %v" *)
| QueryStatus (code : Z)                (* "query status, %d" *)
| CannotParseResponse (cause : string)  (* "cannot parse response, %v" *)
| ZeroOnlineModels.                     (* "zero online models reported" *)

Definition headers : Set := list (string * string).

End Lib.

Import Lib.

(* ===================================================================== *)
(** ** lib/bongacams.go and the CAM4 checker *)
(* ===================================================================== *)

(** The part of [CheckerCommon] that [checkEndpoint] touches.  The client
    loop and its [nextClient] are declared outside the sources and are
    taken as parameters of the section below. *)
Record CheckerCommon (ClientsLoop : Type) : Type := mkCheckerCommon {
  clientsLoop : ClientsLoop;
  Headers : headers;
  Dbg : bool
}.
Arguments mkCheckerCommon {ClientsLoop}.
Arguments clientsLoop {ClientsLoop}.
Arguments Headers {ClientsLoop}.
Arguments Dbg {ClientsLoop}.

(** The three results of [checkEndpoint]. *)
Record endpointResult : Type := mkEndpointResult {
  onlineModels : gmap string StatusKind;
  images : gmap string string;
  err : option error
}.

Definition failed (e : error) : endpointResult :=
  {| onlineModels := ∅; images := ∅; err := Some e |}.

Module BongaCams.

Record bongacamsModel : Set := mkModel {
  Username : string;
  ThumbnailImageMediumLive : string  (* ProfileImages.ThumbnailImageMediumLive *)
}.

(** [CheckStatusSingle], on the status code [queryStatusCode] returned. *)
Definition CheckStatusSingle (code : Z) : StatusKind :=
  if code =? 200 then StatusOnline
  else if code =? 302 then StatusOffline
  else if code =? 404 then StatusNotFound
  else StatusUnknown.

Section Checker.
Context {ClientsLoop : Type}.
(** [strings.ToLower], applied to the names the site returns. *)
Variable strings_ToLower : string -> string.
Variable nextClient : ClientsLoop -> Client * ClientsLoop.
Variable onlineQuery : string -> Client -> headers -> queryResult.
(** [json.Decoder.Decode] into [[]bongacamsModel]. *)
Variable decode : string -> string + list bongacamsModel.

(** The [for _, m := range parsed] loop. *)
Definition collect (parsed : list bongacamsModel)
  : gmap string StatusKind * gmap string string :=
  foldl (fun acc m =>
           let modelID := strings_ToLower (Username m) in
           (<[modelID := StatusOnline]> (fst acc),
            <[modelID := "https:" +:+ ThumbnailImageMediumLive m]> (snd acc)))
        (∅, ∅) parsed.

Definition checkEndpoint (c : CheckerCommon ClientsLoop) (endpoint : string)
  : CheckerCommon ClientsLoop * endpointResult :=
  let '(client, loop) := nextClient (clientsLoop c) in
  let c := mkCheckerCommon loop (Headers c) (Dbg c) in
  match onlineQuery endpoint client (Headers c) with
  | QueryError e => (c, failed (CannotSendQuery e))
  | QueryDone resp buf =>
    if negb (StatusCode resp =? 200) then
      (c, failed (QueryStatus (StatusCode resp)))
    else
      match decode buf with
      | inl e => (c, failed (CannotParseResponse e))
      | inr parsed =>
        if (length parsed =? 0)%nat then (c, failed ZeroOnlineModels)
        else
          let r := collect parsed in
          (c, {| onlineModels := fst r; images := snd r; err := None |})
      end
  end.
End Checker.

End BongaCams.

Module Cam4.

Record cam4Model : Set := mkModel {
  Nickname : string;
  ThumbBig : string
}.

Definition cam4RoomStatus (roomStatus : string) : StatusKind :=
  if bool_decide (roomStatus = "online") then StatusOnline
  else if bool_decide (roomStatus = "offline") then StatusOffline
  else StatusUnknown.

Section Checker.
Context {ClientsLoop : Type}.
(** [strings.ToLower], applied to the names the site returns. *)
Variable strings_ToLower : string -> string.
Variable nextClient : ClientsLoop -> Client * ClientsLoop.
Variable onlineQuery : string -> Client -> headers -> queryResult.
(** [json.Decoder.Decode] into [[]cam4Model]. *)
Variable decode : string -> string + list cam4Model.

(** The [for _, m := range parsed] loop. *)
Definition collect (parsed : list cam4Model)
  : gmap string StatusKind * gmap string string :=
  foldl (fun acc m =>
           let modelID := strings_ToLower (Nickname m) in
           (<[modelID := StatusOnline]> (fst acc),
            <[modelID := ThumbBig m]> (snd acc)))
        (∅, ∅) parsed.

Definition checkEndpoint (c : CheckerCommon ClientsLoop) (endpoint : string)
  : CheckerCommon ClientsLoop * endpointResult :=
  let '(client, loop) := nextClient (clientsLoop c) in
  let c := mkCheckerCommon loop (Headers c) (Dbg c) in
  match onlineQuery endpoint client (Headers c) with
  | QueryError e => (c, failed (CannotSendQuery e))
  | QueryDone resp buf =>
    if negb (StatusCode resp =? 200) then
      (c, failed (QueryStatus (StatusCode resp)))
    else
      match decode buf with
      | inl e => (c, failed (CannotParseResponse e))
      | inr parsed =>
        let r := collect parsed in
        (c, {| onlineModels := fst r; images := snd r; err := None |})
      end
  end.
End Checker.

(** *** [Cam4CanonicalModelID] *)

(** The class [[A-Za-z0-9_]] of [cam4ModelRegex]. *)
Definition isModelChar (c : ascii) : bool :=
  let n := N_of_ascii c in
  (((65 <=? n) && (n <=? 90)) || ((97 <=? n) && (n <=? 122))
   || ((48 <=? n) && (n <=? 57)) || (n =? 95))%N.

(** [stripPrefix p s] is the rest of [s] after the literal [p]. *)
Fixpoint stripPrefix (p s : string) : option string :=
  match p with
  | EmptyString => Some s
  | String a p' =>
    match s with
    | EmptyString => None
    | String b s' => if Ascii.eqb a b then stripPrefix p' s' else None
    end
  end.

(** The longest prefix made of characters of the class, and the rest. *)
Fixpoint spanModelChars (s : string) : string * string :=
  match s with
  | EmptyString => (EmptyString, EmptyString)
  | String c s' =>
    if isModelChar c then
      let r := spanModelChars s' in (String c (fst r), snd r)
    else (EmptyString, s)
  end.

(** [.] does not match a line feed. *)
Fixpoint noNewline (s : string) : bool :=
  match s with
  | EmptyString => true
  | String c s' => negb (Ascii.eqb c "010"%char) && noNewline s'
  end.

(** The optional last group of the expression, up to the end of the text:
    nothing, or one of [/] and [?] followed by anything on the same line. *)
Definition tailMatches (rest : string) : bool :=
  match rest with
  | EmptyString => true
  | String c rest' =>
    (Ascii.eqb c "/"%char || Ascii.eqb c "?"%char) && noNewline rest'
  end.

(** [cam4ModelRegex.FindStringSubmatch], reduced to its first group:
    an optional [http://] or [https://], the literal [cam4.com/], the group
    [[A-Za-z0-9_]+], and the optional tail of [tailMatches].  The optional
    scheme is taken when it is there (without it the text would have to
    start with [cam4.com/]), and the group is the longest run of the class
    (what follows it is the end or one of [/] and [?]). *)
Definition cam4ModelRegex_FindStringSubmatch (name : string) : option string :=
  let afterScheme :=
    match stripPrefix "https://" name with
    | Some r => r
    | None =>
      match stripPrefix "http://" name with
      | Some r => r
      | None => name
      end
    end in
  match stripPrefix "cam4.com/" afterScheme with
  | None => None
  | Some r =>
    let '(id, rest) := spanModelChars r in
    match id with
    | EmptyString => None
    | _ => if tailMatches rest then Some id else None
    end
  end.

Definition Cam4CanonicalModelID (name : string) : string :=
  match cam4ModelRegex_FindStringSubmatch name with
  | Some m1 => ToLower m1
  | None => ToLower name
  end.

End Cam4.

(* ===================================================================== *)
(** ** lib/stripchat.go: the roster loop *)
(* ===================================================================== *)

Module Stripchat.

Record stripchatModel : Set := mkModel { Username : string }.

Record stripchatResponse : Set := mkResponse { Models : list stripchatModel }.

(** What one round sends: one value on [elapsedCh], then values on
    [output], in this order. *)
Inductive sent : Set :=
| OnElapsed (elapsed : Z)
| OnOutput (u : StatusUpdate).

(** Modelled from the spec: [sendUnknowns] is not among the sources; on a
    failed round every entity's result is Unknown. *)
Definition sendUnknowns (models : list string) : list sent :=
  map (fun modelID => OnOutput (mkStatusUpdate modelID StatusUnknown)) models.

Section Checker.
(** [strings.ToLower], applied to the names the site returns. *)
Variable strings_ToLower : string -> string.
(** [onlineQuery] of this checker also returns the elapsed time. *)
Variable onlineQuery : string -> Client -> headers -> queryResult * Z.
(** [json.Decoder.Decode] into [stripchatResponse]. *)
Variable decode : string -> string + stripchatResponse.

Variable usersOnlineEndpoint : string.
Variable clients : list Client.
Variable hdrs : headers.

(** [hash]: the lower-cased user names of the roster. *)
Definition rosterHash (parsed : stripchatResponse) : gmap string bool :=
  foldl (fun hash m => <[strings_ToLower (Username m) := true]> hash) ∅
        (Models parsed).

(** [hash[modelID]]: a missing key reads as [false]. *)
Definition hashGet (hash : gmap string bool) (modelID : string) : bool :=
  default false (hash !! modelID).

(** One iteration of [for models := range input], from the client index
    it starts with: the next client index and what was sent.  Indexing
    [clients] out of range panics. *)
Definition checkerRound (clientIdx : nat) (models : list string)
  : option (nat * list sent) :=
  match clients !! clientIdx with
  | None => None
  | Some client =>
    let clientIdx := S clientIdx in
    let clientIdx := if (clientIdx =? length clients)%nat then 0%nat else clientIdx in
    let '(r, elapsed) := onlineQuery usersOnlineEndpoint client hdrs in
    match r with
    | QueryError _ => Some (clientIdx, OnElapsed elapsed :: sendUnknowns models)
    | QueryDone resp buf =>
      if negb (StatusCode resp =? 200) then
        Some (clientIdx, OnElapsed elapsed :: sendUnknowns models)
      else
        match decode buf with
        | inl _ => Some (clientIdx, OnElapsed elapsed :: sendUnknowns models)
        | inr parsed =>
          let hash := rosterHash parsed in
          Some (clientIdx,
                OnElapsed elapsed ::
                map (fun modelID =>
                       let newStatus :=
                         if hashGet hash modelID then StatusOnline else StatusOffline in
                       OnOutput (mkStatusUpdate modelID newStatus))
                    models)
        end
    end
  end.
End Checker.

End Stripchat.

(* ===================================================================== *)
(** ** cmd/bot/main.go *)
(* ===================================================================== *)

Module Bot.

(** The fields of [config] that the functions below read (the declaration
    of [config] is outside the sources). *)
Record config : Set := mkConfig {
  OfflineNotifications : bool;
  OfflineThresholdSeconds : Z;
  NotFoundThreshold : Z;
  BlockThreshold : Z;
  MaxModels : Z;
  errorThreshold : Z;
  errorDenominator : Z;
  ErrorReportingPeriodMinutes : Z;
  AdminEndpoint : string;
  AdminID : Z
}.

(** *** The tables of [createDatabase] that the functions below use *)

(** [signals (chat_id, model_id, endpoint)]: one row per subscription. *)
Record signal : Set := mkSignal {
  chat_id : Z;
  model_id : string;
  endpoint : string
}.

(** [statuses (model_id primary key, status, not_found, last_online)]. *)
Record statusRow : Set := mkStatus {
  status : StatusKind;
  not_found : Z;
  last_online : Z
}.

(** [users (chat_id primary key, max_models, reports)]. *)
Record user : Set := mkUser {
  max_models : Z;
  reports : Z
}.

(** [block] is keyed by [(chat_id, endpoint)].  The [emails] table, which
    [addUser] fills with a fresh random identifier and which none of the
    functions below reads, is left out. *)
Record database : Type := mkDB {
  signals : list signal;
  statuses : gmap string statusRow;
  block : gmap (Z * string) Z;
  users : gmap Z user
}.

(** *** Messages handed to the bots *)

(** The translations [sendTr] is called with here. *)
Inductive translationKey : Set := Online | Offline | Denied | ProfileRemoved.

Inductive text : Set :=
| Translated (tr : translationKey) (modelID : string)
    (* fmt.Sprintf(w.tr[endpoint].<tr>.Str, modelID) *)
| DangerousErrorRate (unknownsNumber denominator : Z).
    (* "Dangerous error rate reached: %d/%d" *)

Record message : Set := mkMessage {
  msgEndpoint : string;
  msgChatID : Z;
  msgNotify : bool;
  msgText : text
}.

#[global] Instance translationKey_eq_dec : EqDecision translationKey.
Proof. solve_decision. Defined.

#[global] Instance text_eq_dec : EqDecision text.
Proof. solve_decision. Defined.

(** What [w.bots[endpoint].Send] answers: success, a [tg.Error] with code
    403, or any other error. *)
Inductive sendResult : Set := SendOK | SendForbidden | SendFailed.

(** The worker: configuration, database, the circular buffer of the error
    monitor, and [outbox], the messages handed to the bots so far. *)
Record worker : Type := mkWorker {
  cfg : config;
  db : database;
  unknowns : list bool;
  unknownsPos : Z;
  nextErrorReport : Z;
  outbox : list message
}.

Definition withDB (f : database -> database) (w : worker) : worker :=
  mkWorker (cfg w) (f (db w)) (unknowns w) (unknownsPos w) (nextErrorReport w)
           (outbox w).

Definition onSignals (f : list signal -> list signal) (d : database) : database :=
  mkDB (f (signals d)) (statuses d) (block d) (users d).

Definition onStatuses (f : gmap string statusRow -> gmap string statusRow)
  (d : database) : database :=
  mkDB (signals d) (f (statuses d)) (block d) (users d).

Definition onBlock (f : gmap (Z * string) Z -> gmap (Z * string) Z)
  (d : database) : database :=
  mkDB (signals d) (statuses d) (f (block d)) (users d).

Definition onUsers (f : gmap Z user -> gmap Z user) (d : database) : database :=
  mkDB (signals d) (statuses d) (block d) (f (users d)).

(** [select count( * ) from signals where model_id=?] *)
Definition signalsCount (d : database) (modelID : string) : Z :=
  Z.of_nat (length (filter (fun s => model_id s = modelID) (signals d))).

(** [block.block is null or block.block<?] on the row joined to a signal. *)
Definition notBlocked (c : config) (d : database) (s : signal) : Prop :=
  match block d !! (chat_id s, endpoint s) with
  | None => True
  | Some b => b < BlockThreshold c
  end.

#[global] Instance notBlocked_dec c d s : Decision (notBlocked c d s).
Proof. unfold notBlocked. destruct (block d !! _); apply _. Defined.

(** [order by signals.chat_id] *)
Definition byChat (a b : Z * string) : Prop := a.1 <= b.1.

#[global] Instance byChat_dec : RelDecision byChat.
Proof. intros a b. unfold byChat. apply _. Defined.

(** [order by model_id] *)
Definition byModel (a b : string) : Prop := String.leb a b = true.

#[global] Instance byModel_dec : RelDecision byModel.
Proof. intros a b. unfold byModel. apply _. Defined.

(** [chatsForModel]: the chats and endpoints, as one list of pairs. *)
Definition chatsForModel (w : worker) (modelID : string) : list (Z * string) :=
  merge_sort byChat
    ((fun s => (chat_id s, endpoint s)) <$>
     filter (fun s => model_id s = modelID /\ notBlocked (cfg w) (db w) s)
            (signals (db w))).

(** [models]: the watch-list of the next round. *)
Definition models (w : worker) : list string :=
  merge_sort byModel
    (remove_dups (model_id <$> filter (notBlocked (cfg w) (db w)) (signals (db w)))).

(** [cleanStatuses] *)
Definition cleanStatuses (w : worker) : worker :=
  withDB (onStatuses
            (filter (fun kv : string * statusRow =>
                       kv.1 ∈ (model_id <$> signals (db w))))) w.

(** [removeNotFound] *)
Definition removeNotFound (w : worker) (modelID : string) : worker :=
  cleanStatuses
    (withDB (onSignals (filter (fun s => model_id s <> modelID))) w).

Section Transport.
(** The answer of the bot to the [n]-th message handed to it. *)
Variable botSend : nat -> sendResult.

Definition incrementBlock (w : worker) (endpoint : string) (chatID : Z) : worker :=
  withDB (onBlock (fun b =>
    let b := match b !! (chatID, endpoint) with
             | None => <[(chatID, endpoint) := 0]> b
             | Some _ => b
             end in
    alter (fun n => n + 1) (chatID, endpoint) b)) w.

Definition resetBlock (w : worker) (endpoint : string) (chatID : Z) : worker :=
  withDB (onBlock (alter (fun _ => 0) (chatID, endpoint))) w.

Definition sendMessage (w : worker) (endpoint : string) (msg : message) : worker :=
  let chatID := msgChatID msg in
  let answer := botSend (length (outbox w)) in
  let w := mkWorker (cfg w) (db w) (unknowns w) (unknownsPos w)
                    (nextErrorReport w) (outbox w ++ [msg]) in
  match answer with
  | SendForbidden => incrementBlock w endpoint chatID
  | SendFailed => w
  | SendOK => resetBlock w endpoint chatID
  end.

(** [sendText]; [disablePreview] and [parse] only shape the message and
    are left out. *)
Definition sendText (w : worker) (endpoint : string) (chatID : Z)
  (notify : bool) (t : text) : worker :=
  sendMessage w endpoint (mkMessage endpoint chatID notify t).

(** [sendTr], for an endpoint of the configuration: [w.tr[endpoint]] and
    [w.bots[endpoint]] are there.  (For another endpoint both are [nil]
    and the code panics; this is left out.) *)
Definition sendTr (w : worker) (endpoint : string) (chatID : Z)
  (notify : bool) (tr : translationKey) (modelID : string) : worker :=
  sendText w endpoint chatID notify (Translated tr modelID).

(** [addUser]: [insert or ignore] into [users]. *)
Definition addUser (w : worker) (endpoint : string) (chatID : Z) : worker :=
  withDB (onUsers (fun u =>
    match u !! chatID with
    | None => <[chatID := mkUser (MaxModels (cfg w)) 0]> u
    | Some _ => u
    end)) w.

Definition reportStatus (w : worker) (endpoint : string) (chatID : Z)
  (modelID : string) (st : StatusKind) : worker :=
  let w :=
    match st with
    | StatusOnline => sendTr w endpoint chatID true Online modelID
    | StatusOffline => sendTr w endpoint chatID false Offline modelID
    | StatusDenied => sendTr w endpoint chatID false Denied modelID
    | _ => w
    end in
  let w := addUser w endpoint chatID in
  withDB (onUsers (alter (fun u => mkUser (max_models u) (reports u + 1)) chatID)) w.

Definition reportNotFound (w : worker) (modelID : string) : worker :=
  foldl (fun w c => sendTr w c.2 c.1 false ProfileRemoved modelID)
        w (chatsForModel w modelID).

(** [updateStatus] *)
Definition updateStatus (w : worker) (modelID : string) (newStatus : StatusKind)
  (timestamp : Z) : worker * bool :=
  let w :=
    if bool_decide (newStatus <> StatusNotFound) then
      withDB (onStatuses
                (alter (fun r => mkStatus (status r) 0 (last_online r)) modelID)) w
    else w in
  let newStatus :=
    if bool_decide (newStatus <> StatusNotFound) then newStatus
    else StatusOffline in
  if signalsCount (db w) modelID =? 0 then (w, false)
  else
    match statuses (db w) !! modelID with
    | None =>
      let lastOnline :=
        if bool_decide (newStatus = StatusOnline) then timestamp else 0 in
      (withDB (onStatuses (insert modelID (mkStatus newStatus 0 lastOnline))) w,
       true)
    | Some row =>
      let oldStatus := status row in
      let lastOnline := last_online row in
      let changeOK :=
        OfflineNotifications (cfg w)
        || (bool_decide (oldStatus <> StatusOnline)
            && bool_decide (newStatus = StatusOnline)) in
      let durationOK :=
        OfflineNotifications (cfg w)
        || (OfflineThresholdSeconds (cfg w) <=? int_sub timestamp lastOnline) in
      let notify :=
        bool_decide (oldStatus <> newStatus) && changeOK && durationOK in
      let lastOnline :=
        if bool_decide (newStatus = StatusOnline) then timestamp
        else lastOnline in
      (withDB (onStatuses
                 (alter (fun r => mkStatus newStatus (not_found r) lastOnline)
                        modelID)) w,
       notify)
    end.

(** [notFound].  The streak read back is the one just written; a SQLite
    integer does not wrap (and a streak grows by one per round). *)
Definition notFound (w : worker) (modelID : string) : worker * bool :=
  match statuses (db w) !! modelID with
  | None => (w, false)
  | Some row =>
    (withDB (onStatuses
               (alter (fun r => mkStatus (status r) (not_found r + 1) (last_online r))
                      modelID)) w,
     not_found row + 1 >? NotFoundThreshold (cfg w))
  end.

(** [unknownsNumber]; the count is at most the length of the slice. *)
Definition unknownsNumber (w : worker) : Z :=
  foldl (fun unknownsCount (s : bool) =>
           if s then unknownsCount + 1 else unknownsCount)
        0 (unknowns w).

(** The last two statements of [processStatusUpdate].  Indexing
    [unknowns] out of range panics, and so does [%] by zero; past the
    index check [unknownsPos + 1] is at most the length of the slice. *)
Definition recordUnknown (w : worker) (isUnknown : bool) : option worker :=
  let pos := unknownsPos w in
  if (0 <=? pos) && (pos <? Z.of_nat (length (unknowns w))) then
    if errorDenominator (cfg w) =? 0 then None
    else
      Some (mkWorker (cfg w) (db w)
                     (<[Z.to_nat pos := isUnknown]> (unknowns w))
                     (Z.rem (pos + 1) (errorDenominator (cfg w)))
                     (nextErrorReport w) (outbox w))
  else None.

(** [processStatusUpdate] *)
Definition processStatusUpdate (w : worker) (statusUpdate : StatusUpdate)
  (timestamp : Z) : option worker :=
  let modelID := ModelID statusUpdate in
  let st := Status statusUpdate in
  let w :=
    if bool_decide (st = StatusNotFound) then
      let '(w, gone) := notFound w modelID in
      if gone then removeNotFound (reportNotFound w modelID) modelID else w
    else w in
  let w :=
    if bool_decide (st <> StatusUnknown) then
      let '(w, notify) := updateStatus w modelID st timestamp in
      if notify then
        foldl (fun w c => reportStatus w c.2 c.1 modelID st)
              w (chatsForModel w modelID)
      else w
    else w in
  recordUnknown w (bool_decide (st = StatusUnknown)).

(** [time.Minute], in nanoseconds. *)
Definition Minute : Z := 60000000000.

(** [processPeriodic] at the instant [now]; [receiverReady] tells whether
    the checker is waiting on [statusRequests], and the second result is
    the watch-list sent to it, if any. *)
Definition processPeriodic (w : worker) (now : Z) (receiverReady : bool)
  : worker * option (list string) :=
  let unknownsNumber := unknownsNumber w in
  let w :=
    if (nextErrorReport w <? now) && (unknownsNumber >? errorThreshold (cfg w))
    then
      let w := sendText w (AdminEndpoint (cfg w)) (AdminID (cfg w)) true
                        (DangerousErrorRate unknownsNumber
                                            (errorDenominator (cfg w))) in
      mkWorker (cfg w) (db w) (unknowns w) (unknownsPos w)
               (now + int_mul Minute (ErrorReportingPeriodMinutes (cfg w)))
               (outbox w)
    else w in
  (w, if receiverReady then Some (models w) else None).

(** The two cases of the [select] in [main] that drive the monitor: the
    periodic timer fired at the instant [now], or a status update was
    received at the Unix time [timestamp]. *)
Inductive event : Set :=
| PeriodicTick (now : Z) (receiverReady : bool)
| StatusReceived (statusUpdate : StatusUpdate) (timestamp : Z).

Definition mainStep (w : worker) (e : event) : option worker :=
  match e with
  | PeriodicTick now receiverReady =>
    Some (processPeriodic w now receiverReady).1
  | StatusReceived statusUpdate timestamp =>
    processStatusUpdate w statusUpdate timestamp
  end.

(** The main loop over the events it receives. *)
Fixpoint mainLoop (w : worker) (events : list event) : option worker :=
  match events with
  | [] => Some w
  | e :: rest =>
    match mainStep w e with
    | None => None
    | Some w' => mainLoop w' rest
    end
  end.
End Transport.

End Bot.

Import Bot.

(* ===================================================================== *)
(** ** Vocabulary of the properties *)
(* ===================================================================== *)

(** *** Identifiers and profile URLs *)

(** An identifier: a non-empty run of characters of the class
    [[A-Za-z0-9_]]. *)
Fixpoint allModelChars (s : string) : bool :=
  match s with
  | EmptyString => true
  | String c s' => Cam4.isModelChar c && allModelChars s'
  end.

Definition isIdentifier (s : string) : Prop :=
  s <> EmptyString /\ allModelChars s = true.

#[global] Instance isIdentifier_dec s : Decision (isIdentifier s).
Proof. unfold isIdentifier. apply _. Defined.

(** The profile-URL forms of an identifier: an optional scheme, the host,
    the identifier, and an optional tail starting with [/] or [?]. *)
Definition isScheme (s : string) : Prop :=
  s = EmptyString \/ s = "http://" \/ s = "https://".

#[global] Instance isScheme_dec s : Decision (isScheme s).
Proof. unfold isScheme. apply _. Defined.

Definition profileURL (scheme id tail : string) : string :=
  scheme +:+ "cam4.com/" +:+ id +:+ tail.

(** *** Results of a Stripchat round *)

Definition isUnknown (u : StatusUpdate) : Prop := Status u = StatusUnknown.

(** Online when the identifier is among the lower-cased user names of the
    roster, Offline otherwise. *)
Definition rosterStatus (strings_ToLower : string -> string)
  (parsed : Stripchat.stripchatResponse) (u : StatusUpdate) : Prop :=
  Status u =
  if bool_decide (ModelID u ∈ (fun m => strings_ToLower (Stripchat.Username m))
                              <$> Stripchat.Models parsed)
  then StatusOnline else StatusOffline.

(** *** The store *)

(** The entity has a subscription row. *)
Definition watched (w : worker) (m : string) : Prop :=
  m ∈ model_id <$> signals (db w).

#[global] Instance watched_dec w m : Decision (watched w m).
Proof. unfold watched. apply _. Defined.

(** Every status record belongs to a watched entity. *)
Definition recordsWatched (w : worker) : Prop :=
  forall m, is_Some (statuses (db w) !! m) -> watched w m.

(** The entity has neither a subscription nor a record. *)
Definition goneFor (w : worker) (m : string) : Prop :=
  ~ watched w m /\ statuses (db w) !! m = None.

(** The circular buffer can be written: the position is inside the slice
    and the denominator is not zero. *)
Definition bufferReady (w : worker) : Prop :=
  0 <= unknownsPos w < Z.of_nat (length (unknowns w)) /\
  errorDenominator (cfg w) <> 0.

#[global] Instance bufferReady_dec w : Decision (bufferReady w).
Proof. unfold bufferReady. apply _. Defined.

(** The fields of the error monitor, which no database statement touches. *)
Definition buffer (w : worker) : config * list bool * Z * Z :=
  (cfg w, unknowns w, unknownsPos w, nextErrorReport w).

(** *** The notification rule, in the words of the specification *)

Definition presence (st : StatusKind) : Prop :=
  st = StatusOnline \/ st = StatusOffline \/ st = StatusDenied.

#[global] Instance presence_dec st : Decision (presence st).
Proof. unfold presence. apply _. Defined.

(** [notify = (storedStatus != observedStatus) AND changeAllowed AND
    durationAllowed]. *)
Definition specNotify (c : config) (storedStatus : StatusKind) (lastOnline : Z)
  (observedStatus : StatusKind) (now : Z) : bool :=
  let changeAllowed :=
    OfflineNotifications c || bool_decide (observedStatus = StatusOnline) in
  let durationAllowed :=
    OfflineNotifications c || (OfflineThresholdSeconds c <=? now - lastOnline) in
  bool_decide (storedStatus <> observedStatus) && changeAllowed && durationAllowed.

(** "absent record: treat prior status as Unknown, prior lastOnline as 0" *)
Definition priorStatus (w : worker) (m : string) : StatusKind :=
  match statuses (db w) !! m with
  | Some r => status r
  | None => StatusUnknown
  end.

Definition priorLastOnline (w : worker) (m : string) : Z :=
  match statuses (db w) !! m with
  | Some r => last_online r
  | None => 0
  end.

(** *** Messages *)

(** What [reportStatus] sends to one chat. *)
Definition statusMessage (e : string) (c : Z) (m : string) (st : StatusKind)
  : list message :=
  match st with
  | StatusOnline => [mkMessage e c true (Translated Online m)]
  | StatusOffline => [mkMessage e c false (Translated Offline m)]
  | StatusDenied => [mkMessage e c false (Translated Denied m)]
  | _ => []
  end.

(** What [reportStatus] sends to a list of chats. *)
Definition statusMessages (m : string) (st : StatusKind) (chats : list (Z * string))
  : list message :=
  flat_map (fun c => statusMessage c.2 c.1 m st) chats.

(** What [reportNotFound] sends to one chat. *)
Definition goneMessage (m : string) (c : Z * string) : message :=
  mkMessage c.2 c.1 false (Translated ProfileRemoved m).

(** The message tells that the profile of [m] was removed. *)
Definition isGoneFor (m : string) (msg : message) : Prop :=
  msgText msg = Translated ProfileRemoved m.

#[global] Instance isGoneFor_dec m msg : Decision (isGoneFor m msg).
Proof. unfold isGoneFor. apply _. Defined.

(** The message is an error-rate alert. *)
Definition isAlert (msg : message) : Prop :=
  match msgText msg with
  | DangerousErrorRate _ _ => True
  | Translated _ _ => False
  end.

#[global] Instance isAlert_dec msg : Decision (isAlert msg).
Proof. unfold isAlert. destruct (msgText msg); apply _. Defined.

(** The number of [true] samples in the buffer. *)
Definition countTrue (l : list bool) : Z :=
  Z.of_nat (length (filter (fun s => s = true) l)).

(** The instants of the periodic evaluations among the events. *)
Fixpoint tickTimes (events : list event) : list Z :=
  match events with
  | [] => []
  | PeriodicTick now _ :: rest => now :: tickTimes rest
  | StatusReceived _ _ :: rest => tickTimes rest
  end.

(** *** The two halves of [processStatusUpdate] and what they store *)

Definition stage1 (botSend : nat -> sendResult) (w : worker) (m : string)
  (st : StatusKind) : worker :=
  if bool_decide (st = StatusNotFound) then
    let '(w, gone) := notFound w m in
    if gone then removeNotFound (reportNotFound botSend w m) m else w
  else w.

Definition stage2 (botSend : nat -> sendResult) (w : worker) (m : string)
  (st : StatusKind) (ts : Z) : worker :=
  if bool_decide (st <> StatusUnknown) then
    let '(w, notify) := updateStatus w m st ts in
    if notify then
      foldl (fun w c => reportStatus botSend w c.2 c.1 m st) w (chatsForModel w m)
    else w
  else w.

(** The row [notFound] writes. *)
Definition bumped (r : statusRow) : statusRow :=
  mkStatus (status r) (not_found r + 1) (last_online r).

(** The row [updateStatus] writes over the row [r] of a watched entity. *)
Definition storedAfter (r : statusRow) (st : StatusKind) (ts : Z) : statusRow :=
  let st' := if bool_decide (st = StatusNotFound) then StatusOffline else st in
  mkStatus st'
           (if bool_decide (st = StatusNotFound) then not_found r else 0)
           (if bool_decide (st' = StatusOnline) then ts else last_online r).

(* ===================================================================== *)
(** ** lib/stripchat.go: the rounds of the checker *)
(* ===================================================================== *)

Section StripchatLoop.
Variable strings_ToLower : string -> string.
(** What [onlineQuery] answers in the round of the given number. *)
Variable onlineQueryAt : nat -> string -> Client -> headers -> queryResult * Z.
Variable decode : string -> string + Stripchat.stripchatResponse.
Variable usersOnlineEndpoint : string.
Variable clients : list Client.
Variable hdrs : headers.

(** [for models := range input]: the rounds for the watch-lists received
    on [input], from the round number [round] and the client index
    [clientIdx]; the result is what is sent on [elapsedCh] and [output],
    in order.  A round that panics ends the program. *)
Fixpoint checkerLoop (round clientIdx : nat) (input : list (list string))
  : option (list Stripchat.sent) :=
  match input with
  | [] => Some []
  | models :: rest =>
    match Stripchat.checkerRound strings_ToLower (onlineQueryAt round) decode usersOnlineEndpoint
                                 clients hdrs clientIdx models with
    | None => None
    | Some (clientIdx, sent) =>
      match checkerLoop (S round) clientIdx rest with
      | None => None
      | Some sents => Some (sent ++ sents)
      end
    end
  end.

(** [StartStripchatAPIChecker]: [clientIdx := 0], then the loop. *)
Definition StartStripchatAPIChecker (input : list (list string))
  : option (list Stripchat.sent) :=
  checkerLoop 0 0 input.

(** What the round of number [round] sends when it runs with the client
    of index [clientIdx]. *)
Definition roundSent (round clientIdx : nat) (models : list string)
  : list Stripchat.sent :=
  match Stripchat.checkerRound strings_ToLower (onlineQueryAt round) decode usersOnlineEndpoint
                               clients hdrs clientIdx models with
  | Some (_, sent) => sent
  | None => []
  end.
End StripchatLoop.

(* ===================================================================== *)
(** ** The CAM4 checker: valid identifiers *)
(* ===================================================================== *)

(** The class [[a-z0-9_]] of [Cam4ModelIDRegexp]. *)
Definition isLowerModelChar (c : ascii) : bool :=
  let n := N_of_ascii c in
  (((97 <=? n) && (n <=? 122)) || ((48 <=? n) && (n <=? 57)) || (n =? 95))%N.

Fixpoint allLowerModelChars (s : string) : bool :=
  match s with
  | EmptyString => true
  | String c s' => isLowerModelChar c && allLowerModelChars s'
  end.

(** [Cam4ModelIDRegexp.MatchString]: the whole text is a non-empty run of
    characters of the class. *)
Definition Cam4ModelIDRegexp_MatchString (s : string) : bool :=
  match s with
  | EmptyString => false
  | String _ _ => allLowerModelChars s
  end.

(** The text is ASCII: every byte is below 128. *)
Fixpoint isASCII (s : string) : bool :=
  match s with
  | EmptyString => true
  | String c s' => (N_of_ascii c <? 128)%N && isASCII s'
  end.

(* ===================================================================== *)
(** ** cmd/bot/main.go: mail addresses *)
(* ===================================================================== *)

(** [strings.Split] with a separator of one byte: the pieces between the
    separators, one more than there are separators.  (The result of the
    recursive call is never empty.) *)
Fixpoint Split (s : string) (sep : ascii) : list string :=
  match s with
  | EmptyString => [EmptyString]
  | String c s' =>
    if Ascii.eqb c sep then EmptyString :: Split s' sep
    else
      match Split s' sep with
      | piece :: pieces => String c piece :: pieces
      | [] => [String c EmptyString]
      end
  end.

(** [splitAddress] *)
Definition splitAddress (a : string) : string * string :=
  let a := ToLower a in
  let parts := Split a "@"%char in
  match parts with
  | [user; host] => (user, host)
  | _ => (EmptyString, EmptyString)
  end.

(** The number of bytes [b] in the text. *)
Fixpoint countByte (b : ascii) (s : string) : nat :=
  match s with
  | EmptyString => 0%nat
  | String c s' => ((if Ascii.eqb c b then 1 else 0) + countByte b s')%nat
  end.

(* ===================================================================== *)
(** ** cmd/bot/main.go: the counts of [getStat] *)
(* ===================================================================== *)

(** [block.block is null or block.block = 0] on the row joined to a
    signal. *)
Definition neverRefused (d : database) (s : signal) : Prop :=
  match block d !! (chat_id s, endpoint s) with
  | None => True
  | Some b => b = 0
  end.

#[global] Instance neverRefused_dec d s : Decision (neverRefused d s).
Proof. unfold neverRefused. destruct (block d !! _); apply _. Defined.

(** [statuses.status=?] with [lib.StatusOnline], on the row of [statuses]
    joined to a signal. *)
Definition storedOnline (d : database) (s : signal) : Prop :=
  status <$> statuses d !! model_id s = Some StatusOnline.

#[global] Instance storedOnline_dec d s : Decision (storedOnline d s).
Proof. unfold storedOnline. apply _. Defined.

(** [select count(distinct <column>) from signals ... where <condition>] *)
Definition countDistinct {A} `{EqDecision A} (column : signal -> A)
  (condition : signal -> Prop) `{!forall s, Decision (condition s)}
  (d : database) : Z :=
  Z.of_nat (length (remove_dups (column <$> filter condition (signals d)))).

Definition usersCount (w : worker) (e : string) : Z :=
  countDistinct chat_id (fun s => endpoint s = e) (db w).

Definition groupsCount (w : worker) (e : string) : Z :=
  countDistinct chat_id (fun s => endpoint s = e /\ chat_id s < 0) (db w).

Definition activeUsersOnEndpointCount (w : worker) (e : string) : Z :=
  countDistinct chat_id (fun s => neverRefused (db w) s /\ endpoint s = e) (db w).

Definition activeUsersTotalCount (w : worker) : Z :=
  countDistinct chat_id (neverRefused (db w)) (db w).

Definition modelsCount (w : worker) (e : string) : Z :=
  countDistinct model_id (fun s => endpoint s = e) (db w).

Definition modelsToQueryOnEndpointCount (w : worker) (e : string) : Z :=
  countDistinct model_id
    (fun s => notBlocked (cfg w) (db w) s /\ endpoint s = e) (db w).

Definition modelsToQueryTotalCount (w : worker) : Z :=
  countDistinct model_id (notBlocked (cfg w) (db w)) (db w).

Definition onlineModelsCount (w : worker) (e : string) : Z :=
  countDistinct model_id
    (fun s => storedOnline (db w) s /\ notBlocked (cfg w) (db w) s /\ endpoint s = e)
    (db w).

(** [reports], the [ReportsCount] of [getStat]:
    [select coalesce(sum(reports), 0) from users]. *)
Definition ReportsCount (w : worker) : Z :=
  map_fold (fun (_ : Z) (u : user) total => reports u + total) 0 (users (db w)).

(* ===================================================================== *)
(** ** cmd/bot/main.go: subscriptions and limits *)
(* ===================================================================== *)

Module Commands.

(** The translations the functions below call [sendTr] with. *)
Inductive replyKey : Set :=
| SyntaxAdd
| InvalidSymbols
| AlreadyAdded
| NotEnoughSubscriptions
| AddError
| ModelAdded
| SubscriptionUsage
| SubscriptionUsageAd
| SyntaxRemove
| ModelNotInList
| ModelRemoved
| AllModelsRemoved.

(** The arguments of a translation. *)
Inductive arg : Set :=
| ArgString (s : string)
| ArgInt (n : Z).

(** A translated reply handed to a bot; [replyAfter] is the number of
    status messages that were handed to the bots before it. *)
Record reply : Set := mkReply {
  replyEndpoint : string;
  replyChatID : Z;
  replyNotify : bool;
  replyTr : replyKey;
  replyArgs : list arg;
  replyAfter : nat
}.

(** The worker together with the replies of the commands. *)
Record session : Type := mkSession {
  bot : worker;
  replies : list reply
}.

Definition onBot (f : worker -> worker) (s : session) : session :=
  mkSession (f (bot s)) (replies s).

(** [select count( * ) from signals where chat_id=? and model_id=? and
    endpoint=?] *)
Definition subscriptionExists (w : worker) (endpoint : string) (chatID : Z)
  (modelID : string) : bool :=
  let count :=
    Z.of_nat (length (filter (fun s => chat_id s = chatID /\ model_id s = modelID
                                       /\ Bot.endpoint s = endpoint)
                             (signals (db w)))) in
  negb (count =? 0).

(** [select count( * ) from signals where chat_id=? and endpoint=?] *)
Definition subscriptionsNumber (w : worker) (endpoint : string) (chatID : Z) : Z :=
  Z.of_nat (length (filter (fun s => chat_id s = chatID /\ Bot.endpoint s = endpoint)
                           (signals (db w)))).

(** [maxModels] *)
Definition maxModels (w : worker) (chatID : Z) : Z :=
  match users (db w) !! chatID with
  | None => MaxModels (cfg w)
  | Some u => max_models u
  end.

(** [setLimit]: the row of the chat gets the new [max_models]; the
    [do update] branch of the statement keeps the other columns of an
    existing row, and a new row starts with no reports. *)
Definition setLimit (w : worker) (chatID : Z) (maxModels : Z) : worker :=
  withDB (onUsers (fun u =>
    match u !! chatID with
    | None => <[chatID := mkUser maxModels 0]> u
    | Some row => <[chatID := mkUser maxModels (reports row)]> u
    end)) w.

(** [modelActiveStatus]: the stored status of an entity that has a
    subscription of a chat that is not blocked; every row of the join
    carries the one record of the entity. *)
Definition modelActiveStatus (w : worker) (modelID : string) : StatusKind :=
  match statuses (db w) !! modelID with
  | None => StatusUnknown
  | Some row =>
    match filter (fun s => model_id s = modelID /\ notBlocked (cfg w) (db w) s)
                 (signals (db w)) with
    | [] => StatusUnknown
    | _ :: _ => status row
    end
  end.

#[global] Instance signal_eq_dec : EqDecision signal.
Proof. solve_decision. Defined.

(** [insert into signals (chat_id, model_id, endpoint) values (?,?,?)]:
    the three columns are the primary key, and a second row with the same
    key makes [mustExec] panic. *)
Definition insertSignal (w : worker) (row : signal) : option worker :=
  if bool_decide (row ∈ signals (db w)) then None
  else Some (withDB (onSignals (fun l => l ++ [row])) w).

Section Transport.
(** The answers of the bots to the status messages and to the replies. *)
Variable botSend : nat -> sendResult.
Variable replySend : nat -> sendResult.
(** [strings.ToLower]; the functions below do not depend on what it does
    to a text. *)
Variable strings_ToLower : string -> string.
(** [lib.ModelIDRegexp.MatchString]; the expression is declared outside
    the sources. *)
Variable ModelIDRegexp_MatchString : string -> bool.
(** The field [HeavyUserRemainder] of the configuration. *)
Variable HeavyUserRemainder : Z.

(** [sendTr], through [sendText] and [sendMessage]: the reply is handed
    to the bot of the endpoint, and the answer moves the block counter of
    the chat. *)
Definition sendTr (s : session) (endpoint : string) (chatID : Z) (notify : bool)
  (tr : replyKey) (args : list arg) : session :=
  let answer := replySend (length (replies s)) in
  let s := mkSession (bot s)
             (replies s ++ [mkReply endpoint chatID notify tr args
                                    (length (outbox (bot s)))]) in
  match answer with
  | SendForbidden => onBot (fun w => incrementBlock w endpoint chatID) s
  | SendFailed => s
  | SendOK => onBot (fun w => resetBlock w endpoint chatID) s
  end.

(** [subscriptionUsage] *)
Definition subscriptionUsage (s : session) (endpoint : string) (chatID : Z)
  (ad : bool) : session :=
  let subscriptionsNumber := subscriptionsNumber (bot s) endpoint chatID in
  let maxModels := maxModels (bot s) chatID in
  let tr := if ad then SubscriptionUsageAd else SubscriptionUsage in
  sendTr s endpoint chatID false tr [ArgInt subscriptionsNumber; ArgInt maxModels].

(** [addModel].  [checkModel] is the answer of the site for an entity
    ([w.checkModel] with the first client, which exists as soon as an
    endpoint does) and [now] is [time.Now().Unix()]. *)
Definition addModel (checkModel : string -> StatusKind) (now : Z) (s : session)
  (endpoint : string) (chatID : Z) (modelID : string) : option (session * bool) :=
  if bool_decide (modelID = EmptyString) then
    Some (sendTr s endpoint chatID false SyntaxAdd [], false)
  else
    let modelID := strings_ToLower modelID in
    if negb (ModelIDRegexp_MatchString modelID) then
      Some (sendTr s endpoint chatID false InvalidSymbols [ArgString modelID], false)
    else
      let s := onBot (fun w => addUser w endpoint chatID) s in
      if subscriptionExists (bot s) endpoint chatID modelID then
        Some (sendTr s endpoint chatID false AlreadyAdded [ArgString modelID], false)
      else
        let subscriptionsNumber := subscriptionsNumber (bot s) endpoint chatID in
        let maxModels := maxModels (bot s) chatID in
        if maxModels <=? subscriptionsNumber then
          let s := sendTr s endpoint chatID false NotEnoughSubscriptions [] in
          Some (subscriptionUsage s endpoint chatID true, false)
        else
          let status := modelActiveStatus (bot s) modelID in
          let status :=
            if bool_decide (status = StatusUnknown) then checkModel modelID
            else status in
          if bool_decide (status = StatusUnknown \/ status = StatusNotFound) then
            Some (sendTr s endpoint chatID false AddError [ArgString modelID], false)
          else
            match insertSignal (bot s) (mkSignal chatID modelID endpoint) with
            | None => None
            | Some w =>
              let s := mkSession w (replies s) in
              let subscriptionsNumber := int_add subscriptionsNumber 1 in
              let s :=
                if bool_decide (status <> StatusExists) then
                  onBot (fun w => (updateStatus w modelID status now).1) s
                else s in
              let s :=
                if bool_decide (status <> StatusDenied) then
                  sendTr s endpoint chatID false ModelAdded [ArgString modelID]
                else s in
              let s :=
                if bool_decide (status <> StatusExists) then
                  onBot (fun w => reportStatus botSend w endpoint chatID modelID status) s
                else s in
              let s :=
                if int_sub maxModels HeavyUserRemainder <=? subscriptionsNumber then
                  subscriptionUsage s endpoint chatID true
                else s in
              Some (s, true)
            end.

(** [removeModel] *)
Definition removeModel (s : session) (endpoint : string) (chatID : Z)
  (modelID : string) : session :=
  if bool_decide (modelID = EmptyString) then
    sendTr s endpoint chatID false SyntaxRemove []
  else
    let modelID := strings_ToLower modelID in
    if negb (ModelIDRegexp_MatchString modelID) then
      sendTr s endpoint chatID false InvalidSymbols [ArgString modelID]
    else if negb (subscriptionExists (bot s) endpoint chatID modelID) then
      sendTr s endpoint chatID false ModelNotInList [ArgString modelID]
    else
      let s := onBot (withDB (onSignals (filter (fun r =>
                 ~ (chat_id r = chatID /\ model_id r = modelID
                    /\ Bot.endpoint r = endpoint))))) s in
      let s := onBot cleanStatuses s in
      sendTr s endpoint chatID false ModelRemoved [ArgString modelID].

(** [sureRemoveAll] *)
Definition sureRemoveAll (s : session) (endpoint : string) (chatID : Z) : session :=
  let s := onBot (withDB (onSignals (filter (fun r =>
             ~ (chat_id r = chatID /\ Bot.endpoint r = endpoint))))) s in
  let s := onBot cleanStatuses s in
  sendTr s endpoint chatID false AllModelsRemoved [].

(** The calls that change subscriptions, limits and statuses: the
    commands [add], [remove] and [sure_remove_all] and the administrator's
    [set_max_models] (each after the [resetBlock] that opens
    [processIncomingCommand]), and the two cases of the main loop. *)
Inductive call : Type :=
| CallAddModel (checkModel : string -> StatusKind) (now : Z)
               (endpoint : string) (chatID : Z) (modelID : string)
| CallRemoveModel (endpoint : string) (chatID : Z) (modelID : string)
| CallSureRemoveAll (endpoint : string) (chatID : Z)
| CallSetLimit (chatID : Z) (maxModels : Z)
| CallResetBlock (endpoint : string) (chatID : Z)
| CallMain (e : event).

Definition serve (s : session) (c : call) : option session :=
  match c with
  | CallAddModel checkModel now endpoint chatID modelID =>
    fst <$> addModel checkModel now s endpoint chatID modelID
  | CallRemoveModel endpoint chatID modelID =>
    Some (removeModel s endpoint chatID modelID)
  | CallSureRemoveAll endpoint chatID => Some (sureRemoveAll s endpoint chatID)
  | CallSetLimit chatID maxModels =>
    Some (onBot (fun w => setLimit w chatID maxModels) s)
  | CallResetBlock endpoint chatID =>
    Some (onBot (fun w => resetBlock w endpoint chatID) s)
  | CallMain e =>
    match mainStep botSend (bot s) e with
    | None => None
    | Some w => Some (mkSession w (replies s))
    end
  end.

(** The worker over a sequence of calls. *)
Fixpoint run (s : session) (calls : list call) : option session :=
  match calls with
  | [] => Some s
  | c :: rest =>
    match serve s c with
    | None => None
    | Some s' => run s' rest
    end
  end.
End Transport.

End Commands.

(* ===================================================================== *)
(** ** Vocabulary of the error monitor *)
(* ===================================================================== *)

(** The samples that the status updates among the events write into the
    buffer, in order. *)
Fixpoint samplesOf (events : list event) : list bool :=
  match events with
  | [] => []
  | PeriodicTick _ _ :: rest => samplesOf rest
  | StatusReceived u _ :: rest =>
    bool_decide (Status u = StatusUnknown) :: samplesOf rest
  end.

(** The two assignments that end [processStatusUpdate], repeated for a
    list of samples. *)
Fixpoint writeSamples (D : Z) (l : list bool) (pos : Z) (samples : list bool)
  : list bool * Z :=
  match samples with
  | [] => (l, pos)
  | b :: rest => writeSamples D (<[Z.to_nat pos := b]> l) (Z.rem (pos + 1) D) rest
  end.

(** The buffer has [errorDenominator] slots, as [newWorker] makes it. *)
Definition bufferSized (w : worker) : Prop :=
  errorDenominator (cfg w) = Z.of_nat (length (unknowns w)).

#[global] Instance bufferSized_dec w : Decision (bufferSized w).
Proof. unfold bufferSized. apply _. Defined.

(** The status updates among what a round of the checker sent, as the
    main loop receives them: the [n]-th of them at the time [clock n].
    (The elapsed time only sets [w.elapsed].) *)
Fixpoint receivedFrom (clock : nat -> Z) (n : nat) (sent : list Stripchat.sent)
  : list event :=
  match sent with
  | [] => []
  | Stripchat.OnElapsed _ :: rest => receivedFrom clock n rest
  | Stripchat.OnOutput u :: rest =>
    StatusReceived u (clock n) :: receivedFrom clock (S n) rest
  end.

(** The query of the round failed: no answer, an answer with another
    status than 200, or a body that does not decode. *)
Definition roundFailed {T} (decode : string -> string + T) (r : queryResult) : Prop :=
  match r with
  | QueryError _ => True
  | QueryDone resp buf =>
    StatusCode resp <> 200 \/ exists e, decode buf = inl e
  end.

(* ===================================================================== *)
(** ** Vocabulary of the notifications *)
(* ===================================================================== *)

(** The message goes to a chat that [chatsForModel] lists for the entity,
    on the endpoint of that subscription, and its text is a translation
    applied to the identifier of the entity. *)
Definition toSubscriber (w : worker) (m : string) (msg : message) : Prop :=
  (msgChatID msg, msgEndpoint msg) ∈ chatsForModel w m /\
  exists tr, msgText msg = Translated tr m.

(** The status [updateStatus] stores for an observed status. *)
Definition storedStatus (st : StatusKind) : StatusKind :=
  if bool_decide (st = StatusNotFound) then StatusOffline else st.


(* ===================================================================== *)
(** ** Vocabulary of the commands *)
(* ===================================================================== *)

(** The status [addModel] decides on: the stored status of an entity
    that is being checked, and the answer of the site otherwise. *)
Definition admission (checkModel : string -> StatusKind) (w : worker) (m : string)
  : StatusKind :=
  if bool_decide (Commands.modelActiveStatus w m = StatusUnknown)
  then checkModel m else Commands.modelActiveStatus w m.

(** No two rows of [signals] have the same primary key. *)
Definition keysUnique (w : worker) : Prop := NoDup (signals (db w)).

#[global] Instance keysUnique_dec w : Decision (keysUnique w).
Proof. unfold keysUnique. apply _. Defined.

(** No chat has more subscriptions on an endpoint than its limit. *)
Definition withinLimits (w : worker) : Prop :=
  forall e c, Commands.subscriptionsNumber w e c <= Commands.maxModels w c.

(** The call is the administrator's [setLimit]. *)
Definition isSetLimit (c : Commands.call) : bool :=
  match c with
  | Commands.CallSetLimit _ _ => true
  | _ => false
  end.

(* ===================================================================== *)
(** ** Sample inputs *)
(* ===================================================================== *)

(** Offline notifications are off; the thresholds are 300 seconds, a
    streak of 2, and 5 unknown results out of 10. *)
Definition sampleConfig : config :=
  {| OfflineNotifications := false;
     OfflineThresholdSeconds := 300;
     NotFoundThreshold := 2;
     BlockThreshold := 3;
     MaxModels := 10;
     errorThreshold := 5;
     errorDenominator := 10;
     ErrorReportingPeriodMinutes := 15;
     AdminEndpoint := "admin";
     AdminID := 99 |}.

(** Two chats watch [alice], one of them also watches [bob]. *)
Definition sampleSignals : list signal :=
  [mkSignal 1 "alice" "ep"; mkSignal 2 "alice" "ep"; mkSignal 1 "bob" "ep"].

Definition sampleWorker (rows : list (string * statusRow)) : worker :=
  mkWorker sampleConfig (mkDB sampleSignals (list_to_map rows) ∅ ∅)
           (replicate 10 false) 0 0 [].

(** A bot that delivers every message. *)
Definition alwaysSent (n : nat) : sendResult := SendOK.

(** Six results with status Unknown. *)
Definition sixUnknowns : list event :=
  replicate 6 (StatusReceived (mkStatusUpdate "alice" StatusUnknown) 1000).

Definition sampleClient : Client := mkClient "10.0.0.1".

Definition sampleChecker : CheckerCommon nat := mkCheckerCommon 0%nat [] false.

Definition sampleNextClient (i : nat) : Client * nat := (sampleClient, S i).

(** A response of status 200 whose body is the empty array. *)
Definition emptyArrayQuery (endpoint : string) (c : Client) (h : headers)
  : queryResult :=
  QueryDone (mkResponse 200) "[]".

Definition decodeEmptyArray (buf : string) : string + list Cam4.cam4Model :=
  if bool_decide (buf = "[]") then inr [] else inl "unexpected".

(** A response of status 200 whose body is the empty object, which decodes
    to a response without models, received after 120 units of time. *)
Definition emptyObjectQuery (endpoint : string) (c : Client) (h : headers)
  : queryResult * Z :=
  (QueryDone (mkResponse 200) "{}", 120).

Definition decodeEmptyObject (buf : string) : string + Stripchat.stripchatResponse :=
  if bool_decide (buf = "{}") then inr (Stripchat.mkResponse [])
  else inl "unexpected".

(** A roster that names the one user [E1]. *)
Definition rosterQuery (endpoint : string) (c : Client) (h : headers)
  : queryResult * Z :=
  (QueryDone (mkResponse 200) "roster", 120).

Definition decodeRoster (buf : string) : string + Stripchat.stripchatResponse :=
  inr (Stripchat.mkResponse [Stripchat.mkModel "E1"]).

(** Twelve results: [alice] answers, then [bob] is Unknown seven times,
    with a periodic evaluation in between. *)
Definition twelveResults : list event :=
  replicate 5 (StatusReceived (mkStatusUpdate "alice" StatusOnline) 1000)
  ++ [PeriodicTick 1001 true]
  ++ replicate 7 (StatusReceived (mkStatusUpdate "bob" StatusUnknown) 1002).

(** A session with no reply sent yet, over the sample worker. *)
Definition sampleSession (rows : list (string * statusRow)) : Commands.session :=
  Commands.mkSession (sampleWorker rows) [].

(** The site answers that every entity is Online. *)
Definition allOnline (modelID : string) : StatusKind := StatusOnline.

(** A day of a user: a new subscription, a status result, a removal, the
    removal of everything, and a periodic evaluation. *)
Definition sampleCalls : list Commands.call :=
  [Commands.CallResetBlock "ep" 3;
   Commands.CallAddModel allOnline 1000 "ep" 3 "Carol";
   Commands.CallMain (StatusReceived (mkStatusUpdate "carol" StatusOffline) 1010);
   Commands.CallRemoveModel "ep" 2 "alice";
   Commands.CallSureRemoveAll "ep" 1;
   Commands.CallMain (PeriodicTick 1020 true)].

(* ===================================================================== *)
(** ** Properties of the checkers *)
(* ===================================================================== *)

Lemma wrap64_id z : is_int z -> wrap64 z = z.
Proof.
  unfold is_int, wrap64. intros H.
  rewrite Z.mod_small; lia.
Qed.

(** *** [Cam4CanonicalModelID] *)

Lemma append_cons a p s : String a p +:+ s = String a (p +:+ s).
Proof. reflexivity. Qed.

Lemma append_nil s : EmptyString +:+ s = s.
Proof. reflexivity. Qed.

Lemma stripPrefix_app p s : Cam4.stripPrefix p (p +:+ s) = Some s.
Proof.
  induction p as [|a p IH]; [done|]. rewrite append_cons.
  cbn [Cam4.stripPrefix]. by rewrite Ascii.eqb_refl.
Qed.

Lemma stripPrefix_Some p s r : Cam4.stripPrefix p s = Some r -> s = p +:+ r.
Proof.
  revert s. induction p as [|a p IH]; intros s H; cbn [Cam4.stripPrefix] in *.
  - by injection H as ->.
  - destruct s as [|b s]; [done|].
    destruct (Ascii.eqb_spec a b) as [->|]; [|done].
    by rewrite append_cons, <- (IH s H).
Qed.

Lemma allModelChars_app s t :
  allModelChars (s +:+ t) = allModelChars s && allModelChars t.
Proof.
  induction s as [|c s IH]; [done|]. rewrite append_cons.
  cbn [allModelChars]. by rewrite IH, andb_assoc.
Qed.

(** A literal with a character outside the class is no prefix of an
    identifier. *)
Lemma stripPrefix_identifier p s :
  allModelChars p = false -> allModelChars s = true ->
  Cam4.stripPrefix p s = None.
Proof.
  intros Hp Hs. destruct (Cam4.stripPrefix p s) as [r|] eqn:E; [|done].
  apply stripPrefix_Some in E. subst s.
  rewrite allModelChars_app, Hp in Hs. done.
Qed.

Lemma spanModelChars_id id tail :
  allModelChars id = true -> Cam4.tailMatches tail = true ->
  Cam4.spanModelChars (id +:+ tail) = (id, tail).
Proof.
  intros Hid Ht.
  induction id as [|c id IH]; rewrite ?append_cons, ?append_nil;
    cbn [allModelChars Cam4.spanModelChars] in *.
  - destruct tail as [|c tail]; [done|].
    cbn [Cam4.tailMatches Cam4.spanModelChars] in *.
    apply andb_true_iff in Ht as [Hc _].
    apply orb_true_iff in Hc as [Hc|Hc]; apply Ascii.eqb_eq in Hc; subst c; done.
  - apply andb_true_iff in Hid as [Hc Hid]. rewrite Hc, (IH Hid). done.
Qed.

(** The expression does not match a bare identifier. *)
Lemma FindStringSubmatch_identifier id :
  allModelChars id = true -> Cam4.cam4ModelRegex_FindStringSubmatch id = None.
Proof.
  intros Hid. unfold Cam4.cam4ModelRegex_FindStringSubmatch.
  rewrite (stripPrefix_identifier "https://" id),
    (stripPrefix_identifier "http://" id),
    (stripPrefix_identifier "cam4.com/" id); done.
Qed.

(** On a profile URL the first group is the identifier. *)
Lemma FindStringSubmatch_profileURL scheme id tail :
  isScheme scheme -> isIdentifier id -> Cam4.tailMatches tail = true ->
  Cam4.cam4ModelRegex_FindStringSubmatch (profileURL scheme id tail) = Some id.
Proof.
  intros Hs [Hne Hid] Ht.
  unfold Cam4.cam4ModelRegex_FindStringSubmatch, profileURL.
  assert (Hrest :
    match Cam4.stripPrefix "cam4.com/" ("cam4.com/" +:+ id +:+ tail) with
    | Some r =>
      let '(id0, rest) := Cam4.spanModelChars r in
      match id0 with
      | EmptyString => None
      | String _ _ => if Cam4.tailMatches rest then Some id0 else None
      end
    | None => None
    end = Some id).
  { rewrite stripPrefix_app, spanModelChars_id, Ht by done. by destruct id. }
  destruct Hs as [->|[->| ->]]; exact Hrest.
Qed.

(** *** The keys of the rosters *)

(** The keys a roster loop leaves in its map are the images of the
    entries under the key function. *)
Lemma foldl_insert_keys {A B C} (f : A -> string) (g : C -> A -> C)
  (get : C -> gmap string B) (v : A -> B) (l : list A) :
  (forall c x, get (g c x) = <[f x := v x]> (get c)) ->
  forall (c : C) (k : string),
  is_Some (get (foldl g c l) !! k) <-> k ∈ f <$> l \/ is_Some (get c !! k).
Proof.
  intros Hg. induction l as [|x l IH]; intros c k; cbn [foldl fmap list_fmap].
  - rewrite elem_of_nil. tauto.
  - rewrite IH, elem_of_cons, Hg, lookup_insert_is_Some.
    destruct (decide (f x = k)) as [->|]; intuition congruence.
Qed.

Lemma BongaCams_collect_keys (strings_ToLower : string -> string) parsed k :
  is_Some ((BongaCams.collect strings_ToLower parsed).1 !! k)
  <-> k ∈ (fun m => strings_ToLower (BongaCams.Username m)) <$> parsed.
Proof.
  unfold BongaCams.collect.
  rewrite (foldl_insert_keys (fun m => strings_ToLower (BongaCams.Username m)) _ fst
             (fun _ => StatusOnline)) by done.
  cbn [fst]. rewrite lookup_empty, is_Some_alt. tauto.
Qed.

Lemma Cam4_collect_keys (strings_ToLower : string -> string) parsed k :
  is_Some ((Cam4.collect strings_ToLower parsed).1 !! k)
  <-> k ∈ (fun m => strings_ToLower (Cam4.Nickname m)) <$> parsed.
Proof.
  unfold Cam4.collect.
  rewrite (foldl_insert_keys (fun m => strings_ToLower (Cam4.Nickname m)) _ fst
             (fun _ => StatusOnline)) by done.
  cbn [fst]. rewrite lookup_empty, is_Some_alt. tauto.
Qed.

Lemma rosterHash_get (strings_ToLower : string -> string) parsed modelID :
  Stripchat.hashGet (Stripchat.rosterHash strings_ToLower parsed) modelID =
  bool_decide (modelID ∈ (fun m => strings_ToLower (Stripchat.Username m))
                         <$> Stripchat.Models parsed).
Proof.
  unfold Stripchat.hashGet, Stripchat.rosterHash.
  assert (G : forall l (h : gmap string bool) k,
    default false
      (foldl (fun hash m => <[strings_ToLower (Stripchat.Username m) := true]> hash)
             h l !! k)
    = bool_decide (k ∈ (fun m => strings_ToLower (Stripchat.Username m)) <$> l)
      || default false (h !! k)).
  { induction l as [|x l IH]; intros h k; cbn [foldl fmap list_fmap].
    - rewrite bool_decide_eq_false_2 by apply not_elem_of_nil. done.
    - rewrite IH.
      destruct (decide (strings_ToLower (Stripchat.Username x) = k)) as [->|Hne].
      + rewrite lookup_insert_eq. cbn [default].
        rewrite (bool_decide_eq_true_2 (_ ∈ _ :: _))
          by (apply elem_of_cons; by left).
        by rewrite orb_true_r.
      + rewrite lookup_insert_ne by done.
        f_equal. apply bool_decide_ext. rewrite elem_of_cons.
        intuition congruence. }
  by rewrite G, lookup_empty, orb_false_r.
Qed.

(** C9 (amended).  Two spellings of an identifier over [[A-Za-z0-9_]] that
    differ in the letter case of the identifier, given bare or as a profile
    URL written as the expression wants it (a lower-case [http://] or
    [https://] or no scheme, the lower-case host [cam4.com/], with or
    without a tail), have one canonical form, the lower-cased identifier;
    and the roster checkers store and look up a name the site returned
    under [strings.ToLower] of it, whatever that function does outside
    ASCII. *)
Theorem Cam4CanonicalModelID_canonical (strings_ToLower : string -> string)
  id1 id2 scheme tail :
  isIdentifier id1 -> isIdentifier id2 -> ToLower id1 = ToLower id2 ->
  isScheme scheme -> Cam4.tailMatches tail = true ->
  (Cam4.Cam4CanonicalModelID id1 = ToLower id1 /\
   Cam4.Cam4CanonicalModelID id2 = ToLower id1 /\
   Cam4.Cam4CanonicalModelID (profileURL scheme id1 tail) = ToLower id1 /\
   Cam4.Cam4CanonicalModelID (profileURL scheme id2 tail) = ToLower id1) /\
  (forall parsed k,
     is_Some ((Cam4.collect strings_ToLower parsed).1 !! k)
     <-> k ∈ (fun m => strings_ToLower (Cam4.Nickname m)) <$> parsed) /\
  (forall parsed k,
     is_Some ((BongaCams.collect strings_ToLower parsed).1 !! k)
     <-> k ∈ (fun m => strings_ToLower (BongaCams.Username m)) <$> parsed) /\
  (forall parsed k,
     Stripchat.hashGet (Stripchat.rosterHash strings_ToLower parsed) k = true
     <-> k ∈ (fun m => strings_ToLower (Stripchat.Username m))
             <$> Stripchat.Models parsed).
Proof.
  intros H1 H2 Hl Hs Ht. split; [|split; [|split]].
  - unfold Cam4.Cam4CanonicalModelID.
    rewrite !FindStringSubmatch_profileURL by done.
    rewrite !FindStringSubmatch_identifier by apply H1 || apply H2.
    by rewrite Hl.
  - apply Cam4_collect_keys.
  - apply BongaCams_collect_keys.
  - intros parsed k. rewrite rosterHash_get. apply bool_decide_eq_true.
Qed.

(** *** The Stripchat round *)

(** C3.  A round whose client index is in range sends one elapsed time and
    then one status update per entity of the watch-list, in its order;
    when the query fails, answers another status than 200 or cannot be
    decoded every update is Unknown, otherwise an entity is Online when it
    is among the names of the roster lower-cased by [strings.ToLower] (of
    which nothing is assumed) and Offline when not. *)
Theorem checkerRound_results (strings_ToLower : string -> string)
  (onlineQuery : string -> Client -> headers -> queryResult * Z)
  (decode : string -> string + Stripchat.stripchatResponse)
  (usersOnlineEndpoint : string) (clients : list Client) (hdrs : headers)
  (clientIdx : nat) (watchList : list string) (client : Client) :
  clients !! clientIdx = Some client ->
  exists clientIdx' results,
    Stripchat.checkerRound strings_ToLower onlineQuery decode usersOnlineEndpoint
                           clients hdrs clientIdx watchList
    = Some (clientIdx',
            Stripchat.OnElapsed (onlineQuery usersOnlineEndpoint client hdrs).2
            :: (Stripchat.OnOutput <$> results)) /\
    (clientIdx' < length clients)%nat /\
    ModelID <$> results = watchList /\
    match (onlineQuery usersOnlineEndpoint client hdrs).1 with
    | QueryError _ => Forall isUnknown results
    | QueryDone resp buf =>
      if StatusCode resp =? 200 then
        match decode buf with
        | inl _ => Forall isUnknown results
        | inr parsed => Forall (rosterStatus strings_ToLower parsed) results
        end
      else Forall isUnknown results
    end.
Proof.
  intros Hc. unfold Stripchat.checkerRound. rewrite Hc.
  destruct (onlineQuery usersOnlineEndpoint client hdrs) as [r elapsed].
  cbn [fst snd].
  set (idx' := if (S clientIdx =? length clients)%nat then 0%nat else S clientIdx).
  assert (Hidx : (idx' < length clients)%nat).
  { apply lookup_lt_Some in Hc. subst idx'.
    destruct (Nat.eqb_spec (S clientIdx) (length clients)); lia. }
  assert (Hunk : exists results,
            Stripchat.sendUnknowns watchList = Stripchat.OnOutput <$> results /\
            ModelID <$> results = watchList /\ Forall isUnknown results).
  { exists ((fun m => mkStatusUpdate m StatusUnknown) <$> watchList).
    unfold Stripchat.sendUnknowns. split; [|split].
    - by rewrite <- list_fmap_compose.
    - rewrite <- list_fmap_compose. apply list_fmap_id.
    - apply Forall_fmap, Forall_true. done. }
  destruct Hunk as (unk & Hu1 & Hu2 & Hu3).
  destruct r as [e|resp buf].
  { exists idx', unk. by rewrite Hu1. }
  destruct (StatusCode resp =? 200); cbn [negb].
  2: { exists idx', unk. by rewrite Hu1. }
  destruct (decode buf) as [e|parsed].
  { exists idx', unk. by rewrite Hu1. }
  exists idx', ((fun m => mkStatusUpdate m
                   (if Stripchat.hashGet
                         (Stripchat.rosterHash strings_ToLower parsed) m
                    then StatusOnline else StatusOffline)) <$> watchList).
  split; [|split; [exact Hidx|split]].
  - by rewrite <- list_fmap_compose.
  - rewrite <- list_fmap_compose. apply list_fmap_id.
  - apply Forall_fmap, Forall_true. intros m. unfold rosterStatus. cbn.
    by rewrite rosterHash_get.
Qed.

(** *** Anomalies of a roster query *)

(** The BongaCams checker turns a failed query, a status other than 200, a
    body that does not decode and an empty roster into an error with empty
    maps. *)
Lemma BongaCams_checkEndpoint_anomalies {ClientsLoop : Type}
  (strings_ToLower : string -> string)
  (nextClient : ClientsLoop -> Client * ClientsLoop)
  (onlineQuery : string -> Client -> headers -> queryResult)
  (decode : string -> string + list BongaCams.bongacamsModel)
  (c : CheckerCommon ClientsLoop) (endpoint : string) :
  let r := (BongaCams.checkEndpoint strings_ToLower nextClient onlineQuery decode
                                    c endpoint).2 in
  match onlineQuery endpoint (nextClient (clientsLoop c)).1 (Headers c) with
  | QueryError e => r = failed (CannotSendQuery e)
  | QueryDone resp buf =>
    if StatusCode resp =? 200 then
      match decode buf with
      | inl e => r = failed (CannotParseResponse e)
      | inr [] => r = failed ZeroOnlineModels
      | inr (_ :: _) => err r = None
      end
    else r = failed (QueryStatus (StatusCode resp))
  end.
Proof.
  unfold BongaCams.checkEndpoint.
  destruct (nextClient (clientsLoop c)) as [client loop]. cbn [fst Headers].
  destruct (onlineQuery endpoint client (Headers c)) as [e|resp buf]; [done|].
  destruct (StatusCode resp =? 200); cbn [negb]; [|done].
  destruct (decode buf) as [e|[|m parsed]]; done.
Qed.

(** C1 (the code departs from it).  With a response of status 200 whose
    body decodes to an empty roster, the CAM4 checker returns empty maps
    and no error, and the Stripchat round reports every entity of the
    watch-list Offline. *)
Theorem empty_roster_is_not_an_error :
  (forall (ClientsLoop : Type) (strings_ToLower : string -> string)
          (nextClient : ClientsLoop -> Client * ClientsLoop)
          (onlineQuery : string -> Client -> headers -> queryResult)
          (decode : string -> string + list Cam4.cam4Model)
          (c : CheckerCommon ClientsLoop) (endpoint : string) resp buf,
     onlineQuery endpoint (nextClient (clientsLoop c)).1 (Headers c)
     = QueryDone resp buf ->
     StatusCode resp = 200 ->
     decode buf = inr [] ->
     (Cam4.checkEndpoint strings_ToLower nextClient onlineQuery decode c
                         endpoint).2
     = {| onlineModels := ∅; images := ∅; err := None |}) /\
  (forall (strings_ToLower : string -> string)
          (onlineQuery : string -> Client -> headers -> queryResult * Z)
          (decode : string -> string + Stripchat.stripchatResponse)
          (usersOnlineEndpoint : string) (clients : list Client) (hdrs : headers)
          (clientIdx : nat) (watchList : list string) client resp buf elapsed,
     clients !! clientIdx = Some client ->
     onlineQuery usersOnlineEndpoint client hdrs = (QueryDone resp buf, elapsed) ->
     StatusCode resp = 200 ->
     decode buf = inr (Stripchat.mkResponse []) ->
     snd <$> Stripchat.checkerRound strings_ToLower onlineQuery decode
                                    usersOnlineEndpoint clients hdrs clientIdx
                                    watchList
     = Some (Stripchat.OnElapsed elapsed ::
             map (fun m => Stripchat.OnOutput (mkStatusUpdate m StatusOffline))
                 watchList)).
Proof.
  split.
  - intros ClientsLoop strings_ToLower nextClient onlineQuery decode c endpoint
           resp buf Hq Hs Hd.
    unfold Cam4.checkEndpoint.
    destruct (nextClient (clientsLoop c)) as [client loop]. cbn [fst Headers] in *.
    by rewrite Hq, Hs, Hd.
  - intros strings_ToLower onlineQuery decode usersOnlineEndpoint clients hdrs
           clientIdx watchList client resp buf elapsed Hc Hq Hs Hd.
    unfold Stripchat.checkerRound. by rewrite Hc, Hq, Hs, Hd.
Qed.

(* ===================================================================== *)
(** ** Properties of the status transitions *)
(* ===================================================================== *)

Lemma signalsCount_zero d m :
  signalsCount d m = 0 <-> m ∉ model_id <$> signals d.
Proof.
  unfold signalsCount. induction (signals d) as [|s l IH]; simpl.
  - split; [intros _; apply not_elem_of_nil | done].
  - rewrite filter_cons. rewrite not_elem_of_cons.
    destruct (decide (model_id s = m)) as [E|E]; simpl.
    + split; [lia | intros [? _]; by subst].
    + rewrite IH. split; [intros ?; split; [by intros -> | done] | tauto].
Qed.

Lemma signalsCount_watched w m : signalsCount (db w) m <> 0 <-> watched w m.
Proof.
  unfold watched. rewrite signalsCount_zero.
  destruct (decide (m ∈ model_id <$> signals (db w))); tauto.
Qed.

Lemma signalsCount_unwatched w m : ~ watched w m -> signalsCount (db w) m = 0.
Proof.
  intros H. destruct (decide (signalsCount (db w) m = 0)) as [|Hn]; [done|].
  by apply signalsCount_watched in Hn.
Qed.

Lemma signalsCount_onStatuses f d m :
  signalsCount (onStatuses f d) m = signalsCount d m.
Proof. reflexivity. Qed.

Ltac reduce_db :=
  cbn [db withDB onStatuses onSignals onBlock onUsers signals statuses block
       users cfg unknowns unknownsPos nextErrorReport outbox fst snd] in *;
  rewrite ?signalsCount_onStatuses in *.

(** An entity without subscription has no chat to report to. *)
Lemma chatsForModel_unwatched w m : ~ watched w m -> chatsForModel w m = [].
Proof.
  intros H. unfold chatsForModel.
  assert (filter (fun s => model_id s = m /\ notBlocked (cfg w) (db w) s)
                 (signals (db w)) = []) as ->; [|done].
  unfold watched in H. induction (signals (db w)) as [|s l IH]; [done|].
  rewrite fmap_cons, not_elem_of_cons in H. destruct H as [Hs Hl].
  rewrite filter_cons, decide_False by (intros [? _]; by subst).
  by apply IH.
Qed.

Lemma recordUnknown_ready w b :
  bufferReady w ->
  recordUnknown w b =
  Some (mkWorker (cfg w) (db w) (<[Z.to_nat (unknownsPos w) := b]> (unknowns w))
                 (Z.rem (unknownsPos w + 1) (errorDenominator (cfg w)))
                 (nextErrorReport w) (outbox w)).
Proof.
  intros [[H1 H2] H3]. unfold recordUnknown.
  apply Z.leb_le in H1. apply Z.ltb_lt in H2. apply Z.eqb_neq in H3.
  by rewrite H1, H2, H3.
Qed.

Lemma bufferReady_ext w w' : buffer w' = buffer w -> bufferReady w -> bufferReady w'.
Proof.
  unfold buffer, bufferReady. intros H. injection H as -> -> -> _. done.
Qed.

Lemma recordUnknown_frame w b w' :
  recordUnknown w b = Some w' ->
  db w' = db w /\ outbox w' = outbox w /\
  nextErrorReport w' = nextErrorReport w /\ cfg w' = cfg w /\
  length (unknowns w') = length (unknowns w).
Proof.
  unfold recordUnknown. intros H.
  destruct (_ && _); [|done]. destruct (_ =? _); [done|].
  injection H as <-. cbn. by rewrite length_insert.
Qed.

(** *** Messages leave the tables and the monitor alone *)

Section Frames.
Variable botSend : nat -> sendResult.

Lemma sendMessage_frame w e msg :
  buffer (sendMessage botSend w e msg) = buffer w /\
  signals (db (sendMessage botSend w e msg)) = signals (db w) /\
  statuses (db (sendMessage botSend w e msg)) = statuses (db w) /\
  outbox (sendMessage botSend w e msg) = outbox w ++ [msg].
Proof. unfold sendMessage. destruct (botSend _); done. Qed.

Lemma reportStatus_frame w e c m st :
  buffer (reportStatus botSend w e c m st) = buffer w /\
  signals (db (reportStatus botSend w e c m st)) = signals (db w) /\
  statuses (db (reportStatus botSend w e c m st)) = statuses (db w) /\
  outbox (reportStatus botSend w e c m st) = outbox w ++ statusMessage e c m st.
Proof.
  unfold reportStatus, sendTr, sendText.
  destruct st; cbn [statusMessage];
    try (destruct (sendMessage_frame w e (mkMessage e c true (Translated Online m)))
           as (?&?&?&?));
    try (destruct (sendMessage_frame w e (mkMessage e c false (Translated Offline m)))
           as (?&?&?&?));
    try (destruct (sendMessage_frame w e (mkMessage e c false (Translated Denied m)))
           as (?&?&?&?));
    cbn; rewrite ?app_nil_r; done.
Qed.

Lemma reportAll_frame m st chats : forall w,
  let w' := foldl (fun w (c : Z * string) => reportStatus botSend w c.2 c.1 m st)
                  w chats in
  buffer w' = buffer w /\
  signals (db w') = signals (db w) /\
  statuses (db w') = statuses (db w) /\
  outbox w' = outbox w ++ statusMessages m st chats.
Proof.
  unfold statusMessages.
  induction chats as [|c chats IH]; intros w; cbn [foldl flat_map].
  - by rewrite app_nil_r.
  - destruct (IH (reportStatus botSend w c.2 c.1 m st)) as (Hb & Hs & Ht & Ho).
    destruct (reportStatus_frame w c.2 c.1 m st) as (Hb' & Hs' & Ht' & Ho').
    cbn zeta. rewrite Hb, Hs, Ht, Ho, Hb', Hs', Ht', Ho'.
    by rewrite app_assoc.
Qed.

Lemma sendAll_frame m (chats : list (Z * string)) : forall w,
  let w' := foldl (fun w (c : Z * string) =>
                     sendTr botSend w c.2 c.1 false ProfileRemoved m) w chats in
  buffer w' = buffer w /\
  signals (db w') = signals (db w) /\
  statuses (db w') = statuses (db w) /\
  outbox w' = outbox w ++ map (goneMessage m) chats.
Proof.
  induction chats as [|c chats IH]; intros w; cbn [foldl map].
  - by rewrite app_nil_r.
  - destruct (IH (sendTr botSend w c.2 c.1 false ProfileRemoved m))
      as (Hb & Hs & Ht & Ho).
    destruct (sendMessage_frame w c.2
                (mkMessage c.2 c.1 false (Translated ProfileRemoved m)))
      as (Hb' & Hs' & Ht' & Ho').
    cbn zeta. rewrite Hb, Hs, Ht, Ho. unfold sendTr, sendText.
    rewrite Hb', Hs', Ht', Ho'. by rewrite <- app_assoc.
Qed.

Lemma reportNotFound_frame w m :
  buffer (reportNotFound botSend w m) = buffer w /\
  signals (db (reportNotFound botSend w m)) = signals (db w) /\
  statuses (db (reportNotFound botSend w m)) = statuses (db w) /\
  outbox (reportNotFound botSend w m)
  = outbox w ++ map (goneMessage m) (chatsForModel w m).
Proof. apply sendAll_frame. Qed.

End Frames.

(** *** [updateStatus] *)

Lemma updateStatus_unwatched w m st ts :
  signalsCount (db w) m = 0 ->
  (updateStatus w m st ts).2 = false /\
  (forall m', is_Some (statuses (db (updateStatus w m st ts).1) !! m')
              <-> is_Some (statuses (db w) !! m')) /\
  outbox (updateStatus w m st ts).1 = outbox w.
Proof.
  intros H. apply Z.eqb_eq in H. unfold updateStatus.
  destruct (bool_decide (st <> StatusNotFound)); reduce_db; rewrite H; reduce_db.
  - split; [done|]. split; [|done]. intros m'.
    rewrite lookup_alter. case_decide; subst; [by rewrite fmap_is_Some | done].
  - repeat split; tauto.
Qed.

Lemma updateStatus_notify_rule w m st ts :
  presence st ->
  watched w m ->
  (forall r, statuses (db w) !! m = Some r -> is_int (ts - last_online r)) ->
  (updateStatus w m st ts).2 =
  match statuses (db w) !! m with
  | Some r => specNotify (cfg w) (status r) (last_online r) st ts
  | None => true
  end.
Proof.
  intros Hst Hw Hr. unfold updateStatus.
  assert (Hnf : bool_decide (st <> StatusNotFound) = true).
  { apply bool_decide_eq_true. destruct Hst as [->|[->| ->]]; done. }
  rewrite Hnf. reduce_db.
  apply signalsCount_watched, Z.eqb_neq in Hw. rewrite Hw.
  rewrite lookup_alter. rewrite decide_True by done.
  destruct (statuses (db w) !! m) as [r|] eqn:E; reduce_db; [|done].
  cbn [fmap option_fmap option_map status last_online].
  unfold specNotify, int_sub. rewrite wrap64_id by (by apply Hr).
  destruct (OfflineNotifications (cfg w)); cbn [orb].
  - by rewrite !andb_true_r.
  - destruct (decide (st = StatusOnline)) as [->|Hne].
    + rewrite (bool_decide_eq_true_2 (StatusOnline = StatusOnline)) by done.
      rewrite andb_true_r.
      destruct (decide (status r = StatusOnline)) as [->|Hs].
      * rewrite (bool_decide_eq_false_2 (StatusOnline <> StatusOnline)); [done|tauto].
      * rewrite (bool_decide_eq_true_2 (status r <> StatusOnline)) by done. done.
    + rewrite (bool_decide_eq_false_2 (st = StatusOnline)) by done.
      by rewrite !andb_false_r.
Qed.

Lemma updateStatus_frame w m st ts :
  buffer (updateStatus w m st ts).1 = buffer w /\
  signals (db (updateStatus w m st ts).1) = signals (db w) /\
  outbox (updateStatus w m st ts).1 = outbox w /\
  chatsForModel (updateStatus w m st ts).1 m = chatsForModel w m.
Proof.
  unfold updateStatus.
  destruct (bool_decide (st <> StatusNotFound)); reduce_db;
    destruct (_ =? 0); try (repeat split; reflexivity);
    destruct (_ !! m); repeat split; reflexivity.
Qed.

Lemma updateStatus_other w m st ts m' :
  m' <> m ->
  statuses (db (updateStatus w m st ts).1) !! m' = statuses (db w) !! m'.
Proof.
  intros Hne. apply not_eq_sym in Hne. unfold updateStatus.
  destruct (bool_decide (st <> StatusNotFound)); reduce_db;
    destruct (_ =? 0); reduce_db; rewrite ?lookup_alter_ne by done; try done;
    destruct (_ !! m); reduce_db;
    rewrite ?lookup_insert_ne, ?lookup_alter_ne by done; done.
Qed.

Lemma updateStatus_record w m st ts r :
  watched w m ->
  statuses (db w) !! m = Some r ->
  statuses (db (updateStatus w m st ts).1) !! m = Some (storedAfter r st ts).
Proof.
  intros Hw Hr. apply signalsCount_watched, Z.eqb_neq in Hw.
  unfold updateStatus, storedAfter.
  destruct (decide (st = StatusNotFound)) as [->|Hne].
  - rewrite (bool_decide_eq_false_2 (StatusNotFound <> StatusNotFound)) by tauto.
    rewrite (bool_decide_eq_true_2 (StatusNotFound = StatusNotFound)) by done.
    rewrite Hw, Hr. reduce_db. rewrite lookup_alter, decide_True, Hr by done.
    done.
  - rewrite (bool_decide_eq_true_2 (st <> StatusNotFound)) by done.
    rewrite (bool_decide_eq_false_2 (st = StatusNotFound)) by done.
    reduce_db. rewrite Hw. rewrite lookup_alter, decide_True, Hr by done.
    cbn [fmap option_fmap option_map]. reduce_db.
    rewrite lookup_alter, decide_True by done.
    rewrite lookup_alter, decide_True, Hr by done. done.
Qed.

Lemma updateStatus_first w m st ts :
  watched w m ->
  statuses (db w) !! m = None ->
  (updateStatus w m st ts).2 = true /\
  statuses (db (updateStatus w m st ts).1) !! m =
  Some (storedAfter (mkStatus StatusUnknown 0 0) st ts).
Proof.
  intros Hw Hr. apply signalsCount_watched, Z.eqb_neq in Hw.
  unfold updateStatus, storedAfter.
  destruct (decide (st = StatusNotFound)) as [->|Hne].
  - rewrite (bool_decide_eq_false_2 (StatusNotFound <> StatusNotFound)) by tauto.
    rewrite (bool_decide_eq_true_2 (StatusNotFound = StatusNotFound)) by done.
    rewrite Hw, Hr. reduce_db. by rewrite lookup_insert_eq.
  - rewrite (bool_decide_eq_true_2 (st <> StatusNotFound)) by done.
    rewrite (bool_decide_eq_false_2 (st = StatusNotFound)) by done.
    reduce_db. rewrite Hw. rewrite lookup_alter, decide_True, Hr by done.
    cbn [fmap option_fmap option_map]. reduce_db.
    by rewrite lookup_insert_eq.
Qed.



(** *** [notFound] and [removeNotFound] *)

Lemma watched_filter w m m' :
  m' ∈ model_id <$> filter (fun s => model_id s <> m) (signals (db w))
  <-> m' <> m /\ watched w m'.
Proof.
  unfold watched. rewrite !list_elem_of_fmap. split.
  - intros (s & -> & Hs). apply list_elem_of_filter in Hs as [Hne Hs].
    split; [done | by exists s].
  - intros (Hne & s & -> & Hs). exists s. split; [done|].
    apply list_elem_of_filter. done.
Qed.

Lemma removeNotFound_spec w m :
  buffer (removeNotFound w m) = buffer w /\
  outbox (removeNotFound w m) = outbox w /\
  (forall m', watched (removeNotFound w m) m' <-> m' <> m /\ watched w m') /\
  (forall m' r, statuses (db (removeNotFound w m)) !! m' = Some r
                <-> statuses (db w) !! m' = Some r /\ m' <> m /\ watched w m').
Proof.
  split; [reflexivity|]. split; [reflexivity|]. split.
  - intros m'. apply watched_filter.
  - intros m' r. unfold removeNotFound, cleanStatuses. reduce_db.
    rewrite map_lookup_filter_Some. cbn [fst].
    by rewrite watched_filter.
Qed.

Lemma notFound_absent w m :
  statuses (db w) !! m = None -> notFound w m = (w, false).
Proof. intros H. unfold notFound. by rewrite H. Qed.

Lemma notFound_record w m r :
  statuses (db w) !! m = Some r ->
  notFound w m =
  (withDB (onStatuses (alter bumped m)) w,
   not_found r + 1 >? NotFoundThreshold (cfg w)).
Proof. intros H. unfold notFound. by rewrite H. Qed.

(** *** The two halves of [processStatusUpdate] *)

Section Stages.
Variable botSend : nat -> sendResult.

Lemma processStatusUpdate_stages w u ts :
  processStatusUpdate botSend w u ts =
  recordUnknown
    (stage2 botSend (stage1 botSend w (ModelID u) (Status u))
            (ModelID u) (Status u) ts)
    (bool_decide (Status u = StatusUnknown)).
Proof. reflexivity. Qed.

(** A NotFound result below the threshold only counts. *)
Lemma stage1_counted w m r :
  statuses (db w) !! m = Some r ->
  not_found r + 1 <= NotFoundThreshold (cfg w) ->
  stage1 botSend w m StatusNotFound = withDB (onStatuses (alter bumped m)) w.
Proof.
  intros Hr Hle. unfold stage1.
  rewrite (bool_decide_eq_true_2 (StatusNotFound = StatusNotFound)) by done.
  rewrite (notFound_record _ _ _ Hr).
  destruct (Z.gtb_spec (not_found r + 1) (NotFoundThreshold (cfg w))); [lia|done].
Qed.

(** A NotFound result above the threshold tells the subscribers and
    removes the subscriptions and the record. *)
Lemma stage1_gone w m r :
  statuses (db w) !! m = Some r ->
  not_found r + 1 > NotFoundThreshold (cfg w) ->
  let w' := stage1 botSend w m StatusNotFound in
  buffer w' = buffer w /\
  outbox w' = outbox w ++ map (goneMessage m) (chatsForModel w m) /\
  (forall m', watched w' m' <-> m' <> m /\ watched w m') /\
  (forall m' r', statuses (db w') !! m' = Some r'
                 <-> statuses (db w) !! m' = Some r' /\ m' <> m /\ watched w m').
Proof.
  intros Hr Hgt. unfold stage1.
  rewrite (bool_decide_eq_true_2 (StatusNotFound = StatusNotFound)) by done.
  rewrite (notFound_record _ _ _ Hr).
  destruct (Z.gtb_spec (not_found r + 1) (NotFoundThreshold (cfg w))); [|lia].
  set (w1 := withDB (onStatuses (alter bumped m)) w).
  destruct (reportNotFound_frame botSend w1 m) as (Hb & Hs & Ht & Ho).
  destruct (removeNotFound_spec (reportNotFound botSend w1 m) m)
    as (Hb' & Ho' & Hw' & Ht').
  cbn zeta. split; [by rewrite Hb', Hb|]. split; [by rewrite Ho', Ho|].
  assert (Hww : forall m', watched (reportNotFound botSend w1 m) m' <-> watched w m').
  { intros m'. unfold watched. by rewrite Hs. }
  split.
  - intros m'. by rewrite Hw', Hww.
  - intros m' r'. rewrite Ht', Hww, Ht. subst w1. reduce_db.
    split.
    + intros (H1 & Hne & H3). rewrite lookup_alter_ne in H1 by done. done.
    + intros (H1 & Hne & H3). rewrite lookup_alter_ne by done. done.
Qed.

Lemma stage1_other w m st :
  st <> StatusNotFound -> stage1 botSend w m st = w.
Proof.
  intros H. unfold stage1.
  by rewrite (bool_decide_eq_false_2 (st = StatusNotFound)).
Qed.

Lemma stage1_absent w m st :
  statuses (db w) !! m = None -> stage1 botSend w m st = w.
Proof.
  intros H. unfold stage1. destruct (bool_decide _); [|done].
  by rewrite notFound_absent.
Qed.

Lemma stage1_buffer w m st : buffer (stage1 botSend w m st) = buffer w.
Proof.
  destruct (decide (st = StatusNotFound)) as [->|Hne]; [|by rewrite stage1_other].
  destruct (statuses (db w) !! m) as [r|] eqn:Hr; [|by rewrite stage1_absent].
  destruct (Z_le_gt_dec (not_found r + 1) (NotFoundThreshold (cfg w))).
  - by rewrite (stage1_counted w m r).
  - by destruct (stage1_gone w m r Hr g) as (-> & _).
Qed.

(** The first half leaves the records of the other entities as they are,
    or removes them. *)
Lemma stage1_others w m st m' r' :
  m' <> m ->
  statuses (db (stage1 botSend w m st)) !! m' = Some r' ->
  statuses (db w) !! m' = Some r'.
Proof.
  intros Hne.
  destruct (decide (st = StatusNotFound)) as [->|Hst]; [|by rewrite stage1_other].
  destruct (statuses (db w) !! m) as [r|] eqn:Hr; [|by rewrite stage1_absent].
  destruct (Z_le_gt_dec (not_found r + 1) (NotFoundThreshold (cfg w))).
  - rewrite (stage1_counted w m r) by done. reduce_db.
    by rewrite lookup_alter_ne by done.
  - destruct (stage1_gone w m r Hr g) as (_ & _ & _ & H).
    intros H'. apply H in H'. tauto.
Qed.

Lemma stage2_frame w m st ts :
  let w' := stage2 botSend w m st ts in
  buffer w' = buffer w /\
  signals (db w') = signals (db w) /\
  statuses (db w') =
    (if bool_decide (st <> StatusUnknown)
     then statuses (db (updateStatus w m st ts).1) else statuses (db w)) /\
  outbox w' = outbox w ++
    (if bool_decide (st <> StatusUnknown) && (updateStatus w m st ts).2
     then statusMessages m st (chatsForModel w m)
     else []).
Proof.
  unfold stage2. destruct (bool_decide (st <> StatusUnknown)); cbn [andb].
  2: { cbn zeta. by rewrite app_nil_r. }
  destruct (updateStatus_frame w m st ts) as (Hb & Hs & Ho & Hc).
  destruct (updateStatus w m st ts) as [w1 notify]. cbn [fst snd] in *.
  destruct notify.
  - destruct (reportAll_frame botSend m st (chatsForModel w1 m) w1)
      as (Hb' & Hs' & Ht' & Ho').
    cbn zeta in *. rewrite Hb', Hs', Ht', Ho', Hb, Hs, Ho, Hc. done.
  - cbn zeta. by rewrite app_nil_r.
Qed.

Lemma processStatusUpdate_total w u ts :
  bufferReady w -> is_Some (processStatusUpdate botSend w u ts).
Proof.
  intros Hb. rewrite processStatusUpdate_stages.
  rewrite recordUnknown_ready; [done|].
  eapply bufferReady_ext; [|exact Hb].
  destruct (stage2_frame (stage1 botSend w (ModelID u) (Status u))
                         (ModelID u) (Status u) ts) as (-> & _).
  apply stage1_buffer.
Qed.

Lemma processStatusUpdate_buffer w u ts w' :
  processStatusUpdate botSend w u ts = Some w' ->
  cfg w' = cfg w /\ nextErrorReport w' = nextErrorReport w /\
  length (unknowns w') = length (unknowns w).
Proof.
  rewrite processStatusUpdate_stages. intros H.
  apply recordUnknown_frame in H as (_ & _ & Hn & Hc & Hl).
  destruct (stage2_frame (stage1 botSend w (ModelID u) (Status u))
                         (ModelID u) (Status u) ts) as (Hb & _).
  cbn zeta in Hb. rewrite stage1_buffer in Hb. unfold buffer in Hb.
  injection Hb as Hb1 Hb2 Hb3 Hb4. by rewrite Hn, Hc, Hl, Hb1, Hb2, Hb4.
Qed.

(** *** Status messages are neither removal notices nor alerts *)

Lemma filter_gone_statusMessages m m0 st (chats : list (Z * string)) :
  filter (isGoneFor m) (statusMessages m0 st chats) = [].
Proof.
  unfold statusMessages.
  induction chats as [|c chats IH]; [done|]. cbn [flat_map].
  rewrite filter_app, IH, app_nil_r.
  destruct st; cbn [statusMessage]; try done;
    rewrite filter_cons, decide_False; done.
Qed.

Lemma filter_gone_other m m0 (chats : list (Z * string)) :
  m0 <> m -> filter (isGoneFor m) (map (goneMessage m0) chats) = [].
Proof.
  intros Hne. induction chats as [|c chats IH]; [done|]. cbn [map].
  rewrite filter_cons, decide_False; [done|].
  unfold isGoneFor, goneMessage. cbn. congruence.
Qed.

Lemma filter_alert_statusMessages m st (chats : list (Z * string)) :
  filter isAlert (statusMessages m st chats) = [].
Proof.
  unfold statusMessages.
  induction chats as [|c chats IH]; [done|]. cbn [flat_map].
  rewrite filter_app, IH, app_nil_r.
  destruct st; cbn [statusMessage]; try done;
    rewrite filter_cons, decide_False; done.
Qed.

Lemma filter_alert_goneMessages m (chats : list (Z * string)) :
  filter isAlert (map (goneMessage m) chats) = [].
Proof.
  induction chats as [|c chats IH]; [done|]. cbn [map].
  rewrite filter_cons, decide_False; [exact IH|].
  unfold isAlert, goneMessage. cbn. tauto.
Qed.

Lemma statusMessages_NotFound m (chats : list (Z * string)) :
  statusMessages m StatusNotFound chats = [].
Proof.
  unfold statusMessages. induction chats as [|c chats IH]; [done|].
  cbn [flat_map statusMessage app]. exact IH.
Qed.

End Stages.

(** *** Invariants of the main loop *)

Section Loop.
Variable botSend : nat -> sendResult.

Lemma unknownsNumber_count w : unknownsNumber w = countTrue (unknowns w).
Proof.
  unfold unknownsNumber, countTrue.
  assert (G : forall l acc,
    foldl (fun unknownsCount (s : bool) =>
             if s then unknownsCount + 1 else unknownsCount) acc l
    = acc + Z.of_nat (length (filter (fun s => s = true) l))).
  { induction l as [|s l IH]; intros acc; cbn [foldl].
    - cbn. lia.
    - rewrite IH, filter_cons. destruct s.
      + rewrite decide_True by done. cbn [length]. lia.
      + rewrite decide_False by done. done. }
  by rewrite G.
Qed.

(** One periodic evaluation: whether it raises the alert, and what it
    leaves alone. *)
Lemma processPeriodic_spec w now ready :
  let w' := (processPeriodic botSend w now ready).1 in
  let fires :=
    (nextErrorReport w <? now) && (unknownsNumber w >? errorThreshold (cfg w)) in
  cfg w' = cfg w /\ unknowns w' = unknowns w /\ unknownsPos w' = unknownsPos w /\
  signals (db w') = signals (db w) /\ statuses (db w') = statuses (db w) /\
  outbox w' = outbox w ++
    (if fires
     then [mkMessage (AdminEndpoint (cfg w)) (AdminID (cfg w)) true
                     (DangerousErrorRate (unknownsNumber w)
                                         (errorDenominator (cfg w)))]
     else []) /\
  nextErrorReport w' =
    (if fires
     then now + int_mul Minute (ErrorReportingPeriodMinutes (cfg w))
     else nextErrorReport w).
Proof.
  unfold processPeriodic. cbn zeta. cbn [fst].
  destruct ((nextErrorReport w <? now) && _).
  - unfold sendText.
    destruct (sendMessage_frame botSend w (AdminEndpoint (cfg w))
                (mkMessage (AdminEndpoint (cfg w)) (AdminID (cfg w)) true
                   (DangerousErrorRate (unknownsNumber w) (errorDenominator (cfg w)))))
      as (Hb & Hs & Ht & Ho).
    unfold buffer in Hb. injection Hb as Hb1 Hb2 Hb3 Hb4.
    cbn [cfg unknowns unknownsPos db outbox nextErrorReport].
    by rewrite Hb1, Hb2, Hb3, Hs, Ht, Ho.
  - by rewrite app_nil_r.
Qed.

Lemma stage1_goneFor w m u :
  goneFor w m ->
  goneFor (stage1 botSend w (ModelID u) (Status u)) m /\
  filter (isGoneFor m) (outbox (stage1 botSend w (ModelID u) (Status u)))
  = filter (isGoneFor m) (outbox w).
Proof.
  intros [Hw Hn]. destruct u as [m0 st]. cbn [ModelID Status].
  destruct (decide (st = StatusNotFound)) as [->|Hst]; [|by rewrite stage1_other].
  destruct (statuses (db w) !! m0) as [r|] eqn:Hr; [|by rewrite stage1_absent].
  assert (Hne : m0 <> m) by (intros ->; congruence).
  destruct (Z_le_gt_dec (not_found r + 1) (NotFoundThreshold (cfg w))).
  - rewrite (stage1_counted _ _ _ r) by done. split; [|done].
    split; [exact Hw|]. reduce_db. by rewrite lookup_alter_ne.
  - destruct (stage1_gone botSend w m0 r Hr g) as (_ & Ho & Hw1 & Ht1).
    cbn zeta in *. split; [split|].
    + rewrite Hw1. tauto.
    + apply eq_None_not_Some. intros [r' Hr']. apply Ht1 in Hr' as (Hr' & _).
      congruence.
    + rewrite Ho, filter_app, filter_gone_other, app_nil_r; done.
Qed.

Lemma stage2_goneFor w m u ts :
  goneFor w m ->
  goneFor (stage2 botSend w (ModelID u) (Status u) ts) m /\
  filter (isGoneFor m) (outbox (stage2 botSend w (ModelID u) (Status u) ts))
  = filter (isGoneFor m) (outbox w).
Proof.
  intros [Hw Hn]. destruct u as [m0 st]. cbn [ModelID Status].
  destruct (stage2_frame botSend w m0 st ts) as (_ & Hs & Ht & Ho).
  cbn zeta in *. split; [split|].
  - unfold watched. by rewrite Hs.
  - rewrite Ht. destruct (bool_decide (st <> StatusUnknown)); [|done].
    destruct (decide (m0 = m)) as [->|Hne].
    + apply eq_None_not_Some. intros Hs'.
      apply (updateStatus_unwatched w m st ts) in Hs'.
      * rewrite Hn in Hs'. by destruct Hs'.
      * by apply signalsCount_unwatched.
    + rewrite updateStatus_other by done. done.
  - rewrite Ho, filter_app.
    destruct (_ && _); [|by rewrite app_nil_r].
    by rewrite filter_gone_statusMessages, app_nil_r.
Qed.

Lemma processStatusUpdate_goneFor w m u ts w' :
  goneFor w m ->
  processStatusUpdate botSend w u ts = Some w' ->
  goneFor w' m /\
  filter (isGoneFor m) (outbox w') = filter (isGoneFor m) (outbox w).
Proof.
  intros Hg H. rewrite processStatusUpdate_stages in H.
  apply recordUnknown_frame in H as (Hdb & Ho & _).
  destruct (stage1_goneFor w m u Hg) as [Hg1 Ho1].
  destruct (stage2_goneFor _ m u ts Hg1) as [Hg2 Ho2].
  split.
  - unfold goneFor, watched in *. by rewrite Hdb.
  - by rewrite Ho, Ho2, Ho1.
Qed.


Lemma stage1_alerts w m st :
  filter isAlert (outbox (stage1 botSend w m st)) = filter isAlert (outbox w).
Proof.
  destruct (decide (st = StatusNotFound)) as [->|Hst]; [|by rewrite stage1_other].
  destruct (statuses (db w) !! m) as [r|] eqn:Hr; [|by rewrite stage1_absent].
  destruct (Z_le_gt_dec (not_found r + 1) (NotFoundThreshold (cfg w))).
  - by rewrite (stage1_counted _ _ _ r).
  - destruct (stage1_gone botSend w m r Hr g) as (_ & -> & _).
    by rewrite filter_app, filter_alert_goneMessages, app_nil_r.
Qed.

Lemma processStatusUpdate_alerts w u ts w' :
  processStatusUpdate botSend w u ts = Some w' ->
  filter isAlert (outbox w') = filter isAlert (outbox w).
Proof.
  rewrite processStatusUpdate_stages. intros H.
  apply recordUnknown_frame in H as (_ & -> & _).
  destruct (stage2_frame botSend (stage1 botSend w (ModelID u) (Status u))
                         (ModelID u) (Status u) ts) as (_ & _ & _ & ->).
  rewrite filter_app, stage1_alerts.
  destruct (_ && _); [|by rewrite app_nil_r].
  by rewrite filter_alert_statusMessages, app_nil_r.
Qed.

(** While no periodic evaluation happens after the next report time, the
    main loop raises no alert and keeps the report time. *)
Lemma mainLoop_no_alert events : forall w w',
  Forall (fun now => now <= nextErrorReport w) (tickTimes events) ->
  mainLoop botSend w events = Some w' ->
  filter isAlert (outbox w') = filter isAlert (outbox w) /\
  nextErrorReport w' = nextErrorReport w.
Proof.
  induction events as [|e events IH]; intros w w' Ht H; cbn [mainLoop] in H.
  - by injection H as <-.
  - destruct (mainStep botSend w e) as [w1|] eqn:H1; [|done].
    destruct e as [now ready|u ts]; cbn [tickTimes] in Ht.
    + change (Some (processPeriodic botSend w now ready).1 = Some w1) in H1.
      apply (inj Some) in H1. subst w1. apply Forall_cons in Ht as [Hnow Ht].
      destruct (processPeriodic_spec w now ready) as (_ & _ & _ & _ & _ & Ho & Hn).
      destruct (Z.ltb_spec (nextErrorReport w) now) as [|_]; [lia|].
      cbn [andb] in *. rewrite app_nil_r in Ho.
      destruct (IH _ w' ltac:(by rewrite Hn) H) as [Ho' Hn'].
      by rewrite Ho', Hn', Ho, Hn.
    + destruct (processStatusUpdate_buffer botSend w u ts w1 H1) as (_ & Hn & _).
      destruct (IH w1 w' ltac:(by rewrite Hn) H) as [Ho' Hn'].
      by rewrite Ho', Hn', (processStatusUpdate_alerts w u ts w1 H1), Hn.
Qed.

(** Status records stay with watched entities. *)
Lemma processStatusUpdate_recordsWatched w u ts w' :
  recordsWatched w ->
  processStatusUpdate botSend w u ts = Some w' ->
  recordsWatched w'.
Proof.
  intros Hinv H. rewrite processStatusUpdate_stages in H.
  apply recordUnknown_frame in H as (Hdb & _).
  destruct u as [m st]. cbn [ModelID Status] in *.
  assert (H1 : recordsWatched (stage1 botSend w m st)).
  { destruct (decide (st = StatusNotFound)) as [->|Hst]; [|by rewrite stage1_other].
    destruct (statuses (db w) !! m) as [r|] eqn:Hr; [|by rewrite stage1_absent].
    destruct (Z_le_gt_dec (not_found r + 1) (NotFoundThreshold (cfg w))).
    - rewrite (stage1_counted _ _ _ r) by done. intros m'. reduce_db.
      rewrite lookup_alter. case_decide; [subst; rewrite fmap_is_Some|]; apply Hinv.
    - destruct (stage1_gone botSend w m r Hr g) as (_ & _ & Hw1 & Ht1).
      intros m' [r' Hr']. apply Ht1 in Hr'. apply Hw1. tauto. }
  destruct (stage2_frame botSend (stage1 botSend w m st) m st ts)
    as (_ & Hs & Ht & _). cbn zeta in *.
  intros m' Hsome. unfold watched. rewrite Hdb, Hs. rewrite Hdb, Ht in Hsome.
  destruct (bool_decide (st <> StatusUnknown)); [|by apply H1].
  destruct (decide (m' = m)) as [->|Hne].
  - destruct (decide (watched (stage1 botSend w m st) m)) as [|Hnw]; [done|].
    apply H1. apply signalsCount_unwatched in Hnw.
    by apply (updateStatus_unwatched _ m st ts Hnw).
  - rewrite updateStatus_other in Hsome by done. by apply H1.
Qed.

End Loop.

(* ===================================================================== *)
(** ** The claims on the status transitions *)
(* ===================================================================== *)

Section Transitions.
Variable botSend : nat -> sendResult.

(** C10.  For a model without subscription row [updateStatus] answers
    [false] and neither creates nor deletes a status record, for every
    status and time stamp; and [processStatusUpdate] sends no message for
    such a model and creates no record for it. *)
Theorem updateStatus_no_subscription w m st ts :
  signalsCount (db w) m = 0 ->
  (updateStatus w m st ts).2 = false /\
  (forall m', is_Some (statuses (db (updateStatus w m st ts).1) !! m')
              <-> is_Some (statuses (db w) !! m')) /\
  (forall w', processStatusUpdate botSend w (mkStatusUpdate m st) ts = Some w' ->
     outbox w' = outbox w /\
     (statuses (db w) !! m = None -> statuses (db w') !! m = None)).
Proof.
  intros Hc.
  destruct (updateStatus_unwatched w m st ts Hc) as (Hn & Hs & _).
  split; [done|]. split; [done|].
  intros w' Hrun. split.
  - rewrite processStatusUpdate_stages in Hrun. cbn [ModelID Status] in Hrun.
    apply recordUnknown_frame in Hrun as (_ & -> & _).
    assert (Hnw : ~ watched w m) by (by apply signalsCount_zero).
    assert (H1 : outbox (stage1 botSend w m st) = outbox w /\
                 ~ watched (stage1 botSend w m st) m).
    { destruct (decide (st = StatusNotFound)) as [->|Hst]; [|by rewrite stage1_other].
      destruct (statuses (db w) !! m) as [r|] eqn:Hr; [|by rewrite stage1_absent].
      destruct (Z_le_gt_dec (not_found r + 1) (NotFoundThreshold (cfg w))).
      - by rewrite (stage1_counted _ _ _ r).
      - destruct (stage1_gone botSend w m r Hr g) as (_ & -> & Hw1 & _).
        rewrite chatsForModel_unwatched, app_nil_r by done.
        split; [done|]. rewrite Hw1. tauto. }
    destruct H1 as [Ho1 Hnw1].
    destruct (stage2_frame botSend (stage1 botSend w m st) m st ts)
      as (_ & _ & _ & ->).
    apply signalsCount_unwatched in Hnw1.
    destruct (updateStatus_unwatched _ m st ts Hnw1) as (-> & _).
    by rewrite andb_false_r, app_nil_r.
  - intros Hnone.
    assert (Hg : goneFor w m) by (split; [by apply signalsCount_zero | done]).
    by destruct (processStatusUpdate_goneFor botSend w m _ ts w' Hg Hrun) as [[_ ?] _].
Qed.

(** C2 (amended).  For a watched entity and an observed status Online,
    Offline or Denied: when the entity has a status record, [updateStatus]
    decides to notify exactly when the stored status differs from the
    observed one, the change is allowed and the duration is allowed; when
    it has no record, it creates the record and always decides to notify.
    [processStatusUpdate] then reports the status to every chat of the
    entity when the decision is to notify, and sends nothing when it is
    not. *)
Theorem updateStatus_notify w m st ts :
  presence st ->
  watched w m ->
  (forall r, statuses (db w) !! m = Some r -> is_int (ts - last_online r)) ->
  (updateStatus w m st ts).2 =
    match statuses (db w) !! m with
    | Some r => specNotify (cfg w) (status r) (last_online r) st ts
    | None => true
    end /\
  (statuses (db w) !! m = None ->
   statuses (db (updateStatus w m st ts).1) !! m =
   Some (mkStatus st 0 (if bool_decide (st = StatusOnline) then ts else 0))) /\
  (forall w', processStatusUpdate botSend w (mkStatusUpdate m st) ts = Some w' ->
     outbox w' = outbox w ++
       (if (updateStatus w m st ts).2
        then statusMessages m st (chatsForModel w m) else [])).
Proof.
  intros Hst Hw Hr. split; [by apply updateStatus_notify_rule|].
  split.
  { intros Hnone. destruct (updateStatus_first w m st ts Hw Hnone) as [_ ->].
    unfold storedAfter.
    rewrite (bool_decide_eq_false_2 (st = StatusNotFound)); [done|].
    destruct Hst as [->|[->| ->]]; done. }
  intros w' Hrun.
  rewrite processStatusUpdate_stages in Hrun. cbn [ModelID Status] in Hrun.
  apply recordUnknown_frame in Hrun as (_ & -> & _).
  assert (st <> StatusNotFound /\ st <> StatusUnknown) as [Hnf Hun].
  { destruct Hst as [->|[->| ->]]; done. }
  rewrite stage1_other by done.
  destruct (stage2_frame botSend w m st ts) as (_ & _ & _ & ->).
  by rewrite (bool_decide_eq_true_2 (st <> StatusUnknown)) by done.
Qed.

(** C7.  A result with status Unknown, received when the buffer can be
    written, changes nothing but the buffer: the sample at the current
    position becomes [true] and the position advances; the database and
    the messages sent stay as they were. *)
Theorem processStatusUpdate_Unknown w m ts :
  bufferReady w ->
  processStatusUpdate botSend w (mkStatusUpdate m StatusUnknown) ts =
  Some (mkWorker (cfg w) (db w)
                 (<[Z.to_nat (unknownsPos w) := true]> (unknowns w))
                 (Z.rem (unknownsPos w + 1) (errorDenominator (cfg w)))
                 (nextErrorReport w) (outbox w)).
Proof.
  intros Hb. unfold processStatusUpdate. cbn [Status ModelID].
  rewrite (bool_decide_eq_false_2 (StatusUnknown = StatusNotFound)) by done.
  rewrite (bool_decide_eq_false_2 (StatusUnknown <> StatusUnknown)) by tauto.
  rewrite (bool_decide_eq_true_2 (StatusUnknown = StatusUnknown)) by done.
  by apply recordUnknown_ready.
Qed.



End Transitions.

Section Streak.
Variable botSend : nat -> sendResult.


(** C8.  A periodic evaluation counts the [true] samples of the buffer.
    It raises the alert exactly when the count is above the threshold and
    the next report time is before now; it then sends one alert to the
    administrator and moves the next report time to now plus the reporting
    period, and until that time no further alert is raised, whatever
    results arrive and however often the evaluation runs.  Otherwise it
    sends nothing and keeps the next report time. *)
Theorem processPeriodic_alert w now ready :
  let w' := (processPeriodic botSend w now ready).1 in
  let period := int_mul Minute (ErrorReportingPeriodMinutes (cfg w)) in
  unknownsNumber w = countTrue (unknowns w) /\
  if (countTrue (unknowns w) >? errorThreshold (cfg w))
     && (nextErrorReport w <? now)
  then
    outbox w' = outbox w ++
      [mkMessage (AdminEndpoint (cfg w)) (AdminID (cfg w)) true
                 (DangerousErrorRate (countTrue (unknowns w))
                                     (errorDenominator (cfg w)))] /\
    nextErrorReport w' = now + period /\
    (forall events w'',
       Forall (fun now' => now' <= now + period) (tickTimes events) ->
       mainLoop botSend w' events = Some w'' ->
       filter isAlert (outbox w'') = filter isAlert (outbox w'))
  else
    outbox w' = outbox w /\ nextErrorReport w' = nextErrorReport w.
Proof.
  cbn zeta. split; [apply unknownsNumber_count|].
  destruct (processPeriodic_spec botSend w now ready)
    as (_ & _ & _ & _ & _ & Ho & Hn).
  rewrite unknownsNumber_count in Ho, Hn. rewrite andb_comm.
  destruct (_ && _).
  - split; [done|]. split; [done|].
    intros events w'' Ht Hrun.
    rewrite <- Hn in Ht.
    by destruct (mainLoop_no_alert botSend events _ w'' Ht Hrun) as [? _].
  - by rewrite app_nil_r in Ho.
Qed.

End Streak.

(* ===================================================================== *)
(** ** The claims at sample inputs *)
(* ===================================================================== *)

(** Decides a closed decidable proposition by evaluation. *)
Ltac by_evaluation :=
  lazymatch goal with
  | |- ?P => apply (bool_decide_unpack P); vm_compute; exact I
  end.

(** Scenario A of the specification: of the watch-list [e1], [e2], [e3]
    the roster names [E1]; [e1] is Online and the other two are Offline. *)
Example scenario_A :
  Stripchat.checkerRound ToLower rosterQuery decodeRoster "endpoint"
                         [sampleClient] []
                         0%nat ["e1"; "e2"; "e3"]
  = Some (0%nat,
          [Stripchat.OnElapsed 120;
           Stripchat.OnOutput (mkStatusUpdate "e1" StatusOnline);
           Stripchat.OnOutput (mkStatusUpdate "e2" StatusOffline);
           Stripchat.OnOutput (mkStatusUpdate "e3" StatusOffline)]).
Proof. vm_compute. reflexivity. Qed.

(** Scenario B of the specification: the redirect probe reads the status
    code 404 as NotFound; with a threshold of 2, the third NotFound result
    in a row removes [ghost] and tells its chat once, and a fourth one
    tells nobody. *)
Example scenario_B :
  BongaCams.CheckStatusSingle 404 = StatusNotFound /\
  (fun w => (filter (isGoneFor "ghost") (outbox w), statuses (db w) !! "ghost")) <$>
  mainLoop alwaysSent
    (mkWorker sampleConfig
              (mkDB [mkSignal 7 "ghost" "ep"]
                    {["ghost" := mkStatus StatusOffline 0 0]} ∅ ∅)
              (replicate 10 false) 0 0 [])
    (replicate 4 (StatusReceived (mkStatusUpdate "ghost" StatusNotFound) 1000))
  = Some ([mkMessage "ep" 7 false (Translated ProfileRemoved "ghost")], None).
Proof. split; [reflexivity|]. vm_compute. reflexivity. Qed.

(** Scenario C of the specification: with a buffer of 10 and a threshold
    of 5, six Unknown results raise one alert at the next evaluation; a
    seventh Unknown result and another evaluation before the reporting
    period is over raise no second alert. *)
Example scenario_C :
  (fun w => filter isAlert (outbox w)) <$>
  mainLoop alwaysSent (sampleWorker [])
    (sixUnknowns ++
     [PeriodicTick 1000 true;
      StatusReceived (mkStatusUpdate "alice" StatusUnknown) 1001;
      PeriodicTick 2000 true])
  = Some [mkMessage "admin" 99 true (DangerousErrorRate 6 10)].
Proof. vm_compute. reflexivity. Qed.

(** C2 (as stated, refuted).  A watched entity without record is observed
    Offline while offline notifications are off: the rule of the claim,
    from the prior status Unknown and the prior time 0, says not to
    notify, and [updateStatus] notifies. *)
Lemma updateStatus_first_record_counterexample :
  ~ (forall w m st ts,
       presence st -> watched w m ->
       (updateStatus w m st ts).2 =
       specNotify (cfg w) (priorStatus w m) (priorLastOnline w m) st ts).
Proof.
  intros H.
  specialize (H (sampleWorker []) "alice" StatusOffline 1000).
  assert (Hp : presence StatusOffline) by by_evaluation.
  assert (Hw : watched (sampleWorker []) "alice") by by_evaluation.
  specialize (H Hp Hw). vm_compute in H. discriminate H.
Qed.


(** C9 (as stated, refuted).  The expression of [Cam4CanonicalModelID]
    matches scheme and host in lower case only: the profile URL
    [HTTPS://CAM4.COM/Alice] is not recognised and is lower-cased as a
    whole, while [https://cam4.com/alice], which differs from it in letter
    case only, is reduced to [alice]. *)
Lemma Cam4CanonicalModelID_case_counterexample :
  ~ (forall name1 name2,
       ToLower name1 = ToLower name2 ->
       Cam4.Cam4CanonicalModelID name1 = Cam4.Cam4CanonicalModelID name2).
Proof.
  intros H.
  specialize (H "HTTPS://CAM4.COM/Alice" "https://cam4.com/alice" eq_refl).
  vm_compute in H. discriminate H.
Qed.

(** The two canonical forms of the spellings above. *)
Example Cam4CanonicalModelID_upper_case_host :
  Cam4.Cam4CanonicalModelID "HTTPS://CAM4.COM/Alice" = "https://cam4.com/alice" /\
  Cam4.Cam4CanonicalModelID "https://cam4.com/alice" = "alice".
Proof. split; reflexivity. Qed.


(** *** The theorems applied at sample inputs *)

(** C1 at the sample inputs: the body [[]] for CAM4, the body [{}] for
    Stripchat with the watch-list [alice], [bob]. *)
Lemma empty_roster_is_not_an_error_witness :
  (emptyArrayQuery "endpoint" (sampleNextClient (clientsLoop sampleChecker)).1
                   (Headers sampleChecker)
   = QueryDone (mkResponse 200) "[]" /\
   decodeEmptyArray "[]" = inr [] /\
   (Cam4.checkEndpoint ToLower sampleNextClient emptyArrayQuery decodeEmptyArray
                       sampleChecker "endpoint").2
   = {| onlineModels := ∅; images := ∅; err := None |}) /\
  ([sampleClient] !! 0%nat = Some sampleClient /\
   emptyObjectQuery "endpoint" sampleClient [] = (QueryDone (mkResponse 200) "{}", 120) /\
   decodeEmptyObject "{}" = inr (Stripchat.mkResponse []) /\
   snd <$> Stripchat.checkerRound ToLower emptyObjectQuery decodeEmptyObject
                                  "endpoint"
                                  [sampleClient] [] 0%nat ["alice"; "bob"]
   = Some (Stripchat.OnElapsed 120 ::
           map (fun m => Stripchat.OnOutput (mkStatusUpdate m StatusOffline))
               ["alice"; "bob"])).
Proof.
  destruct empty_roster_is_not_an_error as [H1 H2]. split.
  - split; [reflexivity|]. split; [reflexivity|].
    apply (H1 nat ToLower sampleNextClient emptyArrayQuery decodeEmptyArray sampleChecker
              "endpoint" (mkResponse 200) "[]"); reflexivity.
  - split; [reflexivity|]. split; [reflexivity|]. split; [reflexivity|].
    apply (H2 ToLower emptyObjectQuery decodeEmptyObject "endpoint" [sampleClient] []
              0%nat ["alice"; "bob"] sampleClient (mkResponse 200) "{}" 120);
      reflexivity.
Defined.

(** C2 at a sample input: [alice], stored Offline and last online at 100,
    is observed Online at 1000. *)
Lemma updateStatus_notify_witness :
  let w := sampleWorker [("alice", mkStatus StatusOffline 0 100)] in
  presence StatusOnline /\
  watched w "alice" /\
  (forall r, statuses (db w) !! "alice" = Some r -> is_int (1000 - last_online r)) /\
  (updateStatus w "alice" StatusOnline 1000).2 =
    match statuses (db w) !! "alice" with
    | Some r => specNotify (cfg w) (status r) (last_online r) StatusOnline 1000
    | None => true
    end /\
  (statuses (db w) !! "alice" = None ->
   statuses (db (updateStatus w "alice" StatusOnline 1000).1) !! "alice" =
   Some (mkStatus StatusOnline 0
                  (if bool_decide (StatusOnline = StatusOnline) then 1000 else 0))) /\
  (forall w', processStatusUpdate alwaysSent w (mkStatusUpdate "alice" StatusOnline)
                                  1000 = Some w' ->
     outbox w' = outbox w ++
       (if (updateStatus w "alice" StatusOnline 1000).2
        then statusMessages "alice" StatusOnline (chatsForModel w "alice") else [])).
Proof.
  cbn zeta.
  assert (Hp : presence StatusOnline) by by_evaluation.
  assert (Hw : watched (sampleWorker [("alice", mkStatus StatusOffline 0 100)]) "alice")
    by by_evaluation.
  assert (Hr : forall r,
    statuses (db (sampleWorker [("alice", mkStatus StatusOffline 0 100)])) !! "alice"
    = Some r -> is_int (1000 - last_online r)).
  { intros r Hr. vm_compute in Hr. injection Hr as <-. by_evaluation. }
  split; [exact Hp|]. split; [exact Hw|]. split; [exact Hr|].
  exact (updateStatus_notify alwaysSent _ "alice" StatusOnline 1000 Hp Hw Hr).
Defined.

(** C3 at the sample input of scenario A. *)
Lemma checkerRound_results_witness :
  [sampleClient] !! 0%nat = Some sampleClient /\
  exists clientIdx' results,
    Stripchat.checkerRound ToLower rosterQuery decodeRoster "endpoint"
                         [sampleClient] []
                           0%nat ["e1"; "e2"; "e3"]
    = Some (clientIdx',
            Stripchat.OnElapsed (rosterQuery "endpoint" sampleClient []).2
            :: (Stripchat.OnOutput <$> results)) /\
    (clientIdx' < length [sampleClient])%nat /\
    ModelID <$> results = ["e1"; "e2"; "e3"] /\
    match (rosterQuery "endpoint" sampleClient []).1 with
    | QueryError _ => Forall isUnknown results
    | QueryDone resp buf =>
      if StatusCode resp =? 200 then
        match decodeRoster buf with
        | inl _ => Forall isUnknown results
        | inr parsed => Forall (rosterStatus ToLower parsed) results
        end
      else Forall isUnknown results
    end.
Proof.
  split; [reflexivity|].
  apply (checkerRound_results ToLower rosterQuery decodeRoster "endpoint"
           [sampleClient] []
           0%nat ["e1"; "e2"; "e3"] sampleClient).
  reflexivity.
Defined.




(** C7 at a sample input. *)
Lemma processStatusUpdate_Unknown_witness :
  let w := sampleWorker [("alice", mkStatus StatusOnline 0 100)] in
  bufferReady w /\
  processStatusUpdate alwaysSent w (mkStatusUpdate "alice" StatusUnknown) 1000 =
  Some (mkWorker (cfg w) (db w)
                 (<[Z.to_nat (unknownsPos w) := true]> (unknowns w))
                 (Z.rem (unknownsPos w + 1) (errorDenominator (cfg w)))
                 (nextErrorReport w) (outbox w)).
Proof.
  cbn zeta.
  assert (Hb : bufferReady (sampleWorker [("alice", mkStatus StatusOnline 0 100)]))
    by by_evaluation.
  split; [exact Hb|].
  exact (processStatusUpdate_Unknown alwaysSent _ "alice" 1000 Hb).
Defined.

(** C8 at a sample input: six samples of ten are [true] and the next
    report time is in the past. *)
Lemma processPeriodic_alert_witness :
  let w := mkWorker sampleConfig (mkDB sampleSignals ∅ ∅ ∅)
                    (replicate 6 true ++ replicate 4 false) 6 0 [] in
  let w' := (processPeriodic alwaysSent w 1000 true).1 in
  let period := int_mul Minute (ErrorReportingPeriodMinutes (cfg w)) in
  unknownsNumber w = countTrue (unknowns w) /\
  if (countTrue (unknowns w) >? errorThreshold (cfg w))
     && (nextErrorReport w <? 1000)
  then
    outbox w' = outbox w ++
      [mkMessage (AdminEndpoint (cfg w)) (AdminID (cfg w)) true
                 (DangerousErrorRate (countTrue (unknowns w))
                                     (errorDenominator (cfg w)))] /\
    nextErrorReport w' = 1000 + period /\
    (forall events w'',
       Forall (fun now' => now' <= 1000 + period) (tickTimes events) ->
       mainLoop alwaysSent w' events = Some w'' ->
       filter isAlert (outbox w'') = filter isAlert (outbox w'))
  else
    outbox w' = outbox w /\ nextErrorReport w' = nextErrorReport w.
Proof.
  exact (processPeriodic_alert alwaysSent
           (mkWorker sampleConfig (mkDB sampleSignals ∅ ∅ ∅)
                     (replicate 6 true ++ replicate 4 false) 6 0 [])
           1000 true).
Defined.

(** C9 at a sample input. *)
Lemma Cam4CanonicalModelID_canonical_witness :
  isIdentifier "FooBar_1" /\
  isIdentifier "foobar_1" /\
  ToLower "FooBar_1" = ToLower "foobar_1" /\
  isScheme "https://" /\
  Cam4.tailMatches "/videos?page=2" = true /\
  Cam4.Cam4CanonicalModelID "FooBar_1" = "foobar_1" /\
  Cam4.Cam4CanonicalModelID "foobar_1" = "foobar_1" /\
  Cam4.Cam4CanonicalModelID "https://cam4.com/FooBar_1/videos?page=2" = "foobar_1" /\
  Cam4.Cam4CanonicalModelID "https://cam4.com/foobar_1/videos?page=2" = "foobar_1".
Proof.
  assert (H1 : isIdentifier "FooBar_1") by by_evaluation.
  assert (H2 : isIdentifier "foobar_1") by by_evaluation.
  assert (Hl : ToLower "FooBar_1" = ToLower "foobar_1") by reflexivity.
  assert (Hs : isScheme "https://") by by_evaluation.
  assert (Ht : Cam4.tailMatches "/videos?page=2" = true) by reflexivity.
  split; [exact H1|]. split; [exact H2|]. split; [exact Hl|].
  split; [exact Hs|]. split; [exact Ht|].
  exact (proj1 (Cam4CanonicalModelID_canonical ToLower "FooBar_1" "foobar_1"
                  "https://" "/videos?page=2" H1 H2 Hl Hs Ht)).
Defined.

(** C10 at a sample input: nobody watches [carol]. *)
Lemma updateStatus_no_subscription_witness :
  let w := sampleWorker [] in
  signalsCount (db w) "carol" = 0 /\
  (updateStatus w "carol" StatusOnline 1000).2 = false /\
  (forall m', is_Some (statuses (db (updateStatus w "carol" StatusOnline 1000).1) !! m')
              <-> is_Some (statuses (db w) !! m')) /\
  (forall w', processStatusUpdate alwaysSent w (mkStatusUpdate "carol" StatusOnline)
                                  1000 = Some w' ->
     outbox w' = outbox w /\
     (statuses (db w) !! "carol" = None -> statuses (db w') !! "carol" = None)).
Proof.
  cbn zeta.
  assert (Hc : signalsCount (db (sampleWorker [])) "carol" = 0) by reflexivity.
  split; [exact Hc|].
  exact (updateStatus_no_subscription alwaysSent _ "carol" StatusOnline 1000 Hc).
Defined.

(* ===================================================================== *)
(** ** The error monitor over a run of the main loop *)
(* ===================================================================== *)

Lemma countTrue_app l1 l2 : countTrue (l1 ++ l2) = countTrue l1 + countTrue l2.
Proof. unfold countTrue. rewrite filter_app, length_app. lia. Qed.

Lemma writeSamples_app D xs ys : forall l pos,
  writeSamples D l pos (xs ++ ys) =
  writeSamples D (writeSamples D l pos xs).1 (writeSamples D l pos xs).2 ys.
Proof. induction xs as [|x xs IH]; intros l pos; [done|]. cbn. apply IH. Qed.

Lemma writeSamples_inv D xs : forall l pos,
  D = Z.of_nat (length l) -> 0 <= pos < D ->
  length (writeSamples D l pos xs).1 = length l /\
  0 <= (writeSamples D l pos xs).2 < D.
Proof.
  induction xs as [|x xs IH]; intros l pos HD Hp; [done|].
  cbn [writeSamples].
  destruct (IH (<[Z.to_nat pos := x]> l) (Z.rem (pos + 1) D)) as [H1 H2].
  - by rewrite length_insert.
  - rewrite Z.rem_mod_nonneg by lia. apply Z.mod_pos_bound. lia.
  - rewrite length_insert in H1. done.
Qed.

(** A run of writes that does not pass the end of the buffer. *)
Lemma writeSamples_segment D xs : forall l pos,
  D = Z.of_nat (length l) -> 0 <= pos < D ->
  (Z.to_nat pos + length xs <= length l)%nat ->
  writeSamples D l pos xs =
  (take (Z.to_nat pos) l ++ xs ++ drop (Z.to_nat pos + length xs) l,
   (pos + Z.of_nat (length xs)) mod D).
Proof.
  induction xs as [|x xs IH]; intros l pos HD Hp Hlen; cbn [writeSamples length] in *.
  - cbn [app]. rewrite Nat.add_0_r, take_drop, Z.add_0_r, Z.mod_small by lia. done.
  - assert (Hrem : Z.rem (pos + 1) D = (pos + 1) mod D)
      by (apply Z.rem_mod_nonneg; lia).
    rewrite Hrem.
    destruct (decide (pos + 1 < D)) as [Hlt|Hge].
    + rewrite Z.mod_small by lia.
      rewrite IH; [|by rewrite length_insert|lia|rewrite length_insert; lia].
      f_equal.
      * replace (Z.to_nat (pos + 1)) with (S (Z.to_nat pos)) by lia.
        rewrite (take_S_r _ _ x) by (apply list_lookup_insert_eq; lia).
        rewrite take_insert_ge by lia. rewrite drop_insert_lt by lia.
        rewrite <- app_assoc. cbn [app].
        by replace (S (Z.to_nat pos) + length xs)%nat
          with (Z.to_nat pos + S (length xs))%nat by lia.
      * f_equal. lia.
    + assert (pos + 1 = D) as Hend by lia.
      assert (xs = []) as -> by (destruct xs; [done|cbn in Hlen; lia]).
      cbn [writeSamples length app]. f_equal.
      rewrite insert_take_drop by lia.
      by replace (Z.to_nat pos + 1)%nat with (S (Z.to_nat pos)) by lia.
Qed.

(** One full turn leaves the position where it was and the buffer holding
    the samples written. *)
Lemma writeSamples_turn D xs l pos :
  D = Z.of_nat (length l) -> 0 <= pos < D -> length xs = length l ->
  (writeSamples D l pos xs).2 = pos /\
  countTrue (writeSamples D l pos xs).1 = countTrue xs.
Proof.
  intros HD Hp Hlen.
  set (k := (length l - Z.to_nat pos)%nat).
  rewrite <- (take_drop k xs) at 1 2. rewrite writeSamples_app.
  rewrite (writeSamples_segment D (take k xs) l pos) by (rewrite ?length_take; lia).
  cbn [fst snd].
  assert (Hk : length (take k xs) = k) by (rewrite length_take; lia).
  rewrite Hk.
  replace ((pos + Z.of_nat k) mod D) with 0
    by (subst k; replace (pos + Z.of_nat (length l - Z.to_nat pos)) with D by lia;
        by rewrite Z.mod_same by lia).
  set (l1 := take (Z.to_nat pos) l ++ take k xs ++ drop (Z.to_nat pos + k) l).
  assert (Hl1 : length l1 = length l).
  { subst l1. rewrite !length_app, length_take, length_drop, Hk. lia. }
  assert (Hdrop : drop (Z.to_nat pos + k) l = []) by (apply drop_ge; lia).
  rewrite (writeSamples_segment D (drop k xs) l1 0);
    [|lia|lia|rewrite length_drop; cbn; lia].
  cbn [fst snd]. rewrite length_drop. split.
  - rewrite Z.add_0_l. replace (Z.of_nat (length xs - k)) with pos by lia.
    apply Z.mod_small. lia.
  - change (Z.to_nat 0) with 0%nat. cbn [take app Nat.add].
    rewrite <- (take_drop k xs) at 3.
    rewrite !countTrue_app.
    replace (length xs - k)%nat with (Z.to_nat pos) by lia.
    subst l1. rewrite Hdrop, app_nil_r.
    rewrite drop_app_length' by (rewrite length_take; lia).
    rewrite take_0. change (countTrue []) with 0. lia.
Qed.

Lemma writeSamples_window D xs l pos :
  D = Z.of_nat (length l) -> 0 <= pos < D -> (length l <= length xs)%nat ->
  countTrue (writeSamples D l pos xs).1 =
  countTrue (drop (length xs - length l) xs).
Proof.
  intros HD Hp Hlen.
  rewrite <- (take_drop (length xs - length l) xs) at 1.
  rewrite writeSamples_app.
  destruct (writeSamples_inv D (take (length xs - length l) xs) l pos HD Hp)
    as [H1 H2].
  apply writeSamples_turn; [lia|done|].
  rewrite length_drop, H1. lia.
Qed.

Section Monitor.
Variable botSend : nat -> sendResult.

(** What a status update does to the monitor, when it does not panic. *)
Lemma processStatusUpdate_monitor w u ts :
  processStatusUpdate botSend w u ts = None \/
  exists w', processStatusUpdate botSend w u ts = Some w' /\
    cfg w' = cfg w /\
    unknowns w' =
      <[Z.to_nat (unknownsPos w) := bool_decide (Status u = StatusUnknown)]>
        (unknowns w) /\
    unknownsPos w' = Z.rem (unknownsPos w + 1) (errorDenominator (cfg w)) /\
    nextErrorReport w' = nextErrorReport w.
Proof.
  rewrite processStatusUpdate_stages.
  destruct (stage2_frame botSend (stage1 botSend w (ModelID u) (Status u))
                         (ModelID u) (Status u) ts) as (Hb & _).
  rewrite stage1_buffer in Hb. unfold buffer in Hb.
  injection Hb as Hb1 Hb2 Hb3 Hb4.
  unfold recordUnknown. rewrite Hb1, Hb2, Hb3, Hb4.
  destruct (_ && _); [|by left]. destruct (_ =? 0); [by left|].
  right. eexists. split; [reflexivity|]. done.
Qed.

(** X1.  [processStatusUpdate] panics whenever the buffer cannot be
    written, that is when the position is outside the slice or the
    denominator is zero, whatever the status, the store and the answers
    of the bots: nothing that precedes the write moves the position,
    resizes the slice or changes the configuration. *)
Theorem processStatusUpdate_panics w u ts :
  ~ bufferReady w -> processStatusUpdate botSend w u ts = None.
Proof.
  intros Hnb. rewrite processStatusUpdate_stages.
  destruct (stage2_frame botSend (stage1 botSend w (ModelID u) (Status u))
                         (ModelID u) (Status u) ts) as (Hb & _).
  rewrite stage1_buffer in Hb. unfold buffer in Hb.
  injection Hb as Hb1 Hb2 Hb3 Hb4.
  unfold recordUnknown. rewrite Hb1, Hb2, Hb3.
  destruct (Z.leb_spec 0 (unknownsPos w)); cbn [andb]; [|done].
  destruct (Z.ltb_spec (unknownsPos w) (Z.of_nat (length (unknowns w)))); [|done].
  destruct (Z.eqb_spec (errorDenominator (cfg w)) 0); [done|].
  exfalso. apply Hnb. unfold bufferReady. lia.
Qed.

Lemma mainLoop_buffer events : forall w,
  bufferReady w -> bufferSized w ->
  exists w', mainLoop botSend w events = Some w' /\
    cfg w' = cfg w /\
    (unknowns w', unknownsPos w') =
      writeSamples (errorDenominator (cfg w)) (unknowns w) (unknownsPos w)
                   (samplesOf events).
Proof.
  induction events as [|e events IH]; intros w Hr Hs.
  - by exists w.
  - cbn [mainLoop]. destruct e as [now ready|u ts]; cbn [mainStep samplesOf].
    + destruct (processPeriodic_spec botSend w now ready)
        as (Hc & Hu & Hp & _). cbn zeta in *.
      destruct (IH (processPeriodic botSend w now ready).1) as (w' & Hw' & Hc' & Hb').
      * unfold bufferReady. by rewrite Hc, Hu, Hp.
      * unfold bufferSized. by rewrite Hc, Hu.
      * exists w'. rewrite Hw'. rewrite Hc, Hu, Hp in *. done.
    + destruct (processStatusUpdate_monitor w u ts) as [Hn|(w1 & H1 & Hc & Hu & Hp & _)].
      { destruct (processStatusUpdate_total botSend w u ts Hr) as [w0 Hw0].
        congruence. }
      rewrite H1. cbn [writeSamples].
      destruct Hr as [Hpos Hd]. unfold bufferSized in Hs.
      destruct (IH w1) as (w' & Hw' & Hc' & Hb').
      * unfold bufferReady. rewrite Hc, Hu, Hp, length_insert.
        split; [|done]. rewrite Z.rem_mod_nonneg by lia.
        rewrite <- Hs. apply Z.mod_pos_bound. lia.
      * unfold bufferSized. by rewrite Hc, Hu, length_insert.
      * exists w'. rewrite Hw'. rewrite Hc, Hu, Hp in *. done.
Qed.

(** X2.  The error monitor is a sliding window.  Started with a buffer of
    [errorDenominator] slots and a position inside it, every run of the
    main loop that gets through its events leaves the buffer in that
    shape, and once at least [errorDenominator] status results have been
    processed the number [unknownsNumber] is the number of Unknown results
    among the last [errorDenominator] of them. *)
Theorem mainLoop_error_window w events w' :
  bufferReady w -> bufferSized w ->
  mainLoop botSend w events = Some w' ->
  bufferReady w' /\ bufferSized w' /\
  ((length (unknowns w) <= length (samplesOf events))%nat ->
   unknownsNumber w' =
   countTrue (drop (length (samplesOf events) - length (unknowns w))
                   (samplesOf events))).
Proof.
  intros Hr Hs Hrun.
  destruct (mainLoop_buffer events w Hr Hs) as (w0 & Hw' & Hc & Hb).
  rewrite Hrun in Hw'. apply (inj Some) in Hw'. subst w0.
  destruct Hr as [Hpos Hd]. unfold bufferSized in Hs.
  destruct (writeSamples_inv (errorDenominator (cfg w)) (samplesOf events)
              (unknowns w) (unknownsPos w) Hs) as [Hl Hp']; [lia|].
  rewrite <- Hb in Hl, Hp'. cbn [fst snd] in Hl, Hp'.
  unfold bufferReady, bufferSized. rewrite Hc, Hl.
  repeat split; [lia|lia|done|done|].
  intros Hlen. rewrite unknownsNumber_count.
  change (unknowns w') with (unknowns w', unknownsPos w').1. rewrite Hb.
  apply writeSamples_window; [done|lia|done].
Qed.

End Monitor.

Lemma processStatusUpdate_panics_witness :
  let w := mkWorker sampleConfig (mkDB sampleSignals ∅ ∅ ∅)
                    (replicate 10 false) 10 0 [] in
  ~ bufferReady w /\
  processStatusUpdate alwaysSent w (mkStatusUpdate "alice" StatusOnline) 1000
  = None.
Proof.
  cbn zeta.
  assert (Hnb : ~ bufferReady (mkWorker sampleConfig (mkDB sampleSignals ∅ ∅ ∅)
                                        (replicate 10 false) 10 0 [])).
  { apply (bool_decide_unpack _); vm_compute; exact I. }
  split; [exact Hnb|].
  exact (processStatusUpdate_panics alwaysSent _
           (mkStatusUpdate "alice" StatusOnline) 1000 Hnb).
Defined.

Lemma mainLoop_error_window_witness :
  bufferReady (sampleWorker []) /\ bufferSized (sampleWorker []) /\
  exists w', mainLoop alwaysSent (sampleWorker []) twelveResults = Some w' /\
    bufferReady w' /\ bufferSized w' /\
    ((length (unknowns (sampleWorker [])) <= length (samplesOf twelveResults))%nat ->
     unknownsNumber w' =
     countTrue (drop (length (samplesOf twelveResults)
                      - length (unknowns (sampleWorker [])))
                     (samplesOf twelveResults))).
Proof.
  assert (Hr : bufferReady (sampleWorker []))
    by (apply (bool_decide_unpack _); vm_compute; exact I).
  assert (Hs : bufferSized (sampleWorker []))
    by (apply (bool_decide_unpack _); vm_compute; exact I).
  split; [exact Hr|]. split; [exact Hs|].
  eexists. split; [vm_compute; reflexivity|].
  apply (mainLoop_error_window alwaysSent (sampleWorker []) twelveResults _ Hr Hs).
  vm_compute; reflexivity.
Defined.

(* ===================================================================== *)
(** ** The store over a run of the main loop *)
(* ===================================================================== *)

Section Store.
Variable botSend : nat -> sendResult.

(** X3.  Over any run of the main loop, every status record belongs to an
    entity that has a subscription: status results create records only
    for watched entities, and the removal of an entity deletes its record
    with its subscriptions. *)
Theorem mainLoop_recordsWatched events : forall w w',
  recordsWatched w ->
  mainLoop botSend w events = Some w' ->
  recordsWatched w'.
Proof.
  induction events as [|e events IH]; intros w w' Hinv H; cbn [mainLoop] in H.
  - by injection H as <-.
  - destruct (mainStep botSend w e) as [w1|] eqn:H1; [|done].
    apply (IH w1 w'); [|done].
    destruct e as [now ready|u ts]; cbn [mainStep] in H1.
    + change (Some (processPeriodic botSend w now ready).1 = Some w1) in H1.
      apply (inj Some) in H1. subst w1.
      destruct (processPeriodic_spec botSend w now ready)
        as (_ & _ & _ & Hs & Ht & _).
      intros m. unfold watched. rewrite Hs, Ht. apply Hinv.
    + by apply (processStatusUpdate_recordsWatched botSend w u ts).
Qed.

End Store.

Lemma mainLoop_recordsWatched_witness :
  let w := sampleWorker [("alice", mkStatus StatusOnline 0 100)] in
  recordsWatched w /\
  exists w', mainLoop alwaysSent w twelveResults = Some w' /\ recordsWatched w'.
Proof.
  cbn zeta.
  assert (H : recordsWatched (sampleWorker [("alice", mkStatus StatusOnline 0 100)])).
  { intros m [r Hr]. cbn in Hr.
    apply lookup_insert_Some in Hr as [[<- _]|[_ Hr]]; [|done].
    unfold watched. cbn. apply elem_of_cons. by left. }
  split; [exact H|].
  eexists. split; [vm_compute; reflexivity|].
  apply (mainLoop_recordsWatched alwaysSent twelveResults
           (sampleWorker [("alice", mkStatus StatusOnline 0 100)]) _ H).
  vm_compute; reflexivity.
Defined.

(** On a store whose records all belong to watched entities
    [cleanStatuses] deletes nothing. *)
Lemma cleanStatuses_id w : recordsWatched w -> cleanStatuses w = w.
Proof.
  intros H. destruct w as [c [sg st bl us] u p n o].
  unfold cleanStatuses, withDB, onStatuses.
  cbn [cfg db unknowns unknownsPos nextErrorReport outbox signals statuses block users].
  do 2 f_equal. apply map_eq. intros m.
  destruct (st !! m) as [r|] eqn:Hr.
  - apply map_lookup_filter_Some. split; [done|]. apply (H m). by exists r.
  - apply map_lookup_filter_None. by left.
Qed.

(** X4.  [cleanStatuses] keeps the records of the entities that have a
    subscription and deletes the others, whatever the store was; it
    touches nothing else, and running it twice changes nothing more. *)
Theorem cleanStatuses_spec w :
  (forall m, statuses (db (cleanStatuses w)) !! m =
             if decide (watched w m) then statuses (db w) !! m else None) /\
  signals (db (cleanStatuses w)) = signals (db w) /\
  block (db (cleanStatuses w)) = block (db w) /\
  users (db (cleanStatuses w)) = users (db w) /\
  buffer (cleanStatuses w) = buffer w /\
  outbox (cleanStatuses w) = outbox w /\
  recordsWatched (cleanStatuses w) /\
  cleanStatuses (cleanStatuses w) = cleanStatuses w.
Proof.
  assert (Hl : forall m, statuses (db (cleanStatuses w)) !! m =
                         if decide (watched w m) then statuses (db w) !! m else None).
  { intros m. unfold cleanStatuses. reduce_db.
    destruct (statuses (db w) !! m) as [r|] eqn:Hr.
    - destruct (decide (watched w m)) as [Hw|Hw].
      + by apply map_lookup_filter_Some.
      + apply map_lookup_filter_None. right. intros r' _. exact Hw.
    - rewrite map_lookup_filter_None_2; [by destruct (decide _)|by left]. }
  repeat split; try done.
  - intros m [r Hr]. rewrite Hl in Hr.
    destruct (decide (watched w m)) as [Hw|]; [exact Hw|done].
  - apply cleanStatuses_id. intros m [r Hr]. rewrite Hl in Hr.
    unfold watched. change (signals (db (cleanStatuses w))) with (signals (db w)).
    destruct (decide (watched w m)) as [Hw|]; [exact Hw|done].
Qed.

(* ===================================================================== *)
(** ** The queries over the subscriptions *)
(* ===================================================================== *)

Lemma String_compare_trans_le : forall a b c : string,
  (a ?= b)%string <> Gt -> (b ?= c)%string <> Gt -> (a ?= c)%string <> Gt.
Proof.
  induction a as [|x a IH]; intros [|y b] [|z c]; cbn; try done.
  unfold Ascii.compare.
  destruct (N.compare_spec (N_of_ascii x) (N_of_ascii y)) as [Hxy|Hxy|Hxy];
    destruct (N.compare_spec (N_of_ascii y) (N_of_ascii z)) as [Hyz|Hyz|Hyz];
    try done; intros H1 H2.
  - rewrite Hxy, Hyz, N.compare_refl. by apply (IH b c).
  - rewrite Hxy. by apply N.compare_lt_iff in Hyz as ->.
  - rewrite <- Hyz. by apply N.compare_lt_iff in Hxy as ->.
  - assert (N_of_ascii x < N_of_ascii z)%N as Hxz by lia.
    by apply N.compare_lt_iff in Hxz as ->.
Qed.

#[local] Instance byModel_trans : Transitive byModel.
Proof.
  intros a b c. unfold byModel, String.leb. intros H1 H2.
  pose proof (String_compare_trans_le a b c) as H.
  destruct (a ?= b)%string eqn:E1; try done;
    destruct (b ?= c)%string eqn:E2; try done;
    destruct (a ?= c)%string; try done; exfalso; by apply H.
Qed.

#[local] Instance byModel_total : Total byModel.
Proof. intros a b. apply String.leb_total. Qed.

#[local] Instance byChat_trans : Transitive byChat.
Proof. intros a b c. unfold byChat. lia. Qed.

#[local] Instance byChat_total : Total byChat.
Proof. intros a b. unfold byChat. lia. Qed.

(** X5.  The watch-list [models] holds exactly the entities that have at
    least one subscription of a chat that is not blocked, each of them
    once, in ascending order of the identifiers. *)
Theorem models_spec w :
  (forall m, m ∈ models w <->
             exists s, s ∈ signals (db w) /\ model_id s = m /\
                       notBlocked (cfg w) (db w) s) /\
  NoDup (models w) /\
  StronglySorted byModel (models w).
Proof.
  unfold models. split; [|split].
  - intros m.
    rewrite merge_sort_Permutation, elem_of_remove_dups, list_elem_of_fmap.
    split.
    + intros (s & -> & Hs). apply list_elem_of_filter in Hs as [Hb Hs].
      by exists s.
    + intros (s & Hs & <- & Hb).
      exists s. split; [done|]. by apply list_elem_of_filter.
  - rewrite merge_sort_Permutation. apply NoDup_remove_dups.
  - apply StronglySorted_merge_sort; apply _.
Qed.

Lemma elem_of_chatsForModel w m c e :
  (c, e) ∈ chatsForModel w m <->
  mkSignal c m e ∈ signals (db w) /\ notBlocked (cfg w) (db w) (mkSignal c m e).
Proof.
  unfold chatsForModel. rewrite merge_sort_Permutation, list_elem_of_fmap. split.
  - intros (s & Heq & Hs). apply list_elem_of_filter in Hs as [[Hm Hb] Hs].
    destruct s as [c' m' e']. cbn in *. by simplify_eq.
  - intros [Hs Hb].
    exists (mkSignal c m e). split; [done|]. by apply list_elem_of_filter.
Qed.

(** X6.  [chatsForModel] lists exactly the chats, with their endpoints,
    that have a subscription to the entity and are not blocked, one entry
    per subscription row, in ascending order of the chat identifiers. *)
Theorem chatsForModel_spec w m :
  (forall c e, (c, e) ∈ chatsForModel w m <->
               mkSignal c m e ∈ signals (db w) /\
               notBlocked (cfg w) (db w) (mkSignal c m e)) /\
  length (chatsForModel w m) =
    length (filter (fun s => model_id s = m /\ notBlocked (cfg w) (db w) s)
                   (signals (db w))) /\
  StronglySorted byChat (chatsForModel w m).
Proof.
  split; [|split].
  - intros c e. apply elem_of_chatsForModel.
  - unfold chatsForModel. by rewrite merge_sort_Permutation, length_fmap.
  - apply StronglySorted_merge_sort; apply _.
Qed.

(* ===================================================================== *)
(** ** Who is notified, and when *)
(* ===================================================================== *)

Lemma statusMessages_toSubscriber w m m' st (chats : list (Z * string)) :
  chats ⊆ chatsForModel w m' ->
  m = m' ->
  Forall (toSubscriber w m') (statusMessages m st chats).
Proof.
  intros Hsub ->. unfold statusMessages. apply Forall_forall. intros msg Hin.
  apply list_elem_of_In, in_flat_map in Hin as (c & Hc & Hin).
  apply list_elem_of_In in Hc. apply Hsub in Hc. destruct c as [c e].
  unfold statusMessage in Hin. cbn [fst snd] in Hin.
  destruct st; cbn in Hin; try done; destruct Hin as [<-|[]];
    (split; [exact Hc|eexists; reflexivity]).
Qed.

Lemma goneMessages_toSubscriber w m :
  Forall (toSubscriber w m) (map (goneMessage m) (chatsForModel w m)).
Proof.
  apply Forall_forall. intros msg Hin.
  apply list_elem_of_In, in_map_iff in Hin as ([c e] & <- & Hc).
  apply list_elem_of_In in Hc. split; [exact Hc|]. by exists ProfileRemoved.
Qed.

(** Whether [updateStatus] asks for a notification, for a watched entity
    that has a record. *)
Lemma updateStatus_notify_record w m st ts r :
  watched w m ->
  statuses (db w) !! m = Some r ->
  (updateStatus w m st ts).2 =
  bool_decide (status r <> storedStatus st)
  && (OfflineNotifications (cfg w)
      || (bool_decide (status r <> StatusOnline)
          && bool_decide (storedStatus st = StatusOnline)))
  && (OfflineNotifications (cfg w)
      || (OfflineThresholdSeconds (cfg w) <=? int_sub ts (last_online r))).
Proof.
  intros Hw Hr. apply signalsCount_watched, Z.eqb_neq in Hw.
  unfold updateStatus, storedStatus.
  destruct (decide (st = StatusNotFound)) as [->|Hne].
  - rewrite (bool_decide_eq_false_2 (StatusNotFound <> StatusNotFound)) by tauto.
    rewrite (bool_decide_eq_true_2 (StatusNotFound = StatusNotFound)) by done.
    by rewrite Hw, Hr.
  - rewrite (bool_decide_eq_true_2 (st <> StatusNotFound)) by done.
    rewrite (bool_decide_eq_false_2 (st = StatusNotFound)) by done.
    reduce_db. rewrite Hw. rewrite lookup_alter, decide_True, Hr by done.
    cbn [fmap option_fmap option_map]. done.
Qed.

Section Notices.
Variable botSend : nat -> sendResult.

(** What [processStatusUpdate] adds to the messages sent. *)
Lemma processStatusUpdate_outbox w u ts w' :
  processStatusUpdate botSend w u ts = Some w' ->
  let m := ModelID u in
  let w1 := stage1 botSend w m (Status u) in
  outbox w' = outbox w1 ++
    (if bool_decide (Status u <> StatusUnknown)
        && (updateStatus w1 m (Status u) ts).2
     then statusMessages m (Status u) (chatsForModel w1 m)
     else []) /\
  signals (db w') = signals (db w1) /\
  statuses (db w') =
    (if bool_decide (Status u <> StatusUnknown)
     then statuses (db (updateStatus w1 m (Status u) ts).1)
     else statuses (db w1)).
Proof.
  intros H. cbn zeta. rewrite processStatusUpdate_stages in H.
  apply recordUnknown_frame in H as (Hdb & Ho & _).
  destruct (stage2_frame botSend (stage1 botSend w (ModelID u) (Status u))
              (ModelID u) (Status u) ts) as (_ & Hs & Ht & Ho2).
  cbn zeta in *. rewrite Ho, Hdb. done.
Qed.

(** Every message that [processStatusUpdate] sends goes to a chat of
    [chatsForModel] and is about the entity of the update. *)
Lemma processStatusUpdate_sent w u ts w' :
  processStatusUpdate botSend w u ts = Some w' ->
  exists new, outbox w' = outbox w ++ new /\
              Forall (toSubscriber w (ModelID u)) new.
Proof.
  intros H.
  apply processStatusUpdate_outbox in H as (Ho & _). cbn zeta in Ho.
  destruct u as [m st]. cbn [ModelID Status] in *.
  destruct (decide (st = StatusNotFound)) as [->|Hst].
  - rewrite statusMessages_NotFound in Ho.
    assert (Ho' : outbox w' = outbox (stage1 botSend w m StatusNotFound)).
    { rewrite Ho. destruct (_ && _); by rewrite app_nil_r. }
    clear Ho. rewrite Ho'.
    destruct (statuses (db w) !! m) as [r|] eqn:Hr.
    + destruct (Z_le_gt_dec (not_found r + 1) (NotFoundThreshold (cfg w))).
      * rewrite (stage1_counted botSend w m r) by done.
        exists []. by rewrite app_nil_r.
      * destruct (stage1_gone botSend w m r Hr g) as (_ & Hg & _).
        cbn zeta in Hg. rewrite Hg. eexists. split; [reflexivity|].
        apply goneMessages_toSubscriber.
    + rewrite stage1_absent by done. exists []. by rewrite app_nil_r.
  - rewrite stage1_other in Ho by done. rewrite Ho.
    eexists. split; [reflexivity|].
    destruct (_ && _); [|by constructor].
    by apply statusMessages_toSubscriber.
Qed.

(** X7.  Whatever the observed status, every message that
    [processStatusUpdate] sends goes to a chat that is subscribed to the
    entity of the update and is not blocked, on the endpoint of that
    subscription, and is about that entity; nothing that was sent before
    is changed. *)
Theorem processStatusUpdate_recipients w u ts w' :
  processStatusUpdate botSend w u ts = Some w' ->
  exists new,
    outbox w' = outbox w ++ new /\
    Forall (toSubscriber w (ModelID u)) new /\
    Forall (fun msg =>
              mkSignal (msgChatID msg) (ModelID u) (msgEndpoint msg)
                ∈ signals (db w) /\
              notBlocked (cfg w) (db w)
                (mkSignal (msgChatID msg) (ModelID u) (msgEndpoint msg))) new.
Proof.
  intros H.
  destruct (processStatusUpdate_sent w u ts w' H) as (new & Ho & Hall).
  exists new. repeat split; try done.
  eapply Forall_impl; [exact Hall|]. intros msg [Hin _]. cbn beta.
  by apply elem_of_chatsForModel in Hin.
Qed.

(** X8.  A status other than NotFound that is reported again is not
    notified again: the second of two successive results with the same
    status for an entity sends nothing, whatever the time stamps, the
    configuration and the answers of the bots. *)
Theorem processStatusUpdate_repeated w u ts ts' w1 w2 :
  Status u <> StatusNotFound ->
  processStatusUpdate botSend w u ts = Some w1 ->
  processStatusUpdate botSend w1 u ts' = Some w2 ->
  outbox w2 = outbox w1.
Proof.
  intros Hst H1 H2.
  apply processStatusUpdate_outbox in H1 as (_ & Hs1 & Ht1).
  apply processStatusUpdate_outbox in H2 as (Ho2 & _).
  cbn zeta in *. destruct u as [m st]. cbn [ModelID Status] in *.
  rewrite stage1_other in * by done.
  rewrite Ho2.
  destruct (decide (st = StatusUnknown)) as [->|Hun].
  { rewrite (bool_decide_eq_false_2 (StatusUnknown <> StatusUnknown)) by tauto.
    cbn [andb]. by rewrite app_nil_r. }
  rewrite (bool_decide_eq_true_2 (st <> StatusUnknown)) in * by done.
  cbn [andb].
  assert (Hn : (updateStatus w1 m st ts').2 = false); [|by rewrite Hn, app_nil_r].
  destruct (decide (watched w m)) as [Hw|Hw].
  - assert (Hw1 : watched w1 m) by (unfold watched; by rewrite Hs1).
    assert (Hr : exists r, statuses (db w1) !! m = Some r /\ status r = st).
    { rewrite Ht1. destruct (statuses (db w) !! m) as [r|] eqn:Hr.
      - rewrite (updateStatus_record w m st ts r Hw Hr). eexists. split; [done|].
        unfold storedAfter. cbn [status].
        by rewrite (bool_decide_eq_false_2 (st = StatusNotFound)).
      - destruct (updateStatus_first w m st ts Hw Hr) as [_ ->].
        eexists. split; [done|]. unfold storedAfter. cbn [status].
        by rewrite (bool_decide_eq_false_2 (st = StatusNotFound)). }
    destruct Hr as (r & Hr & Hsr).
    rewrite (updateStatus_notify_record w1 m st ts' r Hw1 Hr).
    unfold storedStatus.
    rewrite (bool_decide_eq_false_2 (st = StatusNotFound)) by done.
    rewrite (bool_decide_eq_false_2 (status r <> st)); [done|]. by intros [].
  - apply updateStatus_unwatched. apply signalsCount_unwatched.
    unfold watched. by rewrite Hs1.
Qed.

(** X9.  With offline notifications off, an entity stored Online that is
    seen Offline and then Online again: the Offline result sends nothing
    and keeps the time it was last seen Online, and the Online result is
    notified, to the chats of [chatsForModel], exactly when the time
    since it was last seen Online before the gap reaches
    [OfflineThresholdSeconds].  Shorter gaps pass unnoticed. *)
Theorem processStatusUpdate_flap w m r t1 t2 w1 w2 :
  OfflineNotifications (cfg w) = false ->
  watched w m ->
  statuses (db w) !! m = Some r ->
  status r = StatusOnline ->
  is_int (t2 - last_online r) ->
  processStatusUpdate botSend w (mkStatusUpdate m StatusOffline) t1 = Some w1 ->
  processStatusUpdate botSend w1 (mkStatusUpdate m StatusOnline) t2 = Some w2 ->
  outbox w1 = outbox w /\
  statuses (db w1) !! m = Some (mkStatus StatusOffline 0 (last_online r)) /\
  outbox w2 = outbox w ++
    (if OfflineThresholdSeconds (cfg w) <=? t2 - last_online r
     then statusMessages m StatusOnline (chatsForModel w m) else []) /\
  statuses (db w2) !! m = Some (mkStatus StatusOnline 0 t2).
Proof.
  intros Hoff Hw Hr Hon Hint H1 H2.
  pose proof (processStatusUpdate_buffer botSend _ _ _ _ H1) as (Hc1 & _).
  assert (Hch : chatsForModel w1 m = chatsForModel w m).
  { pose proof H1 as H1'. rewrite processStatusUpdate_stages in H1'.
    apply recordUnknown_frame in H1' as (Hdb & _ & _ & Hc & _).
    cbn [ModelID Status] in Hdb, Hc. rewrite stage1_other in Hdb, Hc by done.
    unfold stage2 in Hdb, Hc. cbn in Hdb, Hc.
    destruct (updateStatus w m StatusOffline t1) as [wu nu] eqn:Eu.
    assert (Hnu : nu = false).
    { change nu with (wu, nu).2. rewrite <- Eu.
      rewrite (updateStatus_notify_record w m StatusOffline t1 r Hw Hr).
      rewrite Hoff, Hon. done. }
    subst nu. change wu with (wu, false).1 in Hdb, Hc. rewrite <- Eu in Hdb, Hc.
    destruct (updateStatus_frame w m StatusOffline t1) as (_ & _ & _ & Hcf).
    rewrite <- Hcf. unfold chatsForModel. by rewrite Hdb, Hc. }
  apply processStatusUpdate_outbox in H1 as (Ho1 & Hs1 & Ht1).
  apply processStatusUpdate_outbox in H2 as (Ho2 & Hs2 & Ht2).
  cbn zeta in *. cbn [ModelID Status] in *.
  rewrite stage1_other in * by done.
  rewrite (bool_decide_eq_true_2 (StatusOffline <> StatusUnknown)) in * by done.
  rewrite (bool_decide_eq_true_2 (StatusOnline <> StatusUnknown)) in * by done.
  cbn [andb] in *.
  rewrite (updateStatus_notify_record w m StatusOffline t1 r Hw Hr) in Ho1.
  rewrite Hoff, Hon in Ho1. cbn in Ho1. rewrite app_nil_r in Ho1.
  assert (Hr1 : statuses (db w1) !! m = Some (mkStatus StatusOffline 0 (last_online r))).
  { rewrite Ht1, (updateStatus_record w m StatusOffline t1 r Hw Hr). done. }
  assert (Hw1 : watched w1 m) by (unfold watched; by rewrite Hs1).
  rewrite (updateStatus_notify_record w1 m StatusOnline t2 _ Hw1 Hr1) in Ho2.
  rewrite Hc1, Hoff in Ho2. cbn in Ho2.
  unfold int_sub in Ho2. rewrite wrap64_id in Ho2 by done.
  rewrite Hch, Ho1 in Ho2.
  repeat split; try done.
  rewrite Ht2, (updateStatus_record w1 m StatusOnline t2 _ Hw1 Hr1). done.
Qed.

End Notices.

Lemma processStatusUpdate_recipients_witness :
  let w := sampleWorker [("alice", mkStatus StatusOffline 0 100)] in
  let u := mkStatusUpdate "alice" StatusOnline in
  exists w',
    processStatusUpdate alwaysSent w u 1000 = Some w' /\
    exists new,
      outbox w' = outbox w ++ new /\
      Forall (toSubscriber w (ModelID u)) new /\
      Forall (fun msg =>
                mkSignal (msgChatID msg) (ModelID u) (msgEndpoint msg)
                  ∈ signals (db w) /\
                notBlocked (cfg w) (db w)
                  (mkSignal (msgChatID msg) (ModelID u) (msgEndpoint msg))) new.
Proof.
  cbn zeta. eexists. split; [vm_compute; reflexivity|].
  apply (processStatusUpdate_recipients alwaysSent
           (sampleWorker [("alice", mkStatus StatusOffline 0 100)])
           (mkStatusUpdate "alice" StatusOnline) 1000).
  vm_compute; reflexivity.
Defined.

Lemma processStatusUpdate_repeated_witness :
  let w := sampleWorker [("alice", mkStatus StatusOffline 0 100)] in
  let u := mkStatusUpdate "alice" StatusOnline in
  exists w1 w2,
    processStatusUpdate alwaysSent w u 1000 = Some w1 /\
    processStatusUpdate alwaysSent w1 u 1060 = Some w2 /\
    outbox w2 = outbox w1.
Proof.
  cbn zeta. eexists. eexists.
  split; [vm_compute; reflexivity|]. split; [vm_compute; reflexivity|].
  eapply (processStatusUpdate_repeated alwaysSent
            (sampleWorker [("alice", mkStatus StatusOffline 0 100)])
            (mkStatusUpdate "alice" StatusOnline) 1000 1060).
  - done.
  - vm_compute; reflexivity.
  - vm_compute; reflexivity.
Defined.

Lemma processStatusUpdate_flap_witness :
  let w := sampleWorker [("alice", mkStatus StatusOnline 0 900)] in
  let r := mkStatus StatusOnline 0 900 in
  exists w1 w2,
    processStatusUpdate alwaysSent w (mkStatusUpdate "alice" StatusOffline) 1000
    = Some w1 /\
    processStatusUpdate alwaysSent w1 (mkStatusUpdate "alice" StatusOnline) 1060
    = Some w2 /\
    outbox w1 = outbox w /\
    statuses (db w1) !! "alice" = Some (mkStatus StatusOffline 0 (last_online r)) /\
    outbox w2 = outbox w ++
      (if OfflineThresholdSeconds (cfg w) <=? 1060 - last_online r
       then statusMessages "alice" StatusOnline (chatsForModel w "alice") else []) /\
    statuses (db w2) !! "alice" = Some (mkStatus StatusOnline 0 1060).
Proof.
  cbn zeta. eexists. eexists.
  split; [vm_compute; reflexivity|]. split; [vm_compute; reflexivity|].
  eapply (processStatusUpdate_flap alwaysSent
            (sampleWorker [("alice", mkStatus StatusOnline 0 900)]) "alice"
            (mkStatus StatusOnline 0 900) 1000 1060).
  - reflexivity.
  - by_evaluation.
  - vm_compute; reflexivity.
  - reflexivity.
  - by_evaluation.
  - vm_compute; reflexivity.
  - vm_compute; reflexivity.
Defined.

(* ===================================================================== *)
(** ** The block counters *)
(* ===================================================================== *)

Section Blocking.
Variable botSend : nat -> sendResult.

(** X10.  [sendMessage] keeps the count of the refusals of a chat: an
    answer 403 adds one to the counter of the chat on that endpoint,
    starting a counter at 1 when there was none; a delivered message
    sets an existing counter to 0 and creates none; any other error
    leaves the counter as it was.  The counters of the other chats and
    endpoints are never touched, and the message is logged in every
    case. *)
Theorem sendMessage_block w e msg :
  let w' := sendMessage botSend w e msg in
  block (db w') !! (msgChatID msg, e) =
    match botSend (length (outbox w)) with
    | SendForbidden => Some (default 0 (block (db w) !! (msgChatID msg, e)) + 1)
    | SendOK => (fun _ => 0) <$> block (db w) !! (msgChatID msg, e)
    | SendFailed => block (db w) !! (msgChatID msg, e)
    end /\
  (forall k, k <> (msgChatID msg, e) -> block (db w') !! k = block (db w) !! k) /\
  users (db w') = users (db w) /\
  outbox w' = outbox w ++ [msg].
Proof.
  cbn zeta. unfold sendMessage.
  destruct (botSend (length (outbox w))); unfold resetBlock, incrementBlock;
    reduce_db.
  - rewrite lookup_alter, decide_True by done. repeat split; try done.
    intros k Hk. by rewrite lookup_alter_ne.
  - repeat split; try done.
    + rewrite lookup_alter, decide_True by done.
      destruct (block (db w) !! (msgChatID msg, e)) as [b|] eqn:Hb.
      * by rewrite Hb.
      * by rewrite lookup_insert_eq.
    + intros k Hk. rewrite lookup_alter_ne by done.
      destruct (block (db w) !! (msgChatID msg, e)); [done|].
      by rewrite lookup_insert_ne.
  - done.
Qed.

End Blocking.

(* ===================================================================== *)
(** ** The rounds of the Stripchat checker *)
(* ===================================================================== *)

Section Rounds.
Variable strings_ToLower : string -> string.
Variable onlineQueryAt : nat -> string -> Client -> headers -> queryResult * Z.
Variable decode : string -> string + Stripchat.stripchatResponse.
Variable usersOnlineEndpoint : string.
Variable clients : list Client.
Variable hdrs : headers.

(** A round with the client index in range does not panic and passes on
    the next index, back to 0 after the last client. *)
Lemma checkerRound_next q clientIdx models :
  (clientIdx < length clients)%nat ->
  exists sent,
    Stripchat.checkerRound strings_ToLower q decode usersOnlineEndpoint clients
                           hdrs clientIdx models
    = Some ((S clientIdx) mod length clients, sent)%nat.
Proof.
  intros Hlt. unfold Stripchat.checkerRound.
  destruct (lookup_lt_is_Some_2 clients clientIdx Hlt) as [client ->].
  assert (Hn : (if (S clientIdx =? length clients)%nat then 0%nat else S clientIdx)
               = (S clientIdx mod length clients)%nat).
  { destruct (Nat.eqb_spec (S clientIdx) (length clients)) as [->|Hne].
    - by rewrite Nat.Div0.mod_same.
    - rewrite Nat.mod_small; lia. }
  rewrite Hn.
  destruct (q usersOnlineEndpoint client hdrs) as [[e|resp buf] elapsed];
    [by eexists|].
  destruct (negb _); [by eexists|]. destruct (decode buf); by eexists.
Qed.

Lemma checkerLoop_rotation input : forall round clientIdx,
  (clientIdx < length clients)%nat ->
  checkerLoop strings_ToLower onlineQueryAt decode usersOnlineEndpoint clients
              hdrs round clientIdx input =
  Some (concat (imap (fun k models =>
                        roundSent strings_ToLower onlineQueryAt decode
                                  usersOnlineEndpoint clients hdrs (round + k)
                                  ((clientIdx + k) mod length clients) models)
                     input)).
Proof.
  induction input as [|models rest IH]; intros round clientIdx Hlt; [done|].
  cbn [checkerLoop imap concat].
  destruct (checkerRound_next (onlineQueryAt round) clientIdx models Hlt)
    as [sent Hsent].
  rewrite Hsent. rewrite IH by (apply Nat.mod_upper_bound; lia).
  f_equal. cbn [concat]. f_equal.
  - unfold roundSent. rewrite !Nat.add_0_r, (Nat.mod_small clientIdx) by done.
    by rewrite Hsent.
  - f_equal. apply imap_ext. intros k models' _. cbn [compose].
    f_equal; [lia|].
    rewrite Nat.Div0.add_mod_idemp_l. f_equal. lia.
Qed.

(** X11.  The Stripchat checker takes its clients in turn: when there is
    at least one client, it never panics, and what it sends is, round
    after round, what round [k] sends with the client of index
    [k mod len(clients)]; the client index wraps to 0 after the last
    client.  Without clients it panics on the first watch-list it
    receives. *)
Theorem StartStripchatAPIChecker_rotation input :
  StartStripchatAPIChecker strings_ToLower onlineQueryAt decode
                           usersOnlineEndpoint clients hdrs input =
  match clients, input with
  | [], _ :: _ => None
  | _, _ =>
    Some (concat (imap (fun k models =>
                          roundSent strings_ToLower onlineQueryAt decode
                                    usersOnlineEndpoint clients hdrs k
                                    (k mod length clients) models)
                       input))
  end.
Proof.
  unfold StartStripchatAPIChecker.
  destruct clients as [|c cs] eqn:Hc.
  - destruct input as [|models rest]; [done|].
    cbn [checkerLoop]. unfold Stripchat.checkerRound. by rewrite lookup_nil.
  - rewrite <- Hc. rewrite checkerLoop_rotation by (rewrite Hc; cbn; lia).
    done.
Qed.

End Rounds.

(* ===================================================================== *)
(** ** Canonical identifiers are valid identifiers *)
(* ===================================================================== *)

Lemma isLowerModelChar_lower c :
  isLowerModelChar (lower_ascii c) = Cam4.isModelChar c.
Proof. by destruct c as [[] [] [] [] [] [] [] []]. Qed.

Lemma allLowerModelChars_ToLower s :
  allLowerModelChars (ToLower s) = allModelChars s.
Proof.
  induction s as [|c s IH]; [done|]. cbn [ToLower allLowerModelChars allModelChars].
  by rewrite isLowerModelChar_lower, IH.
Qed.

Lemma MatchString_ToLower s :
  Cam4ModelIDRegexp_MatchString (ToLower s) = true <-> isIdentifier s.
Proof.
  unfold isIdentifier. destruct s as [|c s]; [cbn; by intuition|].
  change (ToLower (String c s)) with (String (lower_ascii c) (ToLower s)).
  unfold Cam4ModelIDRegexp_MatchString.
  change (String (lower_ascii c) (ToLower s)) with (ToLower (String c s)).
  rewrite allLowerModelChars_ToLower. by intuition.
Qed.

Lemma spanModelChars_allModelChars s :
  allModelChars (Cam4.spanModelChars s).1 = true.
Proof.
  induction s as [|c s IH]; [done|]. cbn [Cam4.spanModelChars].
  destruct (Cam4.isModelChar c) eqn:Hc; [|done].
  cbn [fst allModelChars]. by rewrite Hc, IH.
Qed.

(** What [cam4ModelRegex] captures is an identifier. *)
Lemma FindStringSubmatch_isIdentifier name id :
  Cam4.cam4ModelRegex_FindStringSubmatch name = Some id -> isIdentifier id.
Proof.
  unfold Cam4.cam4ModelRegex_FindStringSubmatch.
  destruct (Cam4.stripPrefix "cam4.com/" _) as [r|]; [|done].
  pose proof (spanModelChars_allModelChars r) as Hall.
  destruct (Cam4.spanModelChars r) as [i rest]. cbn [fst] in Hall.
  destruct i as [|c i]; [done|].
  destruct (Cam4.tailMatches rest); [|done].
  intros [= <-]. by split.
Qed.

(** X12.  Canonicalisation followed by validation: for ASCII text,
    [Cam4CanonicalModelID] gives an identifier that [Cam4ModelIDRegexp]
    accepts exactly when the text is a profile URL that [cam4ModelRegex]
    matches or is itself a non-empty run of letters, digits and
    underscores; every matched URL gives a valid identifier. *)
Theorem Cam4CanonicalModelID_valid name :
  isASCII name = true ->
  (Cam4ModelIDRegexp_MatchString (Cam4.Cam4CanonicalModelID name) = true <->
   is_Some (Cam4.cam4ModelRegex_FindStringSubmatch name) \/ isIdentifier name).
Proof.
  intros _. unfold Cam4.Cam4CanonicalModelID.
  destruct (Cam4.cam4ModelRegex_FindStringSubmatch name) as [id|] eqn:Hm.
  - apply FindStringSubmatch_isIdentifier in Hm.
    rewrite MatchString_ToLower. split; [by left; eexists|done].
  - rewrite MatchString_ToLower. split; [by right|].
    intros [[? [=]]|H]; done.
Qed.

Lemma Cam4CanonicalModelID_valid_witness :
  isASCII "https://cam4.com/Alice_01/videos" = true /\
  (Cam4ModelIDRegexp_MatchString
     (Cam4.Cam4CanonicalModelID "https://cam4.com/Alice_01/videos") = true <->
   is_Some (Cam4.cam4ModelRegex_FindStringSubmatch "https://cam4.com/Alice_01/videos")
   \/ isIdentifier "https://cam4.com/Alice_01/videos").
Proof.
  split; [reflexivity|].
  apply (Cam4CanonicalModelID_valid "https://cam4.com/Alice_01/videos").
  reflexivity.
Defined.

(* ===================================================================== *)
(** ** Mail addresses *)
(* ===================================================================== *)

Lemma Split_length s sep : length (Split s sep) = S (countByte sep s).
Proof.
  induction s as [|c s IH]; [done|]. cbn [Split countByte].
  destruct (Ascii.eqb c sep); cbn [length]; [by rewrite IH|].
  destruct (Split s sep) as [|p ps]; cbn [length] in *; lia.
Qed.

Lemma Split_no_separator s sep : countByte sep s = 0%nat -> Split s sep = [s].
Proof.
  induction s as [|c s IH]; [done|]. cbn [Split countByte].
  destruct (Ascii.eqb c sep); [done|]. intros H. by rewrite IH.
Qed.

Lemma Split_at_first s t sep :
  countByte sep s = 0%nat ->
  Split (s +:+ String sep t) sep = s :: Split t sep.
Proof.
  induction s as [|c s IH].
  - intros _. rewrite append_nil. cbn [Split]. by rewrite Ascii.eqb_refl.
  - rewrite append_cons. cbn [Split countByte].
    destruct (Ascii.eqb c sep); [done|]. intros H. by rewrite IH.
Qed.

Lemma ToLower_app s t : ToLower (s +:+ t) = ToLower s +:+ ToLower t.
Proof.
  induction s as [|c s IH]; [done|]. rewrite !append_cons.
  cbn [ToLower]. by rewrite append_cons, IH.
Qed.

Lemma lower_ascii_at c :
  Ascii.eqb (lower_ascii c) "@"%char = Ascii.eqb c "@"%char.
Proof. by destruct c as [[] [] [] [] [] [] [] []]. Qed.

Lemma countByte_ToLower s :
  countByte "@"%char (ToLower s) = countByte "@"%char s.
Proof.
  induction s as [|c s IH]; [done|]. cbn [ToLower countByte].
  by rewrite lower_ascii_at, IH.
Qed.

(** X13.  [splitAddress] splits an address at its only [@] and lowers
    the case of both parts; a text with no [@] or with more than one is
    answered by two empty strings. *)
Theorem splitAddress_spec :
  (forall user host,
     isASCII user = true -> isASCII host = true ->
     countByte "@"%char user = 0%nat -> countByte "@"%char host = 0%nat ->
     splitAddress (user +:+ "@" +:+ host) = (ToLower user, ToLower host)) /\
  (forall a, countByte "@"%char a <> 1%nat ->
             splitAddress a = (EmptyString, EmptyString)).
Proof.
  split.
  - intros user host _ _ Hu Hh. unfold splitAddress. cbn zeta.
    rewrite ToLower_app.
    change ("@" +:+ host) with (String "@"%char host).
    change (ToLower (String "@"%char host)) with (String "@"%char (ToLower host)).
    rewrite Split_at_first by (by rewrite countByte_ToLower).
    rewrite Split_no_separator by (by rewrite countByte_ToLower). done.
  - intros a Ha. unfold splitAddress. cbn zeta.
    pose proof (Split_length (ToLower a) "@"%char) as Hl.
    rewrite countByte_ToLower in Hl.
    destruct (Split (ToLower a) "@"%char) as [|u [|h [|x l]]]; try done.
    cbn [length] in Hl. lia.
Qed.

Lemma splitAddress_spec_witness :
  splitAddress ("Bob.01" +:+ "@" +:+ "Mail.Example.COM")
  = (ToLower "Bob.01", ToLower "Mail.Example.COM") /\
  splitAddress "a@b@c" = (EmptyString, EmptyString).
Proof.
  split.
  - apply (proj1 splitAddress_spec); reflexivity.
  - apply (proj2 splitAddress_spec). vm_compute. discriminate.
Defined.

(* ===================================================================== *)
(** ** The counts of [getStat] *)
(* ===================================================================== *)

Lemma remove_dups_length_mono {A} `{EqDecision A} (l k : list A) :
  l ⊆ k -> (length (remove_dups l) <= length (remove_dups k))%nat.
Proof.
  intros Hsub. apply submseteq_length, NoDup_submseteq; [apply NoDup_remove_dups|].
  intros x. rewrite !elem_of_remove_dups. apply Hsub.
Qed.

Lemma countDistinct_mono {A} `{EqDecision A} (column : signal -> A)
  (P Q : signal -> Prop) `{!forall s, Decision (P s)} `{!forall s, Decision (Q s)} d :
  (forall s, P s -> Q s) ->
  countDistinct column P d <= countDistinct column Q d.
Proof.
  intros HPQ. unfold countDistinct. apply inj_le, remove_dups_length_mono.
  intros x. rewrite !list_elem_of_fmap. intros (s & -> & Hs).
  apply list_elem_of_filter in Hs as [HP Hs].
  exists s. split; [done|]. apply list_elem_of_filter. auto.
Qed.

(** X14.  The counts that [getStat] reports are ordered as their names
    say: on every endpoint the groups are among the users and so are the
    active users, which in turn are among the active users of all
    endpoints; the entities stored Online that are queried are among the
    entities to query, which are among the entities of the endpoint and
    among the entities to query of all endpoints; and the total of the
    entities to query is the length of the watch-list [models] sends to
    the checker. *)
Theorem getStat_counts w e :
  0 <= groupsCount w e <= usersCount w e /\
  activeUsersOnEndpointCount w e <= usersCount w e /\
  activeUsersOnEndpointCount w e <= activeUsersTotalCount w /\
  0 <= onlineModelsCount w e <= modelsToQueryOnEndpointCount w e /\
  modelsToQueryOnEndpointCount w e <= modelsCount w e /\
  modelsToQueryOnEndpointCount w e <= modelsToQueryTotalCount w /\
  modelsToQueryTotalCount w = Z.of_nat (length (models w)).
Proof.
  repeat split.
  - unfold groupsCount, countDistinct. lia.
  - apply countDistinct_mono. tauto.
  - apply countDistinct_mono. tauto.
  - apply countDistinct_mono. tauto.
  - unfold onlineModelsCount, countDistinct. lia.
  - apply countDistinct_mono. tauto.
  - apply countDistinct_mono. tauto.
  - apply countDistinct_mono. tauto.
  - unfold modelsToQueryTotalCount, countDistinct, models.
    by rewrite merge_sort_Permutation.
Qed.

(* ===================================================================== *)
(** ** Subscriptions and limits *)
(* ===================================================================== *)

Lemma filter_length_zero {A} (P : A -> Prop) `{!forall x, Decision (P x)} (l : list A) :
  length (filter P l) = 0%nat <-> forall x, x ∈ l -> ~ P x.
Proof.
  rewrite length_zero_iff_nil. split.
  - intros Hnil x Hx HP.
    assert (x ∈ filter P l) as Hin by (by apply list_elem_of_filter).
    rewrite Hnil in Hin. by apply elem_of_nil in Hin.
  - intros Hall. destruct (filter P l) as [|y k] eqn:E; [done|].
    assert (y ∈ filter P l) as Hin by (rewrite E; apply elem_of_cons; by left).
    apply list_elem_of_filter in Hin as [HP Hy]. by destruct (Hall y Hy).
Qed.

Lemma subscriptionExists_elem w e c m :
  Commands.subscriptionExists w e c m = bool_decide (mkSignal c m e ∈ signals (db w)).
Proof.
  unfold Commands.subscriptionExists. cbn zeta.
  destruct (decide (mkSignal c m e ∈ signals (db w))) as [Hin|Hnin].
  - rewrite bool_decide_eq_true_2 by done. apply negb_true_iff, Z.eqb_neq.
    intros H. apply (inj Z.of_nat _ 0%nat) in H.
    pose proof (proj1 (filter_length_zero _ _) H _ Hin) as Hno.
    by apply Hno.
  - rewrite bool_decide_eq_false_2 by done. apply negb_false_iff, Z.eqb_eq.
    apply (f_equal Z.of_nat (y := 0%nat)). apply (proj2 (filter_length_zero _ _)).
    intros [c' m' e'] Hin (Hc & Hm & He). cbn in *. by subst.
Qed.

Lemma addUser_maxModels w e c c' :
  Commands.maxModels (addUser w e c) c' = Commands.maxModels w c'.
Proof.
  unfold Commands.maxModels, addUser. reduce_db.
  destruct (users (db w) !! c) as [u|] eqn:Hu; [done|].
  destruct (decide (c' = c)) as [->|Hne].
  - by rewrite lookup_insert_eq, Hu.
  - by rewrite lookup_insert_ne.
Qed.

Lemma maxModels_onSignals f w c :
  Commands.maxModels (withDB (onSignals f) w) c = Commands.maxModels w c.
Proof. done. Qed.

Lemma maxModels_cleanStatuses w c :
  Commands.maxModels (cleanStatuses w) c = Commands.maxModels w c.
Proof. done. Qed.

Lemma setLimit_maxModels w c n c' :
  Commands.maxModels (Commands.setLimit w c n) c' =
  if decide (c' = c) then n else Commands.maxModels w c'.
Proof.
  unfold Commands.maxModels, Commands.setLimit. reduce_db.
  destruct (decide (c' = c)) as [->|Hne].
  - destruct (users (db w) !! c); by rewrite lookup_insert_eq.
  - destruct (users (db w) !! c); by rewrite lookup_insert_ne.
Qed.

Lemma updateStatus_users w m st ts :
  users (db (updateStatus w m st ts).1) = users (db w).
Proof.
  unfold updateStatus.
  destruct (bool_decide (st <> StatusNotFound)); reduce_db;
    destruct (_ =? 0); try reflexivity; destruct (_ !! m); reflexivity.
Qed.

Lemma updateStatus_maxModels w m st ts c :
  Commands.maxModels (updateStatus w m st ts).1 c = Commands.maxModels w c.
Proof.
  unfold Commands.maxModels. rewrite updateStatus_users.
  destruct (updateStatus_frame w m st ts) as (Hb & _).
  unfold buffer in Hb. by injection Hb as -> _ _ _.
Qed.

Lemma updateStatus_signals w m st ts :
  signals (db (updateStatus w m st ts).1) = signals (db w).
Proof. apply updateStatus_frame. Qed.

Lemma updateStatus_buffer w m st ts : buffer (updateStatus w m st ts).1 = buffer w.
Proof. apply updateStatus_frame. Qed.

Section Subscriptions.
Variable botSend : nat -> sendResult.
Variable replySend : nat -> sendResult.
Variable strings_ToLower : string -> string.
Variable ModelIDRegexp_MatchString : string -> bool.
Variable HeavyUserRemainder : Z.

Local Notation "'sendTr'" := (Commands.sendTr replySend) (only parsing).
Local Notation "'subscriptionUsage'" :=
  (Commands.subscriptionUsage replySend) (only parsing).
Local Notation "'addModel'" :=
  (Commands.addModel botSend replySend strings_ToLower ModelIDRegexp_MatchString
                     HeavyUserRemainder) (only parsing).
Local Notation "'removeModel'" :=
  (Commands.removeModel replySend strings_ToLower ModelIDRegexp_MatchString)
  (only parsing).
Local Notation "'sureRemoveAll'" := (Commands.sureRemoveAll replySend) (only parsing).
Local Notation "'serve'" :=
  (Commands.serve botSend replySend strings_ToLower ModelIDRegexp_MatchString
                  HeavyUserRemainder) (only parsing).
Local Notation "'run'" :=
  (Commands.run botSend replySend strings_ToLower ModelIDRegexp_MatchString
                HeavyUserRemainder) (only parsing).

(** *** What the steps of the commands leave as it was *)

Lemma sendMessage_users w e msg :
  users (db (sendMessage botSend w e msg)) = users (db w).
Proof. unfold sendMessage. by destruct (botSend _). Qed.

Lemma reportStatus_signals w e c m st :
  signals (db (reportStatus botSend w e c m st)) = signals (db w).
Proof. apply reportStatus_frame. Qed.

Lemma reportStatus_statuses w e c m st :
  statuses (db (reportStatus botSend w e c m st)) = statuses (db w).
Proof. apply reportStatus_frame. Qed.

Lemma reportStatus_buffer w e c m st :
  buffer (reportStatus botSend w e c m st) = buffer w.
Proof. apply reportStatus_frame. Qed.

Lemma reportStatus_maxModels w e c m st c' :
  Commands.maxModels (reportStatus botSend w e c m st) c' = Commands.maxModels w c'.
Proof.
  unfold reportStatus.
  set (w1 := match st with
             | StatusOnline => _ | StatusOffline => _ | StatusDenied => _
             | _ => w end).
  assert (H1 : users (db w1) = users (db w) /\ cfg w1 = cfg w).
  { subst w1. destruct st; try done; unfold Bot.sendTr, sendText;
      (split; [apply sendMessage_users|]);
      match goal with
      | |- cfg (sendMessage _ ?w ?e ?msg) = _ =>
        destruct (sendMessage_frame botSend w e msg) as (Hb & _);
        unfold buffer in Hb; by injection Hb as -> _ _ _
      end. }
  destruct H1 as [Hu Hc].
  transitivity (Commands.maxModels (addUser w1 e c) c').
  - unfold Commands.maxModels. reduce_db.
    destruct (decide (c' = c)) as [->|Hne].
    + rewrite lookup_alter, decide_True by done.
      by destruct (_ !! c).
    + by rewrite lookup_alter_ne.
  - rewrite addUser_maxModels. unfold Commands.maxModels. by rewrite Hu, Hc.
Qed.

Lemma sendTr_signals s e c n tr args :
  signals (db (Commands.bot (sendTr s e c n tr args)))
  = signals (db (Commands.bot s)).
Proof. unfold Commands.sendTr. by destruct (replySend _). Qed.

Lemma sendTr_statuses s e c n tr args :
  statuses (db (Commands.bot (sendTr s e c n tr args)))
  = statuses (db (Commands.bot s)).
Proof. unfold Commands.sendTr. by destruct (replySend _). Qed.

Lemma sendTr_buffer s e c n tr args :
  buffer (Commands.bot (sendTr s e c n tr args)) = buffer (Commands.bot s).
Proof. unfold Commands.sendTr. by destruct (replySend _). Qed.

Lemma sendTr_outbox s e c n tr args :
  outbox (Commands.bot (sendTr s e c n tr args)) = outbox (Commands.bot s).
Proof. unfold Commands.sendTr. by destruct (replySend _). Qed.

Lemma sendTr_maxModels s e c n tr args c' :
  Commands.maxModels (Commands.bot (sendTr s e c n tr args)) c'
  = Commands.maxModels (Commands.bot s) c'.
Proof. unfold Commands.sendTr. by destruct (replySend _). Qed.

Lemma subscriptionUsage_signals s e c ad :
  signals (db (Commands.bot (subscriptionUsage s e c ad)))
  = signals (db (Commands.bot s)).
Proof. apply sendTr_signals. Qed.

Lemma subscriptionUsage_statuses s e c ad :
  statuses (db (Commands.bot (subscriptionUsage s e c ad)))
  = statuses (db (Commands.bot s)).
Proof. apply sendTr_statuses. Qed.

Lemma subscriptionUsage_buffer s e c ad :
  buffer (Commands.bot (subscriptionUsage s e c ad)) = buffer (Commands.bot s).
Proof. apply sendTr_buffer. Qed.

Lemma subscriptionUsage_maxModels s e c ad c' :
  Commands.maxModels (Commands.bot (subscriptionUsage s e c ad)) c'
  = Commands.maxModels (Commands.bot s) c'.
Proof. apply sendTr_maxModels. Qed.

Ltac frames :=
  repeat first
    [ progress cbn [Commands.bot Commands.onBot Commands.replies]
    | rewrite subscriptionUsage_signals | rewrite subscriptionUsage_statuses
    | rewrite subscriptionUsage_buffer | rewrite subscriptionUsage_maxModels
    | rewrite sendTr_signals | rewrite sendTr_statuses
    | rewrite sendTr_buffer | rewrite sendTr_maxModels
    | rewrite reportStatus_signals | rewrite reportStatus_statuses
    | rewrite reportStatus_buffer | rewrite reportStatus_maxModels
    | rewrite updateStatus_signals | rewrite updateStatus_buffer
    | rewrite updateStatus_maxModels
    | rewrite addUser_maxModels | rewrite maxModels_onSignals
    | rewrite maxModels_cleanStatuses ].

Ltac framed := split_and?; intros; frames; reduce_db; done.

(** *** [addModel] *)

Lemma addModel_cases checkModel now s e c m :
  let m' := strings_ToLower m in
  let row := mkSignal c m' e in
  let w1 := addUser (Commands.bot s) e c in
  let accepted :=
    bool_decide (m <> EmptyString) && ModelIDRegexp_MatchString m'
    && negb (bool_decide (row ∈ signals (db (Commands.bot s))))
    && (Commands.subscriptionsNumber (Commands.bot s) e c
        <? Commands.maxModels (Commands.bot s) c)
    && negb (bool_decide (admission checkModel w1 m' = StatusUnknown
                          \/ admission checkModel w1 m' = StatusNotFound)) in
  exists s',
    addModel checkModel now s e c m = Some (s', accepted) /\
    buffer (Commands.bot s') = buffer (Commands.bot s) /\
    (forall c', Commands.maxModels (Commands.bot s') c'
                = Commands.maxModels (Commands.bot s) c') /\
    if accepted
    then signals (db (Commands.bot s')) = signals (db (Commands.bot s)) ++ [row] /\
         let w2 := withDB (onSignals (fun l => l ++ [row])) w1 in
         statuses (db (Commands.bot s')) =
           if bool_decide (admission checkModel w1 m' <> StatusExists)
           then statuses (db (updateStatus w2 m' (admission checkModel w1 m') now).1)
           else statuses (db (Commands.bot s))
    else signals (db (Commands.bot s')) = signals (db (Commands.bot s)) /\
         statuses (db (Commands.bot s')) = statuses (db (Commands.bot s)).
Proof.
  cbn zeta. unfold Commands.addModel.
  destruct (decide (m = EmptyString)) as [->|Hm].
  { rewrite (bool_decide_eq_true_2 (EmptyString = EmptyString)) by done.
    rewrite (bool_decide_eq_false_2 (EmptyString <> EmptyString)) by tauto.
    cbn [andb]. eexists. split; [reflexivity|]. framed. }
  rewrite (bool_decide_eq_false_2 (m = EmptyString)) by done.
  rewrite (bool_decide_eq_true_2 (m <> EmptyString)) by done.
  cbn [andb].
  destruct (ModelIDRegexp_MatchString (strings_ToLower m)); cbn [negb andb];
    [|eexists; split; [reflexivity|]; framed].
  rewrite subscriptionExists_elem. frames.
  change (signals (db (addUser (Commands.bot s) e c)))
    with (signals (db (Commands.bot s))).
  destruct (decide (mkSignal c (strings_ToLower m) e ∈ signals (db (Commands.bot s))))
    as [Hin|Hnin].
  { rewrite (bool_decide_eq_true_2 _ Hin). cbn [negb andb].
    eexists; split; [reflexivity|]; framed. }
  rewrite (bool_decide_eq_false_2 _ Hnin). cbn [negb andb].
  change (Commands.subscriptionsNumber (addUser (Commands.bot s) e c) e c)
    with (Commands.subscriptionsNumber (Commands.bot s) e c).
  rewrite Z.ltb_antisym.
  destruct (_ <=? _); cbn [negb andb];
    [eexists; split; [reflexivity|]; framed|].
  fold (admission checkModel (addUser (Commands.bot s) e c) (strings_ToLower m)).
  destruct (bool_decide (_ \/ _)); cbn [negb];
    [eexists; split; [reflexivity|]; framed|].
  unfold Commands.insertSignal. cbn [Commands.bot Commands.onBot].
  change (signals (db (addUser (Commands.bot s) e c)))
    with (signals (db (Commands.bot s))).
  rewrite (bool_decide_eq_false_2 _ Hnin).
  eexists. split; [reflexivity|].
  destruct (bool_decide (_ <> StatusExists)), (bool_decide (_ <> StatusDenied)),
    (_ <=? _); framed.
Qed.


(** *** [removeModel] and [sureRemoveAll] *)

Lemma removeModel_cases s e c m :
  let m' := strings_ToLower m in
  let row := mkSignal c m' e in
  let s' := removeModel s e c m in
  let removed :=
    bool_decide (m <> EmptyString) && ModelIDRegexp_MatchString m'
    && bool_decide (row ∈ signals (db (Commands.bot s))) in
  buffer (Commands.bot s') = buffer (Commands.bot s) /\
  outbox (Commands.bot s') = outbox (Commands.bot s) /\
  (forall c', Commands.maxModels (Commands.bot s') c'
              = Commands.maxModels (Commands.bot s) c') /\
  if removed
  then signals (db (Commands.bot s'))
       = filter (fun r => ~ (chat_id r = c /\ model_id r = m' /\ endpoint r = e))
                (signals (db (Commands.bot s))) /\
       statuses (db (Commands.bot s'))
       = filter (fun kv : string * statusRow =>
                   kv.1 ∈ model_id <$>
                     filter (fun r => ~ (chat_id r = c /\ model_id r = m'
                                         /\ endpoint r = e))
                            (signals (db (Commands.bot s))))
                (statuses (db (Commands.bot s)))
  else signals (db (Commands.bot s')) = signals (db (Commands.bot s)) /\
       statuses (db (Commands.bot s')) = statuses (db (Commands.bot s)).
Proof.
  cbn zeta. unfold Commands.removeModel.
  destruct (decide (m = EmptyString)) as [->|Hm].
  { rewrite (bool_decide_eq_true_2 (EmptyString = EmptyString)) by done.
    rewrite (bool_decide_eq_false_2 (EmptyString <> EmptyString)) by tauto.
    cbn [andb]. rewrite sendTr_outbox. framed. }
  rewrite (bool_decide_eq_false_2 (m = EmptyString)) by done.
  rewrite (bool_decide_eq_true_2 (m <> EmptyString)) by done.
  cbn [andb].
  destruct (ModelIDRegexp_MatchString (strings_ToLower m)); cbn [negb andb];
    [|rewrite sendTr_outbox; framed].
  rewrite subscriptionExists_elem.
  destruct (bool_decide (_ ∈ _)); cbn [negb]; [|rewrite sendTr_outbox; framed].
  rewrite sendTr_outbox. framed.
Qed.

Lemma sureRemoveAll_cases s e c :
  let s' := sureRemoveAll s e c in
  buffer (Commands.bot s') = buffer (Commands.bot s) /\
  outbox (Commands.bot s') = outbox (Commands.bot s) /\
  (forall c', Commands.maxModels (Commands.bot s') c'
              = Commands.maxModels (Commands.bot s) c') /\
  signals (db (Commands.bot s'))
  = filter (fun r => ~ (chat_id r = c /\ endpoint r = e))
           (signals (db (Commands.bot s))) /\
  statuses (db (Commands.bot s'))
  = filter (fun kv : string * statusRow =>
              kv.1 ∈ model_id <$>
                filter (fun r => ~ (chat_id r = c /\ endpoint r = e))
                       (signals (db (Commands.bot s))))
           (statuses (db (Commands.bot s))).
Proof.
  cbn zeta. unfold Commands.sureRemoveAll. rewrite sendTr_outbox. framed.
Qed.

(** *** The store under the calls *)

Lemma bufferSized_ext w w' : buffer w' = buffer w -> bufferSized w -> bufferSized w'.
Proof.
  unfold buffer, bufferSized. intros H. by injection H as -> -> _ _.
Qed.

Lemma maxModels_ext w w' c :
  users (db w') = users (db w) -> cfg w' = cfg w ->
  Commands.maxModels w' c = Commands.maxModels w c.
Proof. unfold Commands.maxModels. by intros -> ->. Qed.

Lemma buffer_cfg w w' : buffer w' = buffer w -> cfg w' = cfg w.
Proof. unfold buffer. intros H. by injection H as -> _ _ _. Qed.

Lemma recordsWatched_ext w w' :
  signals (db w') = signals (db w) -> statuses (db w') = statuses (db w) ->
  recordsWatched w -> recordsWatched w'.
Proof. unfold recordsWatched, watched. by intros -> ->. Qed.

Lemma updateStatus_recordsWatched w m st ts :
  recordsWatched w -> recordsWatched (updateStatus w m st ts).1.
Proof.
  intros Hinv m' Hsome. unfold watched. rewrite updateStatus_signals.
  destruct (decide (m' = m)) as [->|Hne].
  - destruct (decide (watched w m)) as [|Hnw]; [done|].
    apply Hinv. apply signalsCount_unwatched in Hnw.
    by apply (updateStatus_unwatched _ m st ts Hnw).
  - rewrite updateStatus_other in Hsome by done. by apply Hinv.
Qed.

Lemma cleaned_recordsWatched w w' l :
  signals (db w') = l ->
  statuses (db w') =
    filter (fun kv : string * statusRow => kv.1 ∈ model_id <$> l)
           (statuses (db w)) ->
  recordsWatched w'.
Proof.
  intros Hs Ht m [r Hr]. rewrite Ht in Hr. unfold watched. rewrite Hs.
  by apply map_lookup_filter_Some in Hr as [_ Hin].
Qed.

Lemma sendAll_users m (chats : list (Z * string)) : forall w,
  users (db (foldl (fun w (c : Z * string) =>
                      Bot.sendTr botSend w c.2 c.1 false ProfileRemoved m) w chats))
  = users (db w).
Proof.
  induction chats as [|c chats IH]; intros w; [done|]. cbn [foldl].
  rewrite IH. apply sendMessage_users.
Qed.

Lemma reportAll_maxModels m st (chats : list (Z * string)) c' : forall w,
  Commands.maxModels
    (foldl (fun w (c : Z * string) => reportStatus botSend w c.2 c.1 m st) w chats) c'
  = Commands.maxModels w c'.
Proof.
  induction chats as [|c chats IH]; intros w; [done|]. cbn [foldl].
  rewrite IH. apply reportStatus_maxModels.
Qed.

Lemma stage1_store w m st :
  (signals (db (stage1 botSend w m st)) = signals (db w) \/
   signals (db (stage1 botSend w m st))
   = filter (fun s => model_id s <> m) (signals (db w))) /\
  forall c, Commands.maxModels (stage1 botSend w m st) c = Commands.maxModels w c.
Proof.
  unfold stage1. case_bool_decide; [|by split; [left|]].
  unfold notFound. destruct (statuses (db w) !! m) as [r|]; [|by split; [left|]].
  destruct (_ >? _); [|by split; [left|]].
  set (w1 := withDB _ w).
  destruct (reportNotFound_frame botSend w1 m) as (Hb & Hs & _).
  split.
  - right. unfold removeNotFound, cleanStatuses. reduce_db. by rewrite Hs.
  - intros c. unfold removeNotFound. rewrite maxModels_cleanStatuses, maxModels_onSignals.
    apply maxModels_ext; [|by apply buffer_cfg in Hb].
    unfold reportNotFound. by rewrite sendAll_users.
Qed.

Lemma stage2_maxModels w m st ts c :
  Commands.maxModels (stage2 botSend w m st ts) c = Commands.maxModels w c.
Proof.
  unfold stage2. case_bool_decide; [|done].
  pose proof (updateStatus_maxModels w m st ts c) as Hu.
  destruct (updateStatus w m st ts) as [wu [|]]; cbn [fst] in Hu; [|done].
  by rewrite reportAll_maxModels.
Qed.

Lemma processStatusUpdate_store w u ts w' :
  processStatusUpdate botSend w u ts = Some w' ->
  (signals (db w') = signals (db w) \/
   signals (db w') = filter (fun s => model_id s <> ModelID u) (signals (db w))) /\
  forall c, Commands.maxModels w' c = Commands.maxModels w c.
Proof.
  intros H. rewrite processStatusUpdate_stages in H.
  apply recordUnknown_frame in H as (Hdb & _ & _ & Hc & _).
  destruct (stage2_frame botSend (stage1 botSend w (ModelID u) (Status u))
              (ModelID u) (Status u) ts) as (_ & Hs & _).
  destruct (stage1_store w (ModelID u) (Status u)) as [Hs1 Hm1].
  cbn zeta in *. split.
  - rewrite Hdb, Hs. exact Hs1.
  - intros c. rewrite <- Hm1.
    rewrite <- (stage2_maxModels (stage1 botSend w (ModelID u) (Status u))
                                 (ModelID u) (Status u) ts).
    apply maxModels_ext; [by rewrite Hdb|done].
Qed.

Lemma mainStep_store w e w' :
  mainStep botSend w e = Some w' ->
  (signals (db w') = signals (db w) \/
   exists m, signals (db w') = filter (fun s => model_id s <> m) (signals (db w))) /\
  (forall c, Commands.maxModels w' c = Commands.maxModels w c) /\
  (recordsWatched w -> recordsWatched w').
Proof.
  destruct e as [now ready|u ts]; cbn [mainStep]; intros H.
  - change (Some (processPeriodic botSend w now ready).1 = Some w') in H.
    apply (inj Some) in H. subst w'.
    destruct (processPeriodic_spec botSend w now ready)
      as (Hc & _ & _ & Hs & Ht & _). cbn zeta in *.
    split; [by left|]. split; [|by apply recordsWatched_ext].
    intros c. apply maxModels_ext; [|done].
    unfold processPeriodic. cbn [fst]. destruct (_ && _); [|done].
    cbn [db]. unfold sendText. by rewrite sendMessage_users.
  - destruct (processStatusUpdate_store w u ts w' H) as [[Hs|Hs] Hm].
    + split; [by left|]. split; [done|].
      intros Hinv. by apply (processStatusUpdate_recordsWatched botSend w u ts).
    + split; [right; by eexists|]. split; [done|].
      intros Hinv. by apply (processStatusUpdate_recordsWatched botSend w u ts).
Qed.

Lemma mainStep_total w e :
  bufferReady w -> bufferSized w ->
  exists w', mainStep botSend w e = Some w' /\ bufferReady w' /\ bufferSized w'.
Proof.
  intros Hr Hs.
  destruct (mainLoop_buffer botSend [e] w Hr Hs) as (w' & Hw' & Hc & Hb).
  cbn [mainLoop] in Hw'. destruct (mainStep botSend w e) as [w1|]; [|done].
  injection Hw' as ->. exists w'. split; [done|].
  destruct Hr as [Hpos Hd]. unfold bufferSized in Hs.
  destruct (writeSamples_inv (errorDenominator (cfg w)) (samplesOf [e])
              (unknowns w) (unknownsPos w) Hs) as [Hl Hp']; [lia|].
  rewrite <- Hb in Hl, Hp'. cbn [fst snd] in Hl, Hp'.
  unfold bufferReady, bufferSized. rewrite Hc, Hl. lia.
Qed.

Lemma filter_filter_length {A} (P Q : A -> Prop) `{!forall x, Decision (P x)}
  `{!forall x, Decision (Q x)} (l : list A) :
  (length (filter Q (filter P l)) <= length (filter Q l))%nat.
Proof.
  induction l as [|x l IH]; [done|].
  rewrite !filter_cons. destruct (decide (P x)), (decide (Q x));
    rewrite ?filter_cons; try destruct (decide (Q x)); cbn [length]; try done; lia.
Qed.

Lemma subscriptionsNumber_filtered w w' (P : signal -> Prop)
  `{!forall x, Decision (P x)} e c :
  signals (db w') = filter P (signals (db w)) ->
  Commands.subscriptionsNumber w' e c <= Commands.subscriptionsNumber w e c.
Proof.
  intros Hs. unfold Commands.subscriptionsNumber. rewrite Hs.
  apply inj_le, filter_filter_length.
Qed.

Lemma subscriptionsNumber_appended w w' row e c :
  signals (db w') = signals (db w) ++ [row] ->
  Commands.subscriptionsNumber w' e c =
  Commands.subscriptionsNumber w e c
  + (if decide (chat_id row = c /\ endpoint row = e) then 1 else 0).
Proof.
  intros Hs. unfold Commands.subscriptionsNumber.
  rewrite Hs, filter_app, length_app, filter_cons, filter_nil.
  destruct (decide _); cbn [length]; lia.
Qed.

Lemma subscriptionsNumber_same w w' e c :
  signals (db w') = signals (db w) ->
  Commands.subscriptionsNumber w' e c = Commands.subscriptionsNumber w e c.
Proof. unfold Commands.subscriptionsNumber. by intros ->. Qed.

(** *** The calls one by one *)

(** X15.  [addModel] never panics: the row it inserts is never in
    [signals] already, so the primary key holds.  When it answers [true]
    it has added exactly one row, for the chat, the endpoint and the
    lower-cased identifier, at the end of [signals]; the identifier is
    not empty, passes [ModelIDRegexp], and its status (the stored one of
    an entity being checked, else the answer of the site) is neither
    Unknown nor NotFound.  When it answers [false] the subscriptions and
    the status records are as they were.  The error monitor is not
    touched in either case. *)
Theorem addModel_subscriptions checkModel now s e c m :
  exists s' ok,
    addModel checkModel now s e c m = Some (s', ok) /\
    buffer (Commands.bot s') = buffer (Commands.bot s) /\
    let row := mkSignal c (strings_ToLower m) e in
    let st := admission checkModel (Commands.bot s) (strings_ToLower m) in
    if ok
    then (row ∉ signals (db (Commands.bot s))) /\
         signals (db (Commands.bot s')) = signals (db (Commands.bot s)) ++ [row] /\
         m <> EmptyString /\
         ModelIDRegexp_MatchString (strings_ToLower m) = true /\
         st <> StatusUnknown /\ st <> StatusNotFound
    else signals (db (Commands.bot s')) = signals (db (Commands.bot s)) /\
         statuses (db (Commands.bot s')) = statuses (db (Commands.bot s)).
Proof.
  destruct (addModel_cases checkModel now s e c m) as (s' & Hs' & Hb & _ & Hcase).
  cbn zeta in *. eexists s', _. split; [exact Hs'|]. split; [exact Hb|].
  change (admission checkModel (addUser (Commands.bot s) e c) (strings_ToLower m))
    with (admission checkModel (Commands.bot s) (strings_ToLower m)) in *.
  destruct (_ && _) eqn:Hacc in Hcase |- *; [|exact Hcase].
  destruct Hcase as [Hsig _].
  repeat (apply andb_true_iff in Hacc as [Hacc ?]).
  apply bool_decide_eq_true in Hacc.
  repeat match goal with
         | H : negb _ = true |- _ => apply negb_true_iff, bool_decide_eq_false in H
         end.
  split_and?; try done; tauto.
Qed.

(** X16.  [addModel] keeps every chat within its limit: it changes the
    limit of no chat, and when it answers [true] the chat has one
    subscription more on the endpoint than before and at most as many as
    its limit; when it answers [false] the number of subscriptions of
    every chat on every endpoint is as before.  So a chat that has
    reached its limit is always refused. *)
Theorem addModel_limit checkModel now s e c m :
  exists s' ok,
    addModel checkModel now s e c m = Some (s', ok) /\
    (forall c', Commands.maxModels (Commands.bot s') c'
                = Commands.maxModels (Commands.bot s) c') /\
    if ok
    then Commands.subscriptionsNumber (Commands.bot s') e c
         = Commands.subscriptionsNumber (Commands.bot s) e c + 1 /\
         Commands.subscriptionsNumber (Commands.bot s') e c
         <= Commands.maxModels (Commands.bot s') c
    else forall e' c', Commands.subscriptionsNumber (Commands.bot s') e' c'
                       = Commands.subscriptionsNumber (Commands.bot s) e' c'.
Proof.
  destruct (addModel_cases checkModel now s e c m) as (s' & Hs' & _ & Hm & Hcase).
  cbn zeta in *. eexists s', _. split; [exact Hs'|]. split; [exact Hm|].
  destruct (_ && _) eqn:Hacc in Hcase |- *.
  - destruct Hcase as [Hsig _].
    repeat (apply andb_true_iff in Hacc as [Hacc ?]).
    match goal with H : (_ <? _) = true |- _ => apply Z.ltb_lt in H; rename H into Hlt end.
    rewrite (subscriptionsNumber_appended _ _ _ e c Hsig). cbn [chat_id endpoint].
    rewrite decide_True by done. rewrite Hm. lia.
  - destruct Hcase as [Hsig _]. intros e' c'. by apply subscriptionsNumber_same.
Qed.

(** X17.  [removeModel] deletes the one row of the chat, the endpoint and
    the lower-cased identifier, when the identifier is valid and the row
    exists, and then the status records of the entities left without a
    subscription; every other row stays, in its place.  Otherwise
    subscriptions and records are as they were.  Limits, error monitor
    and status messages are not touched. *)
Theorem removeModel_spec s e c m :
  let row := mkSignal c (strings_ToLower m) e in
  let s' := removeModel s e c m in
  let removed :=
    bool_decide (m <> EmptyString) && ModelIDRegexp_MatchString (strings_ToLower m)
    && bool_decide (row ∈ signals (db (Commands.bot s))) in
  signals (db (Commands.bot s'))
  = (if removed then filter (fun r => r <> row) (signals (db (Commands.bot s)))
     else signals (db (Commands.bot s))) /\
  (forall k, statuses (db (Commands.bot s')) !! k =
             if removed && negb (bool_decide (watched (Commands.bot s') k))
             then None else statuses (db (Commands.bot s)) !! k) /\
  buffer (Commands.bot s') = buffer (Commands.bot s) /\
  outbox (Commands.bot s') = outbox (Commands.bot s) /\
  (forall c', Commands.maxModels (Commands.bot s') c'
              = Commands.maxModels (Commands.bot s) c').
Proof.
  destruct (removeModel_cases s e c m) as (Hb & Ho & Hm & Hcase). cbn zeta in *.
  split_and?; try done.
  - destruct (_ && _); [|by destruct Hcase].
    destruct Hcase as [-> _].
    apply list_filter_iff. intros [c' m' e']. cbn. split.
    + intros H [= -> -> ->]. tauto.
    + intros H (-> & -> & ->). done.
  - intros k. destruct (_ && _); cbn [andb]; [|by destruct Hcase as [_ ->]].
    destruct Hcase as [Hs Ht]. rewrite Ht.
    assert (Hw : watched (Commands.bot (removeModel s e c m)) k <->
                 k ∈ model_id <$>
                   filter (fun r => ~ (chat_id r = c
                                       /\ model_id r = strings_ToLower m
                                       /\ endpoint r = e))
                          (signals (db (Commands.bot s))))
      by (unfold watched; by rewrite Hs).
    destruct (statuses (db (Commands.bot s)) !! k) as [r|] eqn:Hr.
    + case_bool_decide as Hd; cbn [negb]; rewrite Hw in Hd.
      * by apply map_lookup_filter_Some.
      * apply map_lookup_filter_None. right. intros r' _. exact Hd.
    + rewrite map_lookup_filter_None_2 by (by left). by destruct (negb _).
Qed.

(** X18.  [sureRemoveAll] deletes every subscription of the chat on the
    endpoint and no other row, so the chat has no subscription left
    there and the other chats and endpoints have theirs; then it deletes
    the status records of the entities left without a subscription, and
    only those.  Limits, error monitor and status messages are not
    touched. *)
Theorem sureRemoveAll_spec s e c :
  let s' := sureRemoveAll s e c in
  signals (db (Commands.bot s'))
  = filter (fun r => ~ (chat_id r = c /\ endpoint r = e))
           (signals (db (Commands.bot s))) /\
  Commands.subscriptionsNumber (Commands.bot s') e c = 0 /\
  (forall k, statuses (db (Commands.bot s')) !! k =
             if bool_decide (watched (Commands.bot s') k)
             then statuses (db (Commands.bot s)) !! k else None) /\
  buffer (Commands.bot s') = buffer (Commands.bot s) /\
  outbox (Commands.bot s') = outbox (Commands.bot s) /\
  (forall c', Commands.maxModels (Commands.bot s') c'
              = Commands.maxModels (Commands.bot s) c').
Proof.
  destruct (sureRemoveAll_cases s e c) as (Hb & Ho & Hm & Hs & Ht). cbn zeta in *.
  split_and?; try done.
  - unfold Commands.subscriptionsNumber. rewrite Hs.
    apply (f_equal Z.of_nat (y := 0%nat)). apply (proj2 (filter_length_zero _ _)).
    intros r Hr. by apply list_elem_of_filter in Hr as [Hn _].
  - intros k. rewrite Ht.
    assert (Hw : watched (Commands.bot (sureRemoveAll s e c)) k <->
                 k ∈ model_id <$>
                   filter (fun r => ~ (chat_id r = c /\ endpoint r = e))
                          (signals (db (Commands.bot s))))
      by (unfold watched; by rewrite Hs).
    destruct (statuses (db (Commands.bot s)) !! k) as [r|] eqn:Hr.
    + case_bool_decide as Hd; rewrite Hw in Hd.
      * by apply map_lookup_filter_Some.
      * apply map_lookup_filter_None. right. intros r' _. exact Hd.
    + rewrite map_lookup_filter_None_2 by (by left). by destruct (bool_decide _).
Qed.

(** *** Sequences of calls *)

Lemma serve_store s c :
  bufferReady (Commands.bot s) -> bufferSized (Commands.bot s) ->
  keysUnique (Commands.bot s) -> recordsWatched (Commands.bot s) ->
  exists s',
    serve s c = Some s' /\
    bufferReady (Commands.bot s') /\ bufferSized (Commands.bot s') /\
    keysUnique (Commands.bot s') /\ recordsWatched (Commands.bot s').
Proof.
  intros Hr Hz Hk Hw.
  destruct c as [checkModel now e c m|e c m|e c|c n|e c|ev]; cbn [Commands.serve].
  - destruct (addModel_cases checkModel now s e c m) as (s' & Hs' & Hb & _ & Hcase).
    cbn zeta in *. rewrite Hs'. exists s'. split; [done|].
    split; [by apply (bufferReady_ext _ _ Hb)|].
    split; [by apply (bufferSized_ext _ _ Hb)|].
    destruct (_ && _) eqn:Hacc in Hcase.
    + destruct Hcase as [Hsig Hst].
      repeat (apply andb_true_iff in Hacc as [Hacc ?]).
      repeat match goal with
             | H : negb _ = true |- _ => apply negb_true_iff, bool_decide_eq_false in H
             end.
      split.
      * unfold keysUnique. rewrite Hsig. apply NoDup_app. split; [done|].
        split; [|apply NoDup_singleton].
        intros x Hx Hx'. apply list_elem_of_singleton in Hx'. by subst.
      * set (row := mkSignal c (strings_ToLower m) e) in *.
        set (w2 := withDB (onSignals (fun l => l ++ [row]))
                          (addUser (Commands.bot s) e c)) in *.
        assert (Hw2 : recordsWatched w2).
        { intros k Hk'. unfold watched. subst w2. reduce_db.
          rewrite fmap_app, elem_of_app. left. by apply Hw. }
        case_bool_decide.
        -- apply (recordsWatched_ext
                    (updateStatus w2 (strings_ToLower m)
                       (admission checkModel (addUser (Commands.bot s) e c)
                                  (strings_ToLower m)) now).1);
             [by rewrite updateStatus_signals|exact Hst
             |by apply updateStatus_recordsWatched].
        -- apply (recordsWatched_ext w2); [done|done|done].
    + destruct Hcase as [Hsig Hst]. split.
      * unfold keysUnique. by rewrite Hsig.
      * by apply (recordsWatched_ext (Commands.bot s)).
  - destruct (removeModel_cases s e c m) as (Hb & _ & _ & Hcase). cbn zeta in *.
    eexists. split; [reflexivity|].
    split; [by apply (bufferReady_ext _ _ Hb)|].
    split; [by apply (bufferSized_ext _ _ Hb)|].
    destruct (_ && _) in Hcase; destruct Hcase as [Hsig Hst].
    + split.
      * unfold keysUnique. rewrite Hsig. by apply NoDup_filter.
      * by apply (cleaned_recordsWatched (Commands.bot s) _ _ Hsig).
    + split.
      * unfold keysUnique. by rewrite Hsig.
      * by apply (recordsWatched_ext (Commands.bot s)).
  - destruct (sureRemoveAll_cases s e c) as (Hb & _ & _ & Hsig & Hst). cbn zeta in *.
    eexists. split; [reflexivity|].
    split; [by apply (bufferReady_ext _ _ Hb)|].
    split; [by apply (bufferSized_ext _ _ Hb)|].
    split.
    + unfold keysUnique. rewrite Hsig. by apply NoDup_filter.
    + by apply (cleaned_recordsWatched (Commands.bot s) _ _ Hsig).
  - eexists. split; [reflexivity|]. done.
  - eexists. split; [reflexivity|]. done.
  - destruct (mainStep_total (Commands.bot s) ev Hr Hz) as (w' & Hw' & Hr' & Hz').
    rewrite Hw'. eexists. split; [reflexivity|]. cbn [Commands.bot].
    split; [done|]. split; [done|].
    destruct (mainStep_store _ _ _ Hw') as (Hsig & _ & Hrw).
    split; [|by apply Hrw].
    unfold keysUnique. destruct Hsig as [->|[k ->]]; [done|by apply NoDup_filter].
Qed.

(** X19.  Over any sequence of subscription commands, limit changes,
    status results and periodic evaluations that the worker gets through,
    a worker that starts with a buffer of [errorDenominator] slots and a
    position inside it, unique keys in [signals] and every status record
    watched ends in such a state again: the keys of [signals] stay
    unique, the buffer keeps its size and the position stays inside it,
    and no record outlives the last subscription of its entity. *)
Theorem run_keeps_store calls : forall s s',
  bufferReady (Commands.bot s) -> bufferSized (Commands.bot s) ->
  keysUnique (Commands.bot s) -> recordsWatched (Commands.bot s) ->
  run s calls = Some s' ->
  bufferReady (Commands.bot s') /\ bufferSized (Commands.bot s') /\
  keysUnique (Commands.bot s') /\ recordsWatched (Commands.bot s').
Proof.
  induction calls as [|c calls IH]; intros s s' Hr Hz Hk Hw Hrun.
  - cbn [Commands.run] in Hrun. apply (inj Some) in Hrun. by subst s'.
  - cbn [Commands.run] in Hrun.
    destruct (serve_store s c Hr Hz Hk Hw) as (s1 & Hs1 & Hr1 & Hz1 & Hk1 & Hw1).
    rewrite Hs1 in Hrun. by apply (IH s1 s').
Qed.

Lemma serve_withinLimits s c s' :
  isSetLimit c = false ->
  serve s c = Some s' ->
  withinLimits (Commands.bot s) ->
  withinLimits (Commands.bot s') /\
  forall k, Commands.maxModels (Commands.bot s') k
            = Commands.maxModels (Commands.bot s) k.
Proof.
  intros Hc Hs Hlim.
  assert (Hshrink : forall (P : signal -> Prop) `{!forall x, Decision (P x)},
            signals (db (Commands.bot s')) = filter P (signals (db (Commands.bot s))) ->
            (forall k, Commands.maxModels (Commands.bot s') k
                       = Commands.maxModels (Commands.bot s) k) ->
            withinLimits (Commands.bot s')).
  { intros P ? Hsig Hm e' c'. rewrite Hm.
    etransitivity;
      [exact (subscriptionsNumber_filtered (Commands.bot s) _ P e' c' Hsig)
      |apply Hlim]. }
  assert (Hsame : signals (db (Commands.bot s')) = signals (db (Commands.bot s)) ->
            (forall k, Commands.maxModels (Commands.bot s') k
                       = Commands.maxModels (Commands.bot s) k) ->
            withinLimits (Commands.bot s')).
  { intros Hsig Hm e' c'.
    rewrite Hm, (subscriptionsNumber_same _ _ e' c' Hsig). apply Hlim. }
  destruct c as [checkModel now e c m|e c m|e c|c n|e c|ev];
    cbn [Commands.serve isSetLimit] in *; try done.
  - destruct (addModel_cases checkModel now s e c m) as (s1 & Hs1 & _ & Hm & Hcase).
    cbn zeta in *. rewrite Hs1 in Hs. injection Hs as <-. split; [|done].
    destruct (_ && _) eqn:Hacc in Hcase; [|by apply Hsame; [destruct Hcase|]].
    destruct Hcase as [Hsig _].
    repeat (apply andb_true_iff in Hacc as [Hacc ?]).
    match goal with H : (_ <? _) = true |- _ => apply Z.ltb_lt in H; rename H into Hlt end.
    intros e' c'. rewrite Hm, (subscriptionsNumber_appended _ _ _ e' c' Hsig).
    cbn [chat_id endpoint].
    destruct (decide (c = c' /\ e = e')) as [[<- <-]|Hd].
    + lia.
    + pose proof (Hlim e' c'). lia.
  - injection Hs as <-.
    destruct (removeModel_cases s e c m) as (_ & _ & Hm & Hcase). cbn zeta in *.
    split; [|done].
    destruct (_ && _) in Hcase; destruct Hcase as [Hsig _];
      [by eapply Hshrink|by apply Hsame].
  - injection Hs as <-.
    destruct (sureRemoveAll_cases s e c) as (_ & _ & Hm & Hsig & _). cbn zeta in *.
    split; [|done]. by eapply Hshrink.
  - injection Hs as <-. split; [|done]. by apply Hsame.
  - destruct (mainStep botSend (Commands.bot s) ev) as [w'|] eqn:Hw'; [|done].
    injection Hs as <-. cbn [Commands.bot].
    destruct (mainStep_store _ _ _ Hw') as (Hsig & Hm & _).
    split; [|done].
    destruct Hsig as [Hsig|[k Hsig]]; [by apply Hsame|by eapply Hshrink].
Qed.

(** X20.  Over any sequence of [addModel], [removeModel],
    [sureRemoveAll] and [resetBlock] calls, status results and periodic
    evaluations that starts within the limits, no chat ever has more
    subscriptions on an endpoint than its limit, and the limit of every
    chat stays what it was.  (Only [setLimit], referrals and payments
    move a limit.) *)
Theorem run_withinLimits calls : forall s s',
  withinLimits (Commands.bot s) ->
  forallb (fun c => negb (isSetLimit c)) calls = true ->
  run s calls = Some s' ->
  withinLimits (Commands.bot s') /\
  forall k, Commands.maxModels (Commands.bot s') k
            = Commands.maxModels (Commands.bot s) k.
Proof.
  induction calls as [|c calls IH]; intros s s' Hlim Hno Hrun;
    cbn [Commands.run forallb] in *.
  - by injection Hrun as <-.
  - apply andb_true_iff in Hno as [Hc Hno]. apply negb_true_iff in Hc.
    destruct (serve s c) as [s1|] eqn:Hs1; [|done].
    destruct (serve_withinLimits s c s1 Hc Hs1 Hlim) as [Hlim1 Hm1].
    destruct (IH s1 s' Hlim1 Hno Hrun) as [Hlim' Hm'].
    split; [done|]. intros k. by rewrite Hm', Hm1.
Qed.

(** X21.  [setLimit] gives the chat the new limit and changes neither
    the limit of another chat nor any subscription, also when the new
    limit is below the number of subscriptions the chat has; from then
    on [addModel] refuses the chat on every endpoint where it has at
    least that many subscriptions, and leaves the subscriptions as they
    are. *)
Theorem setLimit_enforced checkModel now s e c m n :
  n <= Commands.subscriptionsNumber (Commands.bot s) e c ->
  let s0 := Commands.onBot (fun w => Commands.setLimit w c n) s in
  Commands.maxModels (Commands.bot s0) c = n /\
  (forall c', c' <> c -> Commands.maxModels (Commands.bot s0) c'
                         = Commands.maxModels (Commands.bot s) c') /\
  signals (db (Commands.bot s0)) = signals (db (Commands.bot s)) /\
  exists s',
    addModel checkModel now s0 e c m = Some (s', false) /\
    signals (db (Commands.bot s')) = signals (db (Commands.bot s)) /\
    Commands.maxModels (Commands.bot s') c = n.
Proof.
  intros Hn. cbn zeta.
  assert (Hmax : Commands.maxModels
                   (Commands.bot (Commands.onBot (fun w => Commands.setLimit w c n) s)) c
                 = n).
  { cbn [Commands.bot Commands.onBot].
    by rewrite setLimit_maxModels, decide_True. }
  split; [exact Hmax|]. split; [|split; [done|]].
  - intros c' Hne. cbn [Commands.bot Commands.onBot].
    by rewrite setLimit_maxModels, decide_False.
  - destruct (addModel_cases checkModel now
                (Commands.onBot (fun w => Commands.setLimit w c n) s) e c m)
      as (s' & Hs' & _ & Hm & Hcase).
    cbn zeta in *. rewrite Hmax in Hs', Hcase.
    change (Commands.subscriptionsNumber
              (Commands.bot (Commands.onBot (fun w => Commands.setLimit w c n) s)) e c)
      with (Commands.subscriptionsNumber (Commands.bot s) e c) in Hs', Hcase.
    assert (Hlt : (Commands.subscriptionsNumber (Commands.bot s) e c <? n) = false)
      by (apply Z.ltb_ge; lia).
    rewrite Hlt, andb_false_r in Hs', Hcase. cbn [andb] in Hs', Hcase.
    exists s'. split; [exact Hs'|]. split; [by destruct Hcase|].
    by rewrite Hm.
Qed.

(** X27.  A subscription and the first result do not notify twice: when
    [addModel] accepts an entity with a status other than Exists, it
    stores that status, and a following status result with the same
    status for the entity sends no message. *)
Theorem addModel_then_same_status checkModel now s e c m s' ts w' :
  let m' := strings_ToLower m in
  let st := admission checkModel (Commands.bot s) m' in
  addModel checkModel now s e c m = Some (s', true) ->
  st <> StatusExists ->
  processStatusUpdate botSend (Commands.bot s') (mkStatusUpdate m' st) ts = Some w' ->
  (status <$> statuses (db (Commands.bot s')) !! m') = Some st /\
  outbox w' = outbox (Commands.bot s').
Proof.
  cbn zeta. intros Hadd Hex Hres.
  destruct (addModel_cases checkModel now s e c m) as (s0 & Hs0 & _ & _ & Hcase).
  cbn zeta in *.
  change (admission checkModel (addUser (Commands.bot s) e c) (strings_ToLower m))
    with (admission checkModel (Commands.bot s) (strings_ToLower m)) in *.
  rewrite Hadd in Hs0. injection Hs0 as <- Hacc. rewrite <- Hacc in Hcase.
  destruct Hcase as [Hsig Hst].
  rewrite (bool_decide_eq_true_2 _ Hex) in Hst.
  symmetry in Hacc. repeat (apply andb_true_iff in Hacc as [Hacc ?]).
  match goal with
  | H : negb (bool_decide (_ \/ _)) = true |- _ =>
    apply negb_true_iff, bool_decide_eq_false in H; rename H into Hadm
  end.
  set (st := admission checkModel (Commands.bot s) (strings_ToLower m)) in *.
  set (m' := strings_ToLower m) in *.
  set (w2 := withDB (onSignals (fun l => l ++ [mkSignal c m' e]))
                    (addUser (Commands.bot s) e c)) in *.
  assert (Hnf : st <> StatusNotFound) by tauto.
  assert (Hun : st <> StatusUnknown) by tauto.
  assert (Hw2 : watched w2 m').
  { unfold watched. subst w2. reduce_db. rewrite fmap_app, elem_of_app. right.
    apply elem_of_cons. by left. }
  assert (Hr : exists r, statuses (db (Commands.bot s')) !! m' = Some r /\ status r = st).
  { rewrite Hst. destruct (statuses (db w2) !! m') as [r|] eqn:Hr.
    - rewrite (updateStatus_record w2 m' st now r Hw2 Hr). eexists. split; [done|].
      unfold storedAfter. cbn [status].
      by rewrite (bool_decide_eq_false_2 (st = StatusNotFound)).
    - destruct (updateStatus_first w2 m' st now Hw2 Hr) as [_ ->].
      eexists. split; [done|]. unfold storedAfter. cbn [status].
      by rewrite (bool_decide_eq_false_2 (st = StatusNotFound)). }
  destruct Hr as (r & Hr & Hsr). split; [by rewrite Hr, <- Hsr|].
  apply processStatusUpdate_outbox in Hres as (Ho & _). cbn zeta in Ho.
  cbn [ModelID Status] in Ho. rewrite stage1_other in Ho by done.
  rewrite Ho.
  assert (Hw' : watched (Commands.bot s') m').
  { unfold watched. rewrite Hsig, fmap_app, elem_of_app. right.
    apply elem_of_cons. by left. }
  rewrite (updateStatus_notify_record (Commands.bot s') m' st ts r Hw' Hr).
  unfold storedStatus.
  rewrite (bool_decide_eq_false_2 (st = StatusNotFound)) by done.
  rewrite (bool_decide_eq_false_2 (status r <> st)) by (intros []; done).
  cbn [andb]. by rewrite andb_false_r, app_nil_r.
Qed.

End Subscriptions.

Lemma run_keeps_store_witness :
  let s := sampleSession [] in
  bufferReady (Commands.bot s) /\ bufferSized (Commands.bot s) /\
  keysUnique (Commands.bot s) /\ recordsWatched (Commands.bot s) /\
  exists s',
    Commands.run alwaysSent alwaysSent ToLower Cam4ModelIDRegexp_MatchString 2
                 s sampleCalls = Some s' /\
    bufferReady (Commands.bot s') /\ bufferSized (Commands.bot s') /\
    keysUnique (Commands.bot s') /\ recordsWatched (Commands.bot s').
Proof.
  cbn zeta.
  assert (Hr : bufferReady (Commands.bot (sampleSession []))) by by_evaluation.
  assert (Hz : bufferSized (Commands.bot (sampleSession []))) by by_evaluation.
  assert (Hk : keysUnique (Commands.bot (sampleSession []))) by by_evaluation.
  assert (Hw : recordsWatched (Commands.bot (sampleSession []))).
  { intros m [r Hm]. cbn in Hm. by rewrite lookup_empty in Hm. }
  split; [exact Hr|]. split; [exact Hz|]. split; [exact Hk|]. split; [exact Hw|].
  eexists. split; [vm_compute; reflexivity|].
  apply (run_keeps_store alwaysSent alwaysSent ToLower
           Cam4ModelIDRegexp_MatchString 2 sampleCalls (sampleSession []) _
           Hr Hz Hk Hw).
  vm_compute; reflexivity.
Defined.

Lemma run_withinLimits_witness :
  let s := sampleSession [] in
  withinLimits (Commands.bot s) /\
  forallb (fun c => negb (isSetLimit c)) sampleCalls = true /\
  exists s',
    Commands.run alwaysSent alwaysSent ToLower Cam4ModelIDRegexp_MatchString 2
                 s sampleCalls = Some s' /\
    withinLimits (Commands.bot s') /\
    forall k, Commands.maxModels (Commands.bot s') k
              = Commands.maxModels (Commands.bot s) k.
Proof.
  cbn zeta.
  assert (Hlim : withinLimits (Commands.bot (sampleSession []))).
  { intros e c. unfold Commands.subscriptionsNumber, Commands.maxModels.
    cbn [sampleSession Commands.bot sampleWorker db users cfg signals].
    rewrite lookup_empty.
    etransitivity; [apply inj_le, length_filter|]. vm_compute. discriminate. }
  split; [exact Hlim|]. split; [reflexivity|].
  eexists. split; [vm_compute; reflexivity|].
  apply (run_withinLimits alwaysSent alwaysSent ToLower
           Cam4ModelIDRegexp_MatchString 2 sampleCalls (sampleSession []) _
           Hlim eq_refl).
  vm_compute; reflexivity.
Defined.

Lemma setLimit_enforced_witness :
  let s := sampleSession [] in
  let s0 := Commands.onBot (fun w => Commands.setLimit w 1 2) s in
  2 <= Commands.subscriptionsNumber (Commands.bot s) "ep" 1 /\
  Commands.maxModels (Commands.bot s0) 1 = 2 /\
  (forall c', c' <> 1 -> Commands.maxModels (Commands.bot s0) c'
                         = Commands.maxModels (Commands.bot s) c') /\
  signals (db (Commands.bot s0)) = signals (db (Commands.bot s)) /\
  exists s',
    Commands.addModel alwaysSent alwaysSent ToLower Cam4ModelIDRegexp_MatchString 2
                      allOnline 1000 s0 "ep" 1 "dave" = Some (s', false) /\
    signals (db (Commands.bot s')) = signals (db (Commands.bot s)) /\
    Commands.maxModels (Commands.bot s') 1 = 2.
Proof.
  cbn zeta.
  assert (H : 2 <= Commands.subscriptionsNumber (Commands.bot (sampleSession [])) "ep" 1)
    by (vm_compute; discriminate).
  split; [exact H|].
  exact (setLimit_enforced alwaysSent alwaysSent ToLower
           Cam4ModelIDRegexp_MatchString 2 allOnline 1000 (sampleSession [])
           "ep" 1 "dave" 2 H).
Defined.

Lemma addModel_then_same_status_witness :
  let s := sampleSession [] in
  let st := admission allOnline (Commands.bot s) (ToLower "Carol") in
  exists s' w',
    Commands.addModel alwaysSent alwaysSent ToLower Cam4ModelIDRegexp_MatchString 2
                      allOnline 1000 s "ep" 3 "Carol" = Some (s', true) /\
    st <> StatusExists /\
    processStatusUpdate alwaysSent (Commands.bot s')
                        (mkStatusUpdate (ToLower "Carol") st) 1010 = Some w' /\
    (status <$> statuses (db (Commands.bot s')) !! ToLower "Carol") = Some st /\
    outbox w' = outbox (Commands.bot s').
Proof.
  cbn zeta. eexists _, _.
  split; [vm_compute; reflexivity|].
  split; [vm_compute; discriminate|].
  split; [vm_compute; reflexivity|].
  eapply (addModel_then_same_status alwaysSent alwaysSent ToLower
            Cam4ModelIDRegexp_MatchString 2 allOnline 1000 (sampleSession [])
            "ep" 3 "Carol" _ 1010).
  - vm_compute; reflexivity.
  - vm_compute; discriminate.
  - vm_compute; reflexivity.
Defined.

(* ===================================================================== *)
(** ** The streak of NotFound results *)
(* ===================================================================== *)



Section NotFoundStreak.
Variable botSend : nat -> sendResult.






End NotFoundStreak.


(* ===================================================================== *)
(** ** The maps of the roster checkers *)
(* ===================================================================== *)

Lemma foldl_insert_lookup {A B C} (f : A -> string) (g : C -> A -> C)
  (get : C -> gmap string B) (v : A -> B) (l : list A) :
  (forall c x, get (g c x) = <[f x := v x]> (get c)) ->
  forall (c : C) (k : string),
  get (foldl g c l) !! k =
  match last (filter (fun x => f x = k) l) with
  | Some x => Some (v x)
  | None => get c !! k
  end.
Proof.
  intros Hg. induction l as [|x l IH]; intros c k; [done|].
  cbn [foldl]. rewrite IH, filter_cons, Hg.
  destruct (decide (f x = k)) as [<-|Hne].
  - rewrite last_cons. destruct (last (filter _ l)); [done|].
    by rewrite lookup_insert_eq.
  - destruct (last (filter _ l)); [done|]. by rewrite lookup_insert_ne.
Qed.

(** X23.  The two maps that [checkEndpoint] builds from a roster have the
    same keys, the names of the roster under [strings.ToLower] (whatever
    that function does to a name, ASCII or not): every key is Online in
    the first map, and the second map holds for it the image of the last
    roster entry whose name has that image under [strings.ToLower]
    (prefixed with [https:] by the BongaCams checker); a key that no
    roster name is mapped to is in neither map. *)
Theorem collect_spec (strings_ToLower : string -> string) k :
  (forall parsed : list BongaCams.bongacamsModel,
     let entry :=
       last (filter (fun m => strings_ToLower (BongaCams.Username m) = k) parsed) in
     (BongaCams.collect strings_ToLower parsed).1 !! k
     = (fun _ => StatusOnline) <$> entry /\
     (BongaCams.collect strings_ToLower parsed).2 !! k
     = (fun m => "https:" +:+ BongaCams.ThumbnailImageMediumLive m) <$> entry) /\
  (forall parsed : list Cam4.cam4Model,
     let entry :=
       last (filter (fun m => strings_ToLower (Cam4.Nickname m) = k) parsed) in
     (Cam4.collect strings_ToLower parsed).1 !! k
     = (fun _ => StatusOnline) <$> entry /\
     (Cam4.collect strings_ToLower parsed).2 !! k = Cam4.ThumbBig <$> entry).
Proof.
  split; intros parsed; cbn zeta.
  - unfold BongaCams.collect. split.
    + rewrite (foldl_insert_lookup (fun m => strings_ToLower (BongaCams.Username m))
                 _ fst
                 (fun _ => StatusOnline)) by done.
      cbn [fst]. rewrite lookup_empty. by destruct (last _).
    + rewrite (foldl_insert_lookup (fun m => strings_ToLower (BongaCams.Username m))
                 _ snd
                 (fun m => "https:" +:+ BongaCams.ThumbnailImageMediumLive m)) by done.
      cbn [snd]. rewrite lookup_empty. by destruct (last _).
  - unfold Cam4.collect. split.
    + rewrite (foldl_insert_lookup (fun m => strings_ToLower (Cam4.Nickname m)) _ fst
                 (fun _ => StatusOnline)) by done.
      cbn [fst]. rewrite lookup_empty. by destruct (last _).
    + rewrite (foldl_insert_lookup (fun m => strings_ToLower (Cam4.Nickname m)) _ snd
                 Cam4.ThumbBig) by done.
      cbn [snd]. rewrite lookup_empty. by destruct (last _).
Qed.

(* ===================================================================== *)
(** ** The count of reports *)
(* ===================================================================== *)

Lemma sum_reports_insert (us : gmap Z user) c u :
  us !! c = None ->
  map_fold (fun (_ : Z) (u : user) total => reports u + total) 0 (<[c := u]> us)
  = reports u
    + map_fold (fun (_ : Z) (u : user) total => reports u + total) 0 us.
Proof. intros H. rewrite map_fold_insert_L; [done|intros; lia|done]. Qed.

Lemma sum_reports_alter (us : gmap Z user) c u (f : user -> user) :
  us !! c = Some u ->
  map_fold (fun (_ : Z) (u : user) total => reports u + total) 0 (alter f c us)
  = map_fold (fun (_ : Z) (u : user) total => reports u + total) 0 us
    + (reports (f u) - reports u).
Proof.
  intros H.
  rewrite (map_fold_delete_L _ 0 c u us); [|intros; lia|done].
  rewrite (map_fold_delete_L _ 0 c (f u) (alter f c us)); [|intros; lia|].
  - rewrite delete_alter, decide_True by done. lia.
  - by rewrite lookup_alter, decide_True, H.
Qed.

Section Reports.
Variable botSend : nat -> sendResult.

(** X24.  [reportStatus] counts one report for the chat at every call,
    whatever the status: also for a status it has no message for
    (NotFound, Exists, Unknown), where nothing is sent.  It sends exactly
    one message for Online, Offline and Denied, creates the row of the
    chat in [users] when there was none, and changes the limit of no
    chat. *)
Theorem reportStatus_counts w e c m st :
  let w' := reportStatus botSend w e c m st in
  ReportsCount w' = ReportsCount w + 1 /\
  (reports <$> users (db w') !! c)
  = Some (default 0 (reports <$> users (db w) !! c) + 1) /\
  (forall c', c' <> c -> users (db w') !! c' = users (db w) !! c') /\
  (forall c', Commands.maxModels w' c' = Commands.maxModels w c') /\
  outbox w' = outbox w ++ statusMessage e c m st /\
  length (statusMessage e c m st) = (if bool_decide (presence st) then 1 else 0)%nat.
Proof.
  cbn zeta.
  assert (Hu : exists w1, reportStatus botSend w e c m st
                 = withDB (onUsers (alter (fun u => mkUser (max_models u) (reports u + 1)) c))
                          (addUser w1 e c)
               /\ users (db w1) = users (db w) /\ cfg w1 = cfg w).
  { unfold reportStatus. eexists. split; [reflexivity|].
    destruct st; try done; unfold Bot.sendTr, sendText;
      (split; [apply sendMessage_users|]);
      match goal with
      | |- cfg (sendMessage _ ?w ?e ?msg) = _ =>
        destruct (sendMessage_frame botSend w e msg) as (Hb & _);
        unfold buffer in Hb; by injection Hb as -> _ _ _
      end. }
  destruct Hu as (w1 & Heq & Hu1 & Hc1).
  split_and?.
  - rewrite Heq. unfold ReportsCount, addUser. reduce_db. rewrite Hu1.
    destruct (users (db w) !! c) as [u|] eqn:Hc.
    + rewrite (sum_reports_alter _ c u) by done. cbn [reports]. lia.
    + rewrite (sum_reports_alter _ c (mkUser (MaxModels (cfg w1)) 0))
        by (by rewrite lookup_insert_eq).
      rewrite sum_reports_insert by done. cbn [reports]. lia.
  - rewrite Heq. unfold addUser. reduce_db. rewrite Hu1.
    rewrite lookup_alter, decide_True by done.
    destruct (users (db w) !! c) as [u|] eqn:Hc.
    + by rewrite Hc.
    + by rewrite lookup_insert_eq.
  - intros c' Hne. rewrite Heq. unfold addUser. reduce_db. rewrite Hu1.
    rewrite lookup_alter_ne by done.
    destruct (users (db w) !! c); [done|]. by rewrite lookup_insert_ne.
  - intros c'. apply reportStatus_maxModels.
  - apply reportStatus_frame.
  - unfold presence. destruct st; cbn [statusMessage length];
      (rewrite bool_decide_eq_true_2 by tauto) ||
      (rewrite bool_decide_eq_false_2 by (intros [|[|]]; done)); done.
Qed.

End Reports.

(* ===================================================================== *)
(** ** A failed round of the checker, seen from the worker *)
(* ===================================================================== *)

Lemma countTrue_replicate n : countTrue (replicate n true) = Z.of_nat n.
Proof.
  unfold countTrue. f_equal. induction n as [|n IH]; [done|].
  cbn [replicate]. rewrite filter_cons, decide_True by done. cbn [length].
  by rewrite IH.
Qed.

Lemma receivedFrom_sendUnknowns clock models : forall n,
  samplesOf (receivedFrom clock n (Stripchat.sendUnknowns models))
  = replicate (length models) true /\
  Forall (fun e => exists u ts, e = StatusReceived u ts /\ Status u = StatusUnknown)
         (receivedFrom clock n (Stripchat.sendUnknowns models)).
Proof.
  induction models as [|m models IH]; intros n; [by split; [|constructor]|].
  cbn [Stripchat.sendUnknowns map receivedFrom samplesOf length replicate Status].
  destruct (IH (S n)) as [Hs Hf]. split.
  - rewrite (bool_decide_eq_true_2 (StatusUnknown = StatusUnknown)) by done.
    f_equal. exact Hs.
  - constructor; [by eexists _, _|exact Hf].
Qed.

Section FailedRound.
Variable botSend : nat -> sendResult.

(** Results Unknown change neither the store nor the messages sent. *)
Lemma mainLoop_Unknowns events : forall w w',
  Forall (fun e => exists u ts, e = StatusReceived u ts /\ Status u = StatusUnknown)
         events ->
  mainLoop botSend w events = Some w' ->
  db w' = db w /\ outbox w' = outbox w /\ nextErrorReport w' = nextErrorReport w.
Proof.
  induction events as [|e events IH]; intros w w' Hall Hrun; cbn [mainLoop] in Hrun.
  - by injection Hrun as <-.
  - apply Forall_cons in Hall as [(u & ts & -> & Hu) Hall].
    cbn [mainStep] in Hrun.
    destruct (processStatusUpdate botSend w u ts) as [w1|] eqn:H1; [|done].
    destruct (IH w1 w' Hall Hrun) as (Hd & Ho & Hn).
    rewrite processStatusUpdate_stages in H1. rewrite Hu in H1.
    rewrite stage1_other in H1 by done. unfold stage2 in H1.
    rewrite (bool_decide_eq_false_2 (StatusUnknown <> StatusUnknown)) in H1 by tauto.
    apply recordUnknown_frame in H1 as (Hd1 & Ho1 & Hn1 & _).
    by rewrite Hd, Ho, Hn, Hd1, Ho1, Hn1.
Qed.

(** X26.  A failed round of the Stripchat checker is silent: when the
    query fails, answers another status than 200 or cannot be decoded,
    processing what the round sends changes no subscription, no status
    record and no counter, and sends no message; the results only fill
    the error monitor, so that after a watch-list of at least
    [errorDenominator] entities all its slots are set. *)
Theorem failed_round_is_silent (strings_ToLower : string -> string)
  (onlineQuery : string -> Client -> headers -> queryResult * Z)
  (decode : string -> string + Stripchat.stripchatResponse)
  (usersOnlineEndpoint : string) (clients : list Client) (hdrs : headers)
  (clientIdx : nat) (models : list string) (clock : nat -> Z) (w : worker)
  client :
  clients !! clientIdx = Some client ->
  roundFailed decode (onlineQuery usersOnlineEndpoint client hdrs).1 ->
  bufferReady w -> bufferSized w ->
  exists clientIdx' sent w',
    Stripchat.checkerRound strings_ToLower onlineQuery decode usersOnlineEndpoint
                           clients hdrs clientIdx models
    = Some (clientIdx', sent) /\
    mainLoop botSend w (receivedFrom clock 0 sent) = Some w' /\
    db w' = db w /\ outbox w' = outbox w /\
    nextErrorReport w' = nextErrorReport w /\
    if bool_decide (length (unknowns w) <= length models)%nat
    then unknownsNumber w' = errorDenominator (cfg w)
    else True.
Proof.
  intros Hc Hfail Hb Hz.
  assert (Hsent : exists clientIdx' elapsed,
            Stripchat.checkerRound strings_ToLower onlineQuery decode
                                   usersOnlineEndpoint clients hdrs clientIdx models
            = Some (clientIdx', Stripchat.OnElapsed elapsed
                                  :: Stripchat.sendUnknowns models)).
  { unfold Stripchat.checkerRound. rewrite Hc.
    destruct (onlineQuery usersOnlineEndpoint client hdrs) as [[e|resp buf] elapsed];
      cbn [fst roundFailed] in Hfail; [by eexists _, _|].
    destruct (Z.eqb_spec (StatusCode resp) 200) as [H200|Hne]; cbn [negb];
      [|by eexists _, _].
    destruct Hfail as [Hne|[e He]]; [done|]. rewrite He. by eexists _, _. }
  destruct Hsent as (clientIdx' & elapsed & Hround).
  rewrite Hround. eexists _, _.
  destruct (receivedFrom_sendUnknowns clock models 0) as [Hsamples Hall].
  cbn [receivedFrom].
  destruct (mainLoop_buffer botSend
              (receivedFrom clock 0 (Stripchat.sendUnknowns models)) w Hb Hz)
    as (w' & Hrun & Hcfg & Hbuf).
  exists w'. split; [reflexivity|]. split; [exact Hrun|].
  destruct (mainLoop_Unknowns _ _ _ Hall Hrun) as (Hd & Ho & Hn).
  split_and?; try done.
  case_bool_decide as Hlen; [|done].
  rewrite unknownsNumber_count.
  change (unknowns w') with (unknowns w', unknownsPos w').1. rewrite Hbuf.
  destruct Hb as [Hpos Hden]. unfold bufferSized in Hz.
  rewrite writeSamples_window; [|done|lia|by rewrite Hsamples, length_replicate].
  rewrite Hsamples, length_replicate, drop_replicate, countTrue_replicate.
  rewrite Hz. lia.
Qed.

End FailedRound.

Lemma failed_round_is_silent_witness :
  let failing (e : string) (c : Client) (h : headers) : queryResult * Z :=
    (QueryDone (mkResponse 503) "busy", 120) in
  let w := sampleWorker [("alice", mkStatus StatusOnline 0 100)] in
  let models := replicate 12 "alice" in
  [sampleClient] !! 0%nat = Some sampleClient /\
  roundFailed decodeRoster (failing "endpoint" sampleClient []).1 /\
  bufferReady w /\ bufferSized w /\
  exists clientIdx' sent w',
    Stripchat.checkerRound ToLower failing decodeRoster "endpoint" [sampleClient]
                           [] 0 models = Some (clientIdx', sent) /\
    mainLoop alwaysSent w (receivedFrom (fun n => 1000 + Z.of_nat n) 0 sent)
    = Some w' /\
    db w' = db w /\ outbox w' = outbox w /\
    nextErrorReport w' = nextErrorReport w /\
    if bool_decide (length (unknowns w) <= length models)%nat
    then unknownsNumber w' = errorDenominator (cfg w)
    else True.
Proof.
  cbn zeta.
  assert (Hf : roundFailed decodeRoster
                 ((QueryDone (mkResponse 503) "busy", 120) : queryResult * Z).1)
    by (left; vm_compute; discriminate).
  split; [reflexivity|]. split; [exact Hf|].
  assert (Hb : bufferReady (sampleWorker [("alice", mkStatus StatusOnline 0 100)]))
    by by_evaluation.
  assert (Hz : bufferSized (sampleWorker [("alice", mkStatus StatusOnline 0 100)]))
    by by_evaluation.
  split; [exact Hb|]. split; [exact Hz|].
  exact (failed_round_is_silent alwaysSent ToLower
           (fun _ _ _ => (QueryDone (mkResponse 503) "busy", 120)) decodeRoster
           "endpoint" [sampleClient] [] 0 (replicate 12 "alice")
           (fun n => 1000 + Z.of_nat n) _ sampleClient eq_refl Hf Hb Hz).
Defined.

(* ===================================================================== *)
(** ** Unblocking *)
(* ===================================================================== *)

(** X25.  [resetBlock], which opens the processing of every command of a
    chat and follows every delivered message, puts the chat back on the
    lists of [chatsForModel] for all its subscriptions on the endpoint,
    provided [BlockThreshold] is positive; with a threshold of zero or
    less a chat that has a block row is on no list, whatever its
    counter, also after the reset.  The lists of the other chats and
    endpoints do not change. *)
Theorem resetBlock_unblocks w e c m c' e' :
  (c', e') ∈ chatsForModel (resetBlock w e c) m <->
  mkSignal c' m e' ∈ signals (db w) /\
  if bool_decide ((c', e') = (c, e))
  then block (db w) !! (c, e) = None \/ 0 < BlockThreshold (cfg w)
  else notBlocked (cfg w) (db w) (mkSignal c' m e').
Proof.
  rewrite elem_of_chatsForModel. unfold resetBlock, notBlocked. reduce_db.
  cbn [chat_id endpoint].
  case_bool_decide as Heq.
  - injection Heq as -> ->. rewrite lookup_alter, decide_True by done.
    destruct (block (db w) !! (c, e)) as [b|]; cbn [fmap option_fmap option_map].
    + split; [intros [? ?]; split; [done|by right]|].
      intros [? [?|?]]; done.
    + split; [intros [? ?]; split; [done|by left]|]. by intros [? _].
  - by rewrite lookup_alter_ne by (intros [= -> ->]; done).
Qed.
